(** * QA-Genie AI service: credential lifecycle, generation client and
      response extraction

    A shallow embedding of [src/ai_service/app.py]: the [TokenManager] class,
    [WatsonXService.generate_text], the start-up block that builds the two
    singletons, the JSON recovery code of the [analyze_prd] and
    [analyze_recording] routes, the routes that call the model
    ([analyze_prd], [generate_cucumber_features], [analyze_recording],
    [test_api]) and those of the routes that answer by rule of thumb whose
    code decides something ([analyze_visual], [analyze_visual_similarity],
    [analyze_data_patterns], [train_model], [predict], [discover_patterns],
    [analyze_issue]).

    Python values are modelled by the type [Py.value]; text is a list of
    Unicode code points; [time.time()] and the arithmetic on its result are
    IEEE binary64, modelled with Rocq's primitive floats; the network and the
    clock are oracles threaded through a state-and-exception monad. *)

From Stdlib Require Import ZArith NArith String Ascii Bool Lia Floats List.
Import ListNotations.

Set Warnings "-inexact-float,-register-all".

(* ================================================================== *)
(** * Python text and values *)
(* ================================================================== *)

Module Py.

(** A Python [str] is a sequence of code points. *)
Definition str := list N.

(** [py "..."] writes a Python literal of ASCII characters: in the
    argument a single quote stands for the double quote character and
    backslash-n for a newline. *)
Fixpoint py (s : string) : str :=
  match s with
  | EmptyString => []
  | String "\" (String "n" r) => 10%N :: py r
  | String "'" r => 34%N :: py r
  | String a r => N_of_ascii a :: py r
  end.

Fixpoint str_eqb (a b : str) : bool :=
  match a, b with
  | [], [] => true
  | x :: a', y :: b' => N.eqb x y && str_eqb a' b'
  | _, _ => false
  end.

(** [s.startswith(p)], with what follows the prefix. *)
Fixpoint starts_with (p s : str) : option str :=
  match p, s with
  | [], _ => Some s
  | x :: p', y :: s' => if N.eqb x y then starts_with p' s' else None
  | _ :: _, [] => None
  end.

(** The objects [json.loads] can build: [None], [bool], [int], [float],
    [str], [list] and [dict] (string keys, insertion order kept). *)
Inductive value : Type :=
| VNone
| VBool (b : bool)
| VInt (z : Z)
| VFloat (f : float)
| VStr (s : str)
| VList (l : list value)
| VDict (d : list (str * value)).

Definition dict := list (str * value).

(** [d.get(k)] on the association list that represents a dict. *)
Fixpoint dict_lookup (d : dict) (k : str) : option value :=
  match d with
  | [] => None
  | (k', v) :: d' => if str_eqb k k' then Some v else dict_lookup d' k
  end.

(** [d[k] = v]: an existing key keeps its position, a new one goes last. *)
Fixpoint dict_set (d : dict) (k : str) (v : value) : dict :=
  match d with
  | [] => [(k, v)]
  | (k', v') :: d' =>
      if str_eqb k k' then (k', v) :: d' else (k', v') :: dict_set d' k v
  end.

(** Python truthiness, the test behind [if x:] and [not x]. *)
Definition truthy (v : value) : bool :=
  match v with
  | VNone => false
  | VBool b => b
  | VInt z => negb (Z.eqb z 0)
  | VFloat f => negb (PrimFloat.eqb f 0%float)
  | VStr s => match s with [] => false | _ => true end
  | VList l => match l with [] => false | _ => true end
  | VDict d => match d with [] => false | _ => true end
  end.

(** [float(z)] for a Python int: round to nearest, ties to even; [None]
    stands for the [OverflowError] of an int beyond the double range. *)
Definition float_of_int (z : Z) : option float :=
  match binary_normalize prec emax z 0 false with
  | S754_infinity _ => None
  | sf => Some (SF2Prim sf)
  end.

(** The exceptions the modelled code can raise. *)
Inductive exn : Type :=
| Exception (msg : str)
| HTTPException (status_code : Z) (detail : str)
| JSONDecodeError
| AttributeError
| TypeError
| IndexError
| KeyError
| OverflowError
| UnboundLocalError
| ConnectionError.

(** The outcome of running a piece of Python. *)
Inductive result (A : Type) : Type :=
| Return (a : A)
| Raise (e : exn).
Arguments Return {A} a.
Arguments Raise {A} e.

(** The float a number stands for in arithmetic with a float: an int is
    converted, a bool counts as 1 or 0; anything else is a [TypeError]. *)
Definition to_float (x : value) : result float :=
  match x with
  | VInt z =>
      match float_of_int z with
      | Some f => Return f
      | None => Raise OverflowError
      end
  | VBool b => Return (if b then 1 else 0)%float
  | VFloat f => Return f
  | _ => Raise TypeError
  end.

(** [x * y] for a float [y]. *)
Definition mul_float (x : value) (y : float) : result float :=
  match to_float x with
  | Return f => Return (f * y)%float
  | Raise e => Raise e
  end.

(** [x.get(k, default)]: only a dict has the method. *)
Definition get (x : value) (k : str) (default : value) : result value :=
  match x with
  | VDict d =>
      match dict_lookup d k with
      | Some v => Return v
      | None => Return default
      end
  | _ => Raise AttributeError
  end.

(** [x[0]]. *)
Definition index0 (x : value) : result value :=
  match x with
  | VList [] => Raise IndexError
  | VList (v :: _) => Return v
  | VStr [] => Raise IndexError
  | VStr (c :: _) => Return (VStr [c])
  | VDict _ => Raise KeyError
  | _ => Raise TypeError
  end.

(** Decimal rendering of an int, as an f-string formats it. *)
Definition digit_char (z : Z) : N := (48 + Z.to_N z)%N.

Fixpoint decimal_pos (fuel : nat) (z : Z) (acc : str) : str :=
  match fuel with
  | O => acc
  | S fuel' =>
      if (z <? 10)%Z then digit_char z :: acc
      else decimal_pos fuel' (z / 10)%Z (digit_char (z mod 10)%Z :: acc)
  end.

Definition str_of_nonneg (z : Z) : str :=
  decimal_pos (S (Z.to_nat (Z.log2 z))) z [].

Definition str_of_int (z : Z) : str :=
  if (z <? 0)%Z then 45%N :: str_of_nonneg (- z) else str_of_nonneg z.

End Py.

(* ================================================================== *)
(** * [json.loads] *)
(* ================================================================== *)

(** The decoder of Python's [json] module (its default, strict settings):
    the JSON grammar, plus the constants [NaN], [Infinity] and [-Infinity]
    that the module accepts.  A [JSONDecodeError] is the result [Bad].
    The limits of the interpreter (recursion depth, the optional bound on
    the digits of an int) are not part of the model: any nesting and any
    int are decoded. *)
Module Json.
Import Py.
Local Open Scope N_scope.

Inductive res (A : Type) : Type :=
| Ok (a : A) (rest : str)
| Bad
| OutOfFuel.
Arguments Ok {A} a rest.
Arguments Bad {A}.
Arguments OutOfFuel {A}.

(** The decoder's whitespace: space, tab, line feed, carriage return. *)
Definition is_ws (c : N) : bool :=
  (c =? 32) || (c =? 9) || (c =? 10) || (c =? 13).

Fixpoint skip_ws (s : str) : str :=
  match s with
  | c :: r => if is_ws c then skip_ws r else s
  | [] => []
  end.

Definition is_digit (c : N) : bool := (48 <=? c) && (c <=? 57).

Fixpoint span_digits (s : str) : str * str :=
  match s with
  | c :: r =>
      if is_digit c then let (d, r') := span_digits r in (c :: d, r')
      else ([], s)
  | [] => ([], [])
  end.

Definition digits_val (d : str) : Z :=
  fold_left (fun acc c => (acc * 10 + Z.of_N (c - 48))%Z) d 0%Z.

(** [float(lexeme)] for the decimal [(-1)^neg * m * 10^e10], correctly
    rounded (to nearest, ties to even). *)
Definition float_of_decimal (neg : bool) (m : Z) (e10 : Z) : float :=
  match m with
  | Zpos p =>
      match e10 with
      | Zneg k =>
          let '(q, e, l) :=
            SFdiv_core_binary prec emax (Zpos p) 0 (10 ^ Zpos k)%Z 0 in
          SF2Prim (binary_round_aux prec emax neg q e l)
      | _ => SF2Prim (binary_round prec emax neg (Z.to_pos (Zpos p * 10 ^ e10)) 0)
      end
  | _ => SF2Prim (S754_zero neg)
  end.

(** The optional fraction of a number: a dot and one or more digits. *)
Definition match_fraction (s : str) : option str * str :=
  match s with
  | 46 :: r =>
      match span_digits r with
      | ([], _) => (None, s)
      | (d, r') => (Some d, r')
      end
  | _ => (None, s)
  end.

(** The optional exponent of a number: an e or E, an optional sign and
    one or more digits. *)
Definition match_exponent (s : str) : option Z * str :=
  match s with
  | c :: r =>
      if (c =? 101) || (c =? 69) then
        let '(neg, r1) :=
          match r with
          | 45 :: r' => (true, r')
          | 43 :: r' => (false, r')
          | _ => (false, r)
          end in
        match span_digits r1 with
        | ([], _) => (None, s)
        | (d, r') => (Some (if neg then - digits_val d else digits_val d)%Z, r')
        end
      else (None, s)
  | [] => (None, s)
  end.

(** A number lexeme: an optional minus sign; a zero, or a non-zero digit
    and any digits; then the optional fraction and exponent.  Without
    fraction and exponent it is an int, otherwise a float. *)
Definition match_number (s : str) : option (value * str) :=
  let '(neg, s1) :=
    match s with
    | 45 :: r => (true, r)
    | _ => (false, s)
    end in
  let integer :=
    match s1 with
    | c :: r =>
        if c =? 48 then Some ([c], r)
        else if is_digit c then let (d, r') := span_digits r in Some (c :: d, r')
        else None
    | [] => None
    end in
  match integer with
  | None => None
  | Some (idigits, s2) =>
      let '(frac, s3) := match_fraction s2 in
      let '(exp, s4) := match_exponent s3 in
      match frac, exp with
      | None, None =>
          let z := digits_val idigits in
          Some (VInt (if neg then - z else z)%Z, s4)
      | _, _ =>
          let fdigits := match frac with Some d => d | None => [] end in
          let e := match exp with Some e => e | None => 0%Z end in
          Some (VFloat (float_of_decimal neg (digits_val (idigits ++ fdigits))
                          (e - Z.of_nat (length fdigits))), s4)
      end
  end.

(** Hexadecimal digits of a [\uXXXX] escape. *)
Definition hex_val (c : N) : option N :=
  if is_digit c then Some (c - 48)
  else if (97 <=? c) && (c <=? 102) then Some (c - 87)
  else if (65 <=? c) && (c <=? 70) then Some (c - 55)
  else None.

Definition hex4 (a b c d : N) : option N :=
  match hex_val a, hex_val b, hex_val c, hex_val d with
  | Some x, Some y, Some z, Some w => Some (((x * 16 + y) * 16 + z) * 16 + w)
  | _, _, _, _ => None
  end.

Definition unescape (c : N) : option N :=
  match c with
  | 34 => Some 34       (* double quote *)
  | 92 => Some 92       (* backslash *)
  | 47 => Some 47       (* slash *)
  | 98 => Some 8        (* b *)
  | 102 => Some 12      (* f *)
  | 110 => Some 10      (* n *)
  | 114 => Some 13      (* r *)
  | 116 => Some 9       (* t *)
  | _ => None
  end.

Definition is_high_surrogate (u : N) : bool := (55296 <=? u) && (u <=? 56319).
Definition is_low_surrogate (u : N) : bool := (56320 <=? u) && (u <=? 57343).

(** The body of a string literal, after its opening quote.  Control
    characters must be escaped; a high surrogate escape directly followed
    by a low surrogate escape is one code point. *)
Fixpoint scanstring (s : str) (acc : str) : res str :=
  match s with
  | [] => Bad
  | c :: r =>
      if c =? 34 then Ok (rev acc) r
      else if c =? 92 then
        match r with
        | [] => Bad
        | e :: r1 =>
            if e =? 117 then
              match r1 with
              | h1 :: h2 :: h3 :: h4 :: r2 =>
                  match hex4 h1 h2 h3 h4 with
                  | None => Bad
                  | Some u =>
                      if is_high_surrogate u then
                        match r2 with
                        | b :: e' :: l1 :: l2 :: l3 :: l4 :: r3 =>
                            if (b =? 92) && (e' =? 117) then
                              match hex4 l1 l2 l3 l4 with
                              | None => Bad
                              | Some u' =>
                                  if is_low_surrogate u' then
                                    scanstring r3
                                      (65536 + ((u - 55296) * 1024 + (u' - 56320))
                                       :: acc)
                                  else scanstring r2 (u :: acc)
                              end
                            else scanstring r2 (u :: acc)
                        | _ => scanstring r2 (u :: acc)
                        end
                      else scanstring r2 (u :: acc)
                  end
              | _ => Bad
              end
            else
              match unescape e with
              | Some c' => scanstring r1 (c' :: acc)
              | None => Bad
              end
        end
      else if c <? 32 then Bad
      else scanstring r (c :: acc)
  end.

(** The literals and numbers: [null], [true], [false], a number, [NaN],
    [Infinity], [-Infinity], tried in this order. *)
Definition parse_atom (s : str) : res value :=
  match starts_with (py "null") s with
  | Some r => Ok VNone r
  | None =>
  match starts_with (py "true") s with
  | Some r => Ok (VBool true) r
  | None =>
  match starts_with (py "false") s with
  | Some r => Ok (VBool false) r
  | None =>
  match match_number s with
  | Some (v, r) => Ok v r
  | None =>
  match starts_with (py "NaN") s with
  | Some r => Ok (VFloat nan) r
  | None =>
  match starts_with (py "Infinity") s with
  | Some r => Ok (VFloat infinity) r
  | None =>
  match starts_with (py "-Infinity") s with
  | Some r => Ok (VFloat neg_infinity) r
  | None => Bad
  end end end end end end end.

(** One value at the head of [s]; arrays and objects recurse on [fuel]. *)
Fixpoint parse_value (fuel : nat) (s : str) : res value :=
  match fuel with
  | O => OutOfFuel
  | S fuel' =>
      match s with
      | [] => Bad
      | c :: r =>
          if c =? 34 then
            match scanstring r [] with
            | Ok v r' => Ok (VStr v) r'
            | Bad => Bad
            | OutOfFuel => OutOfFuel
            end
          else if c =? 123 then
            match skip_ws r with
            | [] => Bad
            | c' :: r' =>
                if c' =? 125 then Ok (VDict []) r'
                else parse_members fuel' (c' :: r') []
            end
          else if c =? 91 then
            match skip_ws r with
            | [] => Bad
            | c' :: r' =>
                if c' =? 93 then Ok (VList []) r'
                else parse_elements fuel' (c' :: r') []
            end
          else parse_atom s
      end
  end

(** The elements of a non-empty array, [s] at the start of an element. *)
with parse_elements (fuel : nat) (s : str) (acc : list value) : res value :=
  match fuel with
  | O => OutOfFuel
  | S fuel' =>
      match parse_value fuel' s with
      | Ok v r =>
          match skip_ws r with
          | [] => Bad
          | c :: r' =>
              if c =? 93 then Ok (VList (rev (v :: acc))) r'
              else if c =? 44 then parse_elements fuel' (skip_ws r') (v :: acc)
              else Bad
          end
      | Bad => Bad
      | OutOfFuel => OutOfFuel
      end
  end

(** The members of a non-empty object, [s] at the start of a key.  A key
    met again keeps its place and takes the later value. *)
with parse_members (fuel : nat) (s : str) (acc : dict) : res value :=
  match fuel with
  | O => OutOfFuel
  | S fuel' =>
      match s with
      | [] => Bad
      | q :: r =>
          if q =? 34 then
            match scanstring r [] with
            | Ok k r1 =>
                match skip_ws r1 with
                | [] => Bad
                | c :: r2 =>
                    if c =? 58 then
                      match parse_value fuel' (skip_ws r2) with
                      | Ok v r3 =>
                          match skip_ws r3 with
                          | [] => Bad
                          | c' :: r4 =>
                              if c' =? 125 then Ok (VDict (dict_set acc k v)) r4
                              else if c' =? 44 then
                                parse_members fuel' (skip_ws r4) (dict_set acc k v)
                              else Bad
                          end
                      | Bad => Bad
                      | OutOfFuel => OutOfFuel
                      end
                    else Bad
                end
            | Bad => Bad
            | OutOfFuel => OutOfFuel
            end
          else Bad
      end
  end.

(** What a run may end in: a rest that is shorter than the input, or an
    error; never a lack of fuel. *)
Definition shorter {A} (s : str) (r : res A) : Prop :=
  match r with
  | Ok _ rest => (length rest < length s)%nat
  | Bad => True
  | OutOfFuel => False
  end.

Definition fuel_for (s : str) : nat := 2 * length s + 1.

(** [json.loads(s)]: one value, whitespace around it, nothing else.
    [None] is a raised [JSONDecodeError]. *)
Definition loads (s : str) : option value :=
  match parse_value (fuel_for s) (skip_ws s) with
  | Ok v r => match skip_ws r with [] => Some v | _ => None end
  | _ => None
  end.

End Json.


(* ================================================================== *)
(** * Recovering JSON from the model's answer *)
(* ================================================================== *)

Module Extractor.
Import Py.
Local Open Scope N_scope.

(** The class [\s] of Python's [re] on a str pattern: the Unicode
    whitespace characters. *)
Definition is_space (c : N) : bool :=
  ((9 <=? c) && (c <=? 13)) || ((28 <=? c) && (c <=? 32))
  || (c =? 133) || (c =? 160) || (c =? 5760)
  || ((8192 <=? c) && (c <=? 8202))
  || (c =? 8232) || (c =? 8233) || (c =? 8239) || (c =? 8287) || (c =? 12288).

Fixpoint skip_space (s : str) : str :=
  match s with
  | c :: r => if is_space c then skip_space r else s
  | [] => []
  end.

(** The markers of a fenced block: three backquotes, the word json and a
    newline; a newline and three backquotes. *)
Definition fence_open : str := py "```json\n".
Definition fence_close : str := py "\n```".

(** The lazy group of the fence pattern: the shortest text after which the
    closing marker stands. *)
Fixpoint lazy_until (close s : str) : option str :=
  match starts_with close s with
  | Some _ => Some []
  | None =>
      match s with
      | [] => None
      | c :: r =>
          match lazy_until close r with
          | Some g => Some (c :: g)
          | None => None
          end
      end
  end.

Definition match_fence_at (s : str) : option str :=
  match starts_with fence_open s with
  | Some r => lazy_until fence_close r
  | None => None
  end.

(** [re.search] of the fence pattern: the first position where it matches,
    and there group 1. *)
Fixpoint search_fence (s : str) : option str :=
  match match_fence_at s with
  | Some g => Some g
  | None =>
      match s with
      | [] => None
      | _ :: r => search_fence r
      end
  end.

(** The opening pattern of tier 3: an opening brace, any whitespace, the
    quoted key test_cases and a colon, any whitespace, an opening bracket.
    The character after each run of whitespace is not whitespace, so the
    greedy run is the only way to match. *)
Definition test_cases_key : str := py "'test_cases':".

Definition match_test_cases_at (s : str) : bool :=
  match s with
  | 123 :: r =>
      match starts_with test_cases_key (skip_space r) with
      | Some r' =>
          match skip_space r' with
          | 91 :: _ => true
          | _ => false
          end
      | None => false
      end
  | _ => false
  end.

(** [re.search] of the opening pattern from index [idx] on: the match's
    [start()]. *)
Fixpoint search_test_cases (s : str) (idx : nat) : option nat :=
  if match_test_cases_at s then Some idx
  else
    match s with
    | [] => None
    | _ :: r => search_test_cases r (S idx)
    end.

(** The loop [for i, char in enumerate(response[start_idx:])]: the final
    [open_braces], and [end_idx] when the loop left through [break]. *)
Fixpoint brace_loop (chars : str) (i start_idx : nat) (open_braces : Z)
  : Z * option nat :=
  match chars with
  | [] => (open_braces, None)
  | char :: rest =>
      if char =? 123 then brace_loop rest (S i) start_idx (open_braces + 1)%Z
      else if char =? 125 then
        let open_braces := (open_braces - 1)%Z in
        if (open_braces =? 0)%Z then (open_braces, Some (start_idx + i + 1)%nat)
        else brace_loop rest (S i) start_idx open_braces
      else brace_loop rest (S i) start_idx open_braces
  end.

(** [response[a:b]] for indices within the text. *)
Definition slice (s : str) (a b : nat) : str := firstn (b - a) (skipn a s).

(** Nesting depth of a text: its opening braces minus its closing ones. *)
Fixpoint depth (s : str) : Z :=
  match s with
  | [] => 0%Z
  | c :: r =>
      ((if (c =? 123)%N then 1 else if (c =? 125)%N then -1 else 0) + depth r)%Z
  end.

(** The length of the shortest non-empty prefix of [chars] that has depth
    zero. *)
Definition shortest_balanced (chars : str) : option nat :=
  find (fun n => (depth (firstn n chars) =? 0)%Z) (seq 1 (length chars)).

(** The first index of [s] from which [p] holds. *)
Definition first_index (p : str -> bool) (s : str) : option nat :=
  find (fun k => p (skipn k s)) (seq 0 (S (length s))).

Definition parse_failure : exn :=
  HTTPException 500 (py "Failed to parse model response as JSON").

Section Extract.

(** [json.loads]; [None] is a raised [JSONDecodeError]. *)
Variable json_loads : str -> option value.

(** A [json.loads] inside the handler of the first failure: its error is
    not handled there and leaves the block. *)
Definition loads_or_raise (s : str) : result value :=
  match json_loads s with
  | Some v => Return v
  | None => Raise JSONDecodeError
  end.

(** The recovery block of [analyze_prd] and [generate_cucumber_features]. *)
Definition analyze_prd_parse (response : str) : result value :=
  match json_loads response with
  | Some result => Return result
  | None =>
      match search_fence response with
      | Some group1 => loads_or_raise group1
      | None => Raise parse_failure
      end
  end.

(** The balanced scan of [analyze_recording], from the match on. *)
Definition raw_extraction (response : str) (start_idx : nat) : result value :=
  match brace_loop (skipn start_idx response) 0 start_idx 0 with
  | (0%Z, Some end_idx) => loads_or_raise (slice response start_idx end_idx)
  | (0%Z, None) => Raise UnboundLocalError
  | (_, _) => Raise parse_failure
  end.

(** The recovery block of [analyze_recording]. *)
Definition analyze_recording_parse (response : str) : result value :=
  match json_loads response with
  | Some result => Return result
  | None =>
      match search_fence response with
      | Some group1 => loads_or_raise group1
      | None =>
          match search_test_cases response 0 with
          | Some start_idx => raw_extraction response start_idx
          | None => Raise parse_failure
          end
      end
  end.

(** ** The strategies one by one

    The three strategies as functions from the text to an optional value,
    and the rule under which the first one that succeeds wins.  They are
    written from the description of the extractor, not from the code: the
    theorems below compare the two. *)

Definition tier1 (response : str) : option value := json_loads response.

Definition tier2 (response : str) : option value :=
  match search_fence response with
  | Some group1 => json_loads group1
  | None => None
  end.

Definition tier3 (response : str) : option value :=
  match first_index match_test_cases_at response with
  | Some start =>
      match shortest_balanced (skipn start response) with
      | Some n => json_loads (firstn n (skipn start response))
      | None => None
      end
  | None => None
  end.

Definition first_success (response : str) : option value :=
  match tier1 response with
  | Some v => Some v
  | None =>
      match tier2 response with
      | Some v => Some v
      | None => tier3 response
      end
  end.

End Extract.

End Extractor.

(* ================================================================== *)
(** * The process: globals, clock and network *)
(* ================================================================== *)

Module Service.
Import Py.

(** A header value: a plain string, or the f-string that puts the token
    after the word Bearer. *)
Inductive header_value : Type :=
| HStr (s : str)
| HBearer (token : value).

(** A call of [requests.post(url, headers=..., data=... / json=...)]. *)
Record request : Type := mk_request {
  url : str;
  headers : list (str * header_value);
  data : option dict;
  json : option value
}.

(** What the call gives back: an exception of the transport, or a
    response with its status code and text. *)
Inductive reply : Type :=
| Fails
| Response (status_code : Z) (text : str).

Record TokenManager : Type := mk_TokenManager {
  api_key : value;
  token : value;
  expiry_time : float
}.

(** A [WatsonXService]; its [token_manager] field is the one
    [TokenManager] of the process, the global below. *)
Record WatsonXService : Type := mk_WatsonXService {
  api_url : str;
  space_id : value
}.

(** The module's globals, the number of clock readings so far and the
    requests sent so far, latest first. *)
Record state : Type := mk_state {
  token_manager : option TokenManager;
  watson_service : option WatsonXService;
  clock_reads : nat;
  sent : list request
}.

Definition initial_state : state := mk_state None None 0 [].

(** Computations that read and change the state and may raise. *)
Definition M (A : Type) : Type := state -> result A * state.

Definition ret {A} (a : A) : M A := fun s => (Return a, s).
Definition raise {A} (e : exn) : M A := fun s => (Raise e, s).
Definition bind {A B} (m : M A) (k : A -> M B) : M B :=
  fun s =>
    match m s with
    | (Return a, s') => k a s'
    | (Raise e, s') => (Raise e, s')
    end.
Definition lift {A} (r : result A) : M A := fun s => (r, s).

(** [try: body / except Exception as e: handler(e)]. *)
Definition try_except {A} (body : M A) (handler : exn -> M A) : M A :=
  fun s =>
    match body s with
    | (Return a, s') => (Return a, s')
    | (Raise e, s') => handler e s'
    end.

Declare Scope py_scope.
Delimit Scope py_scope with py.
Notation "x <- m ;; k" := (bind m (fun x => k))
  (at level 61, m at next level, right associativity) : py_scope.
Notation "m ;;; k" := (bind m (fun _ => k))
  (at level 61, right associativity) : py_scope.
Local Open Scope py_scope.

Definition IAM_URL : str := py "https://iam.cloud.ibm.com/identity/token".
Definition GENERATION_PATH : str := py "/ml/v1/text/generation?version=2024-05-31".
Definition MODEL_ID : str := py "ibm/granite-13b-chat-v2".

Definition default_params : value :=
  VDict [ (py "max_new_tokens", VInt 4000);
          (py "temperature", VFloat 0.2);
          (py "top_p", VFloat 0.95);
          (py "min_new_tokens", VInt 100) ].

Section World.

(** The [k]-th reading of [time.time()] and the outcome of the [k]-th
    [requests.post], which may depend on the request. *)
Variable time_time : nat -> float.
Variable requests_post : nat -> request -> reply.

(** [response.json()]. *)
Variable json_loads : str -> option value.

Definition tick (s : state) : state :=
  mk_state (token_manager s) (watson_service s) (S (clock_reads s)) (sent s).

Definition log_request (r : request) (s : state) : state :=
  mk_state (token_manager s) (watson_service s) (clock_reads s) (r :: sent s).

Definition with_manager (tm : option TokenManager) (s : state) : state :=
  mk_state tm (watson_service s) (clock_reads s) (sent s).

Definition now : M float :=
  fun s => (Return (time_time (clock_reads s)), tick s).

Definition post (r : request) : M (Z * str) :=
  fun s =>
    match requests_post (length (sent s)) r with
    | Fails => (Raise ConnectionError, log_request r s)
    | Response status_code text => (Return (status_code, text), log_request r s)
    end.

Definition response_json (text : str) : M value :=
  match json_loads text with
  | Some v => ret v
  | None => raise JSONDecodeError
  end.

(** [self], for the methods of the token manager; calling one on [None]
    is an [AttributeError]. *)
Definition self : M TokenManager :=
  fun s =>
    match token_manager s with
    | Some tm => (Return tm, s)
    | None => (Raise AttributeError, s)
    end.

Definition set_self (tm : TokenManager) : M unit :=
  fun s => (Return tt, with_manager (Some tm) s).

Definition set_token (v : value) : M unit :=
  tm <- self ;; set_self (mk_TokenManager (api_key tm) v (expiry_time tm)).

Definition set_expiry_time (t : float) : M unit :=
  tm <- self ;; set_self (mk_TokenManager (api_key tm) (token tm) t).

(** ** [TokenManager] *)

Definition iam_request (key : value) : request :=
  mk_request IAM_URL
    [ (py "Content-Type", HStr (py "application/x-www-form-urlencoded")) ]
    (Some [ (py "grant_type", VStr (py "urn:ibm:params:oauth:grant-type:apikey"));
            (py "apikey", key) ])
    None.

Definition refresh_token : M bool :=
  try_except
    (tm <- self ;;
     response <- post (iam_request (api_key tm)) ;;
     let '(status_code, text) := response in
     if negb (status_code =? 200)%Z then ret false
     else
       token_data <- response_json text ;;
       access_token <- lift (get token_data (py "access_token") VNone) ;;
       set_token access_token ;;;
       expires_in <- lift (get token_data (py "expires_in") (VInt 3600)) ;;
       t <- now ;;
       lifetime <- lift (mul_float expires_in 0.9) ;;
       set_expiry_time (t + lifetime)%float ;;;
       ret true)
    (fun _ => ret false).

Definition get_token : M value :=
  t <- now ;;
  tm <- self ;;
  (if (expiry_time tm <? t)%float then refresh_token ;;; ret tt else ret tt) ;;;
  tm' <- self ;;
  ret (token tm').

(** [TokenManager(api_key)]. *)
Definition TokenManager_init (key : value) : M unit :=
  set_self (mk_TokenManager key VNone 0) ;;;
  refresh_token ;;;
  ret tt.

(** ** [WatsonXService.generate_text] *)

Definition generation_url (svc : WatsonXService) : str :=
  api_url svc ++ GENERATION_PATH.

Definition payload_of (svc : WatsonXService) (prompt : str)
    (system_prompt params : value) : dict :=
  let params := if negb (truthy params) then default_params else params in
  let payload :=
    [ (py "input", VStr prompt);
      (py "model_id", VStr MODEL_ID);
      (py "project_id", space_id svc);
      (py "parameters", params) ] in
  if truthy system_prompt then dict_set payload (py "system_prompt") system_prompt
  else payload.

Definition generation_request (svc : WatsonXService) (tok : value)
    (payload : dict) : request :=
  mk_request (generation_url svc)
    [ (py "Authorization", HBearer tok);
      (py "Content-Type", HStr (py "application/json")) ]
    None
    (Some (VDict payload)).

(** [result.get("results", [{}])[0].get("generated_text", "")]. *)
Definition generated_text_of (result : value) : Py.result value :=
  match get result (py "results") (VList [VDict []]) with
  | Return results =>
      match index0 results with
      | Return first => get first (py "generated_text") (VStr [])
      | Raise e => Raise e
      end
  | Raise e => Raise e
  end.

Definition generate_text (svc : WatsonXService) (prompt : str)
    (system_prompt params : value) : M value :=
  try_except
    (tok <- get_token ;;
     if negb (truthy tok) then raise (Exception (py "Failed to obtain valid token"))
     else
       let payload := payload_of svc prompt system_prompt params in
       response <- post (generation_request svc tok payload) ;;
       let '(status_code, text) := response in
       if negb (status_code =? 200)%Z then
         raise (Exception (py "API call failed with status code: "
                             ++ str_of_int status_code))
       else
         result <- response_json text ;;
         lift (generated_text_of result))
    (fun e => raise e).

(** ** Start-up and the routes' guard *)

Definition set_globals (tm : option TokenManager) (ws : option WatsonXService)
  : M unit :=
  fun s => (Return tt, mk_state tm ws (clock_reads s) (sent s)).

Definition set_watson_service (ws : option WatsonXService) : M unit :=
  fun s => (Return tt, mk_state (token_manager s) ws (clock_reads s) (sent s)).

(** The block that builds [token_manager] and [watson_service] from the
    configuration. *)
Definition startup (key space : value) (url_ : str) : M unit :=
  if negb (truthy key) || negb (truthy space) then set_globals None None
  else
    try_except
      (TokenManager_init key ;;;
       tok <- get_token ;;
       if negb (truthy tok) then raise (Exception (py "No valid token available"))
       else set_watson_service (Some (mk_WatsonXService url_ space)))
      (fun _ => set_watson_service None).

Definition not_initialized : exn :=
  HTTPException 500 (py "Watson X AI service not initialized. Check server logs.").

(** What every generation route does first: give up when there is no
    service, else call [generate_text] on it. *)
Definition route_generate (prompt : str) (system_prompt params : value)
  : M value :=
  fun s =>
    match watson_service s with
    | None => (Raise not_initialized, s)
    | Some svc => generate_text svc prompt system_prompt params s
    end.

(** ** Summaries used by the proofs *)

(** What a refresh leaves behind, given the reply to its request and the
    clock reading it would take: the returned flag, the manager, and
    whether the clock was read. *)
Definition refreshed (tm : TokenManager) (r : reply) (t : float)
  : bool * TokenManager * bool :=
  match r with
  | Fails => (false, tm, false)
  | Response status_code text =>
      if negb (status_code =? 200)%Z then (false, tm, false)
      else
        match json_loads text with
        | Some (VDict d) =>
            let access_token :=
              match dict_lookup d (py "access_token") with
              | Some v => v
              | None => VNone
              end in
            let expires_in :=
              match dict_lookup d (py "expires_in") with
              | Some v => v
              | None => VInt 3600
              end in
            match mul_float expires_in 0.9 with
            | Return lifetime =>
                (true,
                 mk_TokenManager (api_key tm) access_token (t + lifetime)%float,
                 true)
            | Raise _ =>
                (false,
                 mk_TokenManager (api_key tm) access_token (expiry_time tm),
                 true)
            end
        | _ => (false, tm, false)
        end
  end.

(** The generate call finds no usable credential: the process was started
    without an API key, or the token manager hands out a token that the
    caller's test [if not token] rejects. *)
Inductive no_usable_credential (s : state) : Prop :=
| no_api_key (s0 : state) (key space : value) (url_ : str) :
    truthy key = false ->
    s = snd (startup key space url_ s0) ->
    no_usable_credential s
| no_token (tok : value) :
    fst (get_token s) = Return tok ->
    truthy tok = false ->
    no_usable_credential s.

End World.

(** Requests addressed to the generation endpoint of a service. *)
Definition to_generation (svc : WatsonXService) (r : request) : bool :=
  str_eqb (url r) (generation_url svc).

(** A field of the JSON body of a request. *)
Definition body_field (r : request) (k : str) : option value :=
  match json r with
  | Some (VDict d) => dict_lookup d k
  | _ => None
  end.

End Service.

(* ================================================================== *)
(** * Concrete texts and worlds *)
(* ================================================================== *)

Module Examples.
Import Py Service.

Definition nested_object : str :=
  py "{'test_cases':[{'id':'TC001','steps':[{'step':'1'}]}],'summary':'ok'}".

Definition nested_text : str := py "Result: " ++ nested_object.

Definition nested_value : value :=
  VDict
    [ (py "test_cases",
       VList
         [ VDict
             [ (py "id", VStr (py "TC001"));
               (py "steps", VList [ VDict [ (py "step", VStr (py "1")) ] ]) ] ]);
      (py "summary", VStr (py "ok")) ].

Definition bare_text : str := py "{'a':1}".
Definition bare_value : value := VDict [ (py "a", VInt 1) ].
Definition prose_text : str := py "Sure, here you go: {'a':1} Hope that helps!".

Definition bare_test_cases : str := py "{'test_cases':[{'a':1}]}".
Definition prose_test_cases : str :=
  py "Sure, here you go: {'test_cases':[{'a':1}]} Hope that helps!".
Definition test_cases_value : value :=
  VDict [ (py "test_cases", VList [ VDict [ (py "a", VInt 1) ] ]) ].

Definition refusal_text : str := py "I cannot comply with this request.".
Definition short_refusal_text : str := py "No.".

(** A fenced block that is not JSON, followed by a well-formed object. *)
Definition bad_fence_text : str := py "```json
oops
``` {'test_cases':[]}".

(** A clock that gives the listed readings, then [last] for ever. *)
Definition clock (readings : list float) (last : float) : nat -> float :=
  fun k => nth k readings last.

(** A network whose identity endpoint always gives [iam] and whose other
    endpoints always give [gen]. *)
Definition network (iam gen : reply) : nat -> request -> reply :=
  fun _ r => if str_eqb (url r) IAM_URL then iam else gen.

Definition token_reply : reply :=
  Response 200 (py "{'access_token':'tok','expires_in':100}").
Definition empty_token_reply : reply :=
  Response 200 (py "{'access_token':'','expires_in':100}").
Definition no_token_reply : reply := Response 200 (py "{}").
Definition error_reply : reply := Response 500 (py "Internal Server Error").
Definition hello_reply : reply :=
  Response 200 (py "{'results':[{'generated_text':'hello'}]}").
Definition no_results_reply : reply := Response 200 (py "{'results':[]}").

Definition the_key : value := VStr (py "key").
Definition the_space : value := VStr (py "space").
Definition the_url : str := py "https://us-south.ml.cloud.ibm.com".
Definition the_service : WatsonXService := mk_WatsonXService the_url the_space.

(** A clock that reads 10 and 20 during start-up (the manager's refresh,
    then the check of the token) and 100 from then on; another that reads
    200 from then on. *)
Definition the_clock : nat -> float := clock [10; 20]%float 100%float.
Definition late_clock : nat -> float := clock [10; 20]%float 200%float.

(** The process after start-up. *)
Definition started (clk : nat -> float) (net : nat -> request -> reply) : state :=
  snd (startup clk net Json.loads the_key the_space the_url initial_state).

(** A network that answers the first request with a token and every later
    one with an empty object. *)
Definition revoked : nat -> request -> reply :=
  fun k _ => match k with O => token_reply | S _ => no_token_reply end.

(** A network that answers the first request with a token and every later
    one with HTTP 500. *)
Definition outage : nat -> request -> reply :=
  fun k _ => match k with O => token_reply | S _ => error_reply end.

(** The process right after the fields of a new manager are set. *)
Definition fresh : state :=
  with_manager (Some (mk_TokenManager the_key VNone 0)) initial_state.

(** A manager that holds the token tok until time 100. *)
Definition valid_manager : TokenManager :=
  mk_TokenManager the_key (VStr (py "tok")) 100%float.

End Examples.

(* ================================================================== *)
(** * The routes that call the model *)
(* ================================================================== *)

Module Routes.
Import Py Extractor Service.
Local Open Scope py_scope.

(** [text "..."] writes a Python literal over several lines: a single
    quote stands for the double quote character, every other character
    for itself. *)
Fixpoint text (s : string) : str :=
  match s with
  | EmptyString => []
  | String "'" r => 34%N :: text r
  | String a r => N_of_ascii a :: text r
  end.

(** The system prompt every generation route sends. *)
Definition SYSTEM_PROMPT : str := text "You are QA-Genie, an expert in test case generation.
Given a Product Requirements Document (PRD), you will generate comprehensive test cases.
Each test case should include:
- A clear title
- A description of what is being tested
- Preconditions needed for the test
- Step-by-step instructions
- Expected results for each step
- Priority level (must-have, should-have, nice-to-have)
- Relevant tags

Focus on functional requirements, edge cases, error handling, and user flows.
".

(** [TEST_CASE_PROMPT_TEMPLATE.format(prd_content=...)]: what stands before
    the content and what stands after it, the doubled braces of the
    template written once as [format] leaves them. *)
Definition TEST_CASE_PROMPT_HEAD : str := text "
### PRD CONTENT:
".

Definition TEST_CASE_PROMPT_TAIL : str := text "

### TASK:
Based on the PRD above, generate a comprehensive set of test cases that cover all the functional requirements.

### FORMAT:
Return the test cases as a JSON array with the following structure:
{
  'test_cases': [
    {
      'id': 'TC001',
      'title': 'Test case title',
      'description': 'Description of what is being tested',
      'preconditions': 'Any prerequisites for the test',
      'steps': [
        { 'step': '1', 'action': 'User action description' },
        { 'step': '2', 'action': 'Next user action description' }
      ],
      'expected_results': [
        'Expected result for step 1',
        'Expected result for step 2'
      ],
      'priority': 'must-have|should-have|nice-to-have',
      'tags': ['tag1', 'tag2']
    }
  ],
  'summary': 'Brief summary of the coverage',
  'coverage_percentage': 95.0
}

### OUTPUT:
Only return a valid JSON object with no explanations or markdown formatting.
".

(** [CUCUMBER_PROMPT_TEMPLATE.format(test_cases_json=...)], in the same way. *)
Definition CUCUMBER_PROMPT_HEAD : str := text "
### TEST CASES:
".

Definition CUCUMBER_PROMPT_TAIL : str := text "

### TASK:
Convert these test cases into Cucumber feature files using Gherkin syntax.

### FORMAT:
Return the feature files as a JSON object with feature file names as keys and content as values:
{
  'feature1.feature': 'Feature: Feature Name\n\n  Scenario: Scenario Name\n    Given precondition\n    When action\n    Then result',
  'feature2.feature': '...'
}

### OUTPUT:
Only return a valid JSON object with no explanations or markdown formatting.
".

(** The literal parts of the f-string of [analyze_recording], each named
    after the field that follows it. *)
Definition RECORDING_PROMPT_NAME : str := text "
### RECORDING CONTENT:
Recording Name: ".

Definition RECORDING_PROMPT_ID : str := text "
Recording ID: ".

Definition RECORDING_PROMPT_TIMESTAMP : str := text "
Timestamp: ".

Definition RECORDING_PROMPT_COUNT : str := text "
Number of Steps: ".

Definition RECORDING_PROMPT_STEPS : str := text "

### STEPS:
".

Definition RECORDING_PROMPT_TAIL : str := text "

### TASK:
Based on the Playwright recording above, generate a set of comprehensive test cases that cover the workflow.

### FORMAT:
Return the test cases as a JSON array with the following structure:
{
  'test_cases': [
    {
      'id': 'TC001',
      'title': 'Test case title',
      'description': 'Description of what is being tested',
      'preconditions': 'Any prerequisites for the test',
      'steps': [
        { 'step': '1', 'action': 'User action description' },
        { 'step': '2', 'action': 'Next user action description' }
      ],
      'expected_results': [
        'Expected result for step 1',
        'Expected result for step 2'
      ],
      'priority': 'must-have|should-have|nice-to-have',
      'tags': ['tag1', 'tag2']
    }
  ],
  'summary': 'Brief summary of the coverage',
  'coverage_percentage': 95.0
}

### NOTES:
1. Generate test cases that represent real user flows
2. Identify edge cases and variations 
3. Create validations for each user interaction
4. Add appropriate tags based on the steps and actions

### OUTPUT:
Only return a valid JSON object with no explanations or markdown formatting.
".

(** The parameters the routes pass, which differ in the temperature. *)
Definition route_params (temperature : float) : value :=
  VDict [ (py "max_new_tokens", VInt 4000);
          (py "temperature", VFloat temperature);
          (py "top_p", VFloat 0.95);
          (py "min_new_tokens", VInt 100) ].

(** [len(x)]. *)
Definition len (x : value) : result Z :=
  match x with
  | VList l => Return (Z.of_nat (length l))
  | VStr s => Return (Z.of_nat (length s))
  | VDict d => Return (Z.of_nat (length d))
  | _ => Raise TypeError
  end.

(** What a [for] loop over [x] visits: the elements of a list, the
    characters of a str, the keys of a dict. *)
Definition iterate (x : value) : result (list value) :=
  match x with
  | VList l => Return l
  | VStr s => Return (map (fun c => VStr [c]) s)
  | VDict d => Return (map (fun kv => VStr (fst kv)) d)
  | _ => Raise TypeError
  end.

(** [sep.join(parts)]. *)
Fixpoint join (sep : str) (parts : list str) : str :=
  match parts with
  | [] => []
  | [p] => p
  | p :: rest => p ++ sep ++ join sep rest
  end.

(** The answer of [analyze_recording] to a recording without steps. *)
Definition no_steps_response : value :=
  VDict [ (py "test_cases", VList []);
          (py "summary", VStr (py "No steps found in recording"));
          (py "coverage_percentage", VInt 0) ].

(** The request [test_api] sends to the generation endpoint. *)
Definition test_request (url_ : str) (space tok : value) : request :=
  mk_request (url_ ++ GENERATION_PATH)
    [ (py "Authorization", HBearer tok);
      (py "Content-Type", HStr (py "application/json")) ]
    None
    (Some (VDict
       [ (py "input", VStr (py "What is QA automation?"));
         (py "model_id", VStr MODEL_ID);
         (py "project_id", space);
         (py "parameters",
          VDict [ (py "max_new_tokens", VInt 100);
                  (py "temperature", VFloat 0.5);
                  (py "top_p", VFloat 0.95) ]) ])).

Definition error_status (message : str) : dict :=
  [ (py "status", VStr (py "error")); (py "message", VStr message) ].

Section Routes.

Variable time_time : nat -> float.
Variable requests_post : nat -> request -> reply.

(** [json.loads], also behind [response.json()]. *)
Variable json_loads : str -> option value.

(** [str(e)] for an exception. *)
Variable str_of_exception : exn -> str.

(** [str(x)], as an f-string renders a value that is not a str. *)
Variable str_of_value : value -> str.

(** [json.dumps]. *)
Variable json_dumps : value -> str.

(** A value inside an f-string. *)
Definition format_value (x : value) : str :=
  match x with
  | VStr s => s
  | _ => str_of_value x
  end.

(** [json.loads(response)] with its recovery block, for whatever
    [generate_text] returned: anything but a str is a [TypeError], which
    the block does not handle. *)
Definition loads_response (recover : str -> result value) (response : value)
  : result value :=
  match response with
  | VStr s => recover s
  | _ => Raise TypeError
  end.

(** What [analyze_prd] makes of the value [generate_text] returned: the
    parse with its recovery block, then the log line that takes the
    length of the test cases. *)
Definition prd_result (response : value) : result value :=
  match loads_response (analyze_prd_parse json_loads) response with
  | Raise e => Raise e
  | Return result =>
      match get result (py "test_cases") (VList []) with
      | Raise e => Raise e
      | Return test_cases =>
          match len test_cases with
          | Raise e => Raise e
          | Return _ => Return result
          end
      end
  end.

Definition analyze_prd (content : str) : M value :=
  try_except
    (response <- route_generate time_time requests_post json_loads
                   (TEST_CASE_PROMPT_HEAD ++ content ++ TEST_CASE_PROMPT_TAIL)
                   (VStr SYSTEM_PROMPT) (route_params 0.2) ;;
     lift (prd_result response))
    (fun e =>
       raise (HTTPException 500
                (py "Error generating test cases: " ++ str_of_exception e))).

(** What [generate_cucumber_features] makes of the value returned: the
    parse with its recovery block, then the log line that takes the
    length of the result. *)
Definition cucumber_result (response : value) : result value :=
  match loads_response (analyze_prd_parse json_loads) response with
  | Raise e => Raise e
  | Return result =>
      match len result with
      | Raise e => Raise e
      | Return _ => Return result
      end
  end.

Definition generate_cucumber_features (test_cases : value) : M value :=
  try_except
    (response <- route_generate time_time requests_post json_loads
                   (CUCUMBER_PROMPT_HEAD ++ json_dumps test_cases
                    ++ CUCUMBER_PROMPT_TAIL)
                   (VStr SYSTEM_PROMPT) (route_params 0.2) ;;
     lift (cucumber_result response))
    (fun e =>
       raise (HTTPException 500
                (py "Error generating Cucumber features: " ++ str_of_exception e))).

(** One line of [steps_text]. *)
Definition step_line (i : nat) (step : value) : result str :=
  match get step (py "action") (VStr (py "unknown")) with
  | Raise e => Raise e
  | Return action =>
  match get step (py "selector") (VStr (py "unknown")) with
  | Raise e => Raise e
  | Return selector =>
  match get step (py "value") (VStr (py "none")) with
  | Raise e => Raise e
  | Return v =>
      Return ((py "Step " ++ str_of_int (Z.of_nat i + 1) ++ py ": "
               ++ format_value action ++ py " ")
              ++ (py "on " ++ format_value selector ++ py " ")
              ++ (py "with value " ++ format_value v))
  end end end.

(** The list comprehension over [enumerate(steps)], from index [i] on. *)
Fixpoint step_lines (i : nat) (steps : list value) : result (list str) :=
  match steps with
  | [] => Return []
  | step :: rest =>
      match step_line i step with
      | Raise e => Raise e
      | Return line =>
          match step_lines (S i) rest with
          | Raise e => Raise e
          | Return lines => Return (line :: lines)
          end
      end
  end.

Definition steps_text_of (steps : value) : result str :=
  match iterate steps with
  | Raise e => Raise e
  | Return l =>
      match step_lines 0 l with
      | Raise e => Raise e
      | Return lines => Return (join (py "\n") lines)
      end
  end.

Definition recording_prompt (recording : dict) (name steps : value)
    (steps_text : str) : result str :=
  match get (VDict recording) (py "id") (VStr (py "unknown")) with
  | Raise e => Raise e
  | Return id =>
  match get (VDict recording) (py "timestamp") (VStr (py "unknown")) with
  | Raise e => Raise e
  | Return timestamp =>
  match len steps with
  | Raise e => Raise e
  | Return n =>
      Return (RECORDING_PROMPT_NAME ++ format_value name
              ++ RECORDING_PROMPT_ID ++ format_value id
              ++ RECORDING_PROMPT_TIMESTAMP ++ format_value timestamp
              ++ RECORDING_PROMPT_COUNT ++ str_of_int n
              ++ RECORDING_PROMPT_STEPS ++ steps_text
              ++ RECORDING_PROMPT_TAIL)
  end end end.

(** What [analyze_recording] does before it calls the model: [None] when
    the recording has no steps, else the prompt. *)
Definition recording_plan (recording : dict) : result (option str) :=
  match get (VDict recording) (py "steps") (VList []) with
  | Raise e => Raise e
  | Return steps =>
  match get (VDict recording) (py "name") (VStr (py "Unknown Recording")) with
  | Raise e => Raise e
  | Return name =>
      if negb (truthy steps) then Return None
      else
        match steps_text_of steps with
        | Raise e => Raise e
        | Return steps_text =>
            match recording_prompt recording name steps steps_text with
            | Raise e => Raise e
            | Return prompt => Return (Some prompt)
            end
        end
  end end.

(** What [analyze_recording] makes of the value returned. *)
Definition recording_result (response : value) : result value :=
  match loads_response (analyze_recording_parse json_loads) response with
  | Raise e => Raise e
  | Return result =>
      match get result (py "test_cases") (VList []) with
      | Raise e => Raise e
      | Return test_cases =>
          match len test_cases with
          | Raise e => Raise e
          | Return _ => Return result
          end
      end
  end.

Definition analyze_recording (recording : dict) : M value :=
  try_except
    (fun s =>
       match watson_service s with
       | None => (Raise not_initialized, s)
       | Some svc =>
           match recording_plan recording with
           | Raise e => (Raise e, s)
           | Return None => (Return no_steps_response, s)
           | Return (Some prompt) =>
               (response <- generate_text time_time requests_post json_loads svc
                              prompt (VStr SYSTEM_PROMPT) (route_params 0.3) ;;
                lift (recording_result response)) s
           end
       end)
    (fun e =>
       raise (HTTPException 500
                (py "Error generating test cases: " ++ str_of_exception e))).

(** The route [/api/test]; [url_] and [space] are the module's [api_url]
    and [space_id]. *)
Definition test_api (url_ : str) (space : value) : M value :=
  try_except
    (fun s =>
       match token_manager s with
       | None =>
           (Return (VDict (error_status
              (py "Token manager not initialized. Check API key configuration."))), s)
       | Some _ =>
           (tok <- get_token time_time requests_post json_loads ;;
            if negb (truthy tok) then
              ret (VDict (error_status (py "Failed to obtain token from IBM IAM")))
            else
              response <- post requests_post (test_request url_ space tok) ;;
              let '(status_code, body) := response in
              if negb (status_code =? 200)%Z then
                ret (VDict (error_status
                              (py "API call failed with status code: "
                               ++ str_of_int status_code)
                            ++ [ (py "details", VStr body) ]))
              else
                model_response <- response_json json_loads body ;;
                ret (VDict
                       [ (py "status", VStr (py "success"));
                         (py "message",
                          VStr (py "Successfully connected to IBM Watson X AI"));
                         (py "model_response", model_response) ])) s
       end)
    (fun e =>
       ret (VDict (error_status (py "Exception occurred: " ++ str_of_exception e)))).

End Routes.

End Routes.

(* ================================================================== *)
(** * The routes that answer by rule of thumb *)
(* ================================================================== *)

Module Heuristics.
Import Py Routes.

(** One statement after another in code that may raise. *)
Definition and_then {A B} (r : result A) (k : A -> result B) : result B :=
  match r with
  | Return a => k a
  | Raise e => Raise e
  end.

Declare Scope result_scope.
Delimit Scope result_scope with result.
Notation "x <~ r ;; k" := (and_then r (fun x => k))
  (at level 61, r at next level, right associativity) : result_scope.
Local Open Scope result_scope.

(** The double nearest to an int; exact up to 2^53. *)
Definition double_of (n : Z) : float :=
  SF2Prim (binary_normalize prec emax n 0 false).

(** [x > n] for an int literal [n], small as every threshold of the
    routes is: an int or a bool is compared as an integer, a float with
    the double of [n]; any other value is a [TypeError]. *)
Definition gt_int (x : value) (n : Z) : result bool :=
  match x with
  | VInt z => Return (n <? z)%Z
  | VBool b => Return (n <? (if b then 1 else 0))%Z
  | VFloat f => Return (PrimFloat.ltb (double_of n) f)
  | _ => Raise TypeError
  end.

(** [sub in s] on two strs. *)
Definition is_prefix (p s : str) : bool :=
  match starts_with p s with
  | Some _ => true
  | None => false
  end.

Fixpoint contains (sub s : str) : bool :=
  is_prefix sub s
  || match s with
     | [] => false
     | _ :: r => contains sub r
     end.

(** [s.replace(old, new)] for a non-empty [old]: the occurrences are taken
    from the left and do not overlap; [skip] counts the characters of the
    occurrence just replaced that are still to be passed over. *)
Fixpoint replace_from (old new : str) (skip : nat) (s : str) : str :=
  match s with
  | [] => []
  | c :: r =>
      match skip with
      | S k => replace_from old new k r
      | O =>
          if is_prefix old s
          then new ++ replace_from old new (length old - 1) r
          else c :: replace_from old new 0 r
      end
  end.

Definition replace (old new s : str) : str := replace_from old new 0 s.

(** [s.split(sep)] for a separator of one character. *)
Fixpoint split (sep : N) (s : str) : list str :=
  match s with
  | [] => [[]]
  | c :: r =>
      if N.eqb c sep then [] :: split sep r
      else
        match split sep r with
        | part :: parts => (c :: part) :: parts
        | [] => [[c]]
        end
  end.

(** [parts[1]]. *)
Definition index1 (parts : list str) : result str :=
  match parts with
  | _ :: part :: _ => Return part
  | _ => Raise IndexError
  end.

Definition EQUALS : N := 61.

(** ** [ml_models], the one global of these routes *)

Definition models : Type := dict.

Definition in_models (ml_models : models) (model_name : str) : bool :=
  match dict_lookup ml_models model_name with
  | Some _ => true
  | None => false
  end.

Definition FEATURES : list str :=
  [ py "code_complexity"; py "change_frequency"; py "test_age" ].

Definition features_of (sample : dict) : list value :=
  map (fun f => match dict_lookup sample f with
                | Some v => v
                | None => VInt 0
                end) FEATURES.

Definition label_of (sample : dict) : value :=
  match dict_lookup sample (py "will_fail") with
  | Some v => v
  | None => VBool false
  end.

(** The loop of [train_model] that fills [X] and [y]. *)
Fixpoint collect_samples (training_data : list dict)
    (X : list (list value)) (y : list value) : list (list value) * list value :=
  match training_data with
  | [] => (X, y)
  | sample :: rest =>
      collect_samples rest (X ++ [features_of sample]) (y ++ [label_of sample])
  end.

Definition metrics (accuracy samples : value) : value :=
  VDict [ (py "metrics",
           VDict [ (py "accuracy", accuracy); (py "samples", samples) ]) ].

Definition CLASSIFIER : value :=
  VDict [ (py "type", VStr (py "classifier")); (py "trained", VBool true) ].

(** [train_model]: nothing in its body can raise, so its handler is never
    entered. *)
Definition train_model (model_type model_name : str) (training_data : list dict)
    (ml_models : models) : result value * models :=
  if str_eqb model_type (py "classification") then
    let '(X, y) := collect_samples training_data [] [] in
    if (10 <? Z.of_nat (length X))%Z then
      (Return (metrics (VFloat 0.85) (VInt (Z.of_nat (length X)))),
       dict_set ml_models model_name CLASSIFIER)
    else (Return (metrics (VInt 0) (VInt 0)), ml_models)
  else (Return (metrics (VInt 0) (VInt 0)), ml_models).

Definition prediction (b : bool) : value :=
  VDict [ (py "prediction", VBool b) ].

(** A run of training requests, each a model type, a model name and the
    training data, from the first on. *)
Fixpoint train_all (requests : list (str * str * list dict)) (ml_models : models)
  : models :=
  match requests with
  | [] => ml_models
  | (model_type, model_name, training_data) :: rest =>
      train_all rest (snd (train_model model_type model_name training_data ml_models))
  end.

(** Whether a training request is one that stores a model under [name]. *)
Definition registers (name : str) (request : str * str * list dict) : bool :=
  let '(model_type, model_name, training_data) := request in
  str_eqb model_type (py "classification")
  && (10 <? Z.of_nat (length training_data))%Z
  && str_eqb name model_name.

(** ** The answers of the single routes *)

Definition visual_analysis (shifted severe : bool) : value :=
  VDict
    [ (py "anomalyType",
       VStr (if shifted then py "layout_shift" else py "minor_change"));
      (py "severity", VStr (if severe then py "high" else py "low"));
      (py "suggestions",
       VList [ VStr (py "Review layout changes for responsiveness");
               VStr (py "Check if changes are intentional");
               VStr (py "Update baseline if changes are expected") ]);
      (py "possibleCauses",
       VList [ VStr (py "CSS changes affecting layout");
               VStr (py "Dynamic content loading");
               VStr (py "Browser rendering differences") ]) ].

Definition similarity (similar_selector : str) : value :=
  VDict [ (py "found", VBool true);
          (py "selector", VStr similar_selector);
          (py "confidence", VFloat 0.75) ].

Definition BUG_WORDS : list str :=
  [ py "error"; py "broken"; py "fail"; py "bug"; py "issue" ].

Definition ISSUE_TEST_CASE : value :=
  VDict [ (py "name", VStr (py "Verify reported issue is fixed"));
          (py "steps",
           VList [ VStr (py "Navigate to the affected page");
                   VStr (py "Perform the action that caused the issue");
                   VStr (py "Verify the issue no longer occurs") ]) ].

Definition SEQUENTIAL : value :=
  VDict [ (py "type", VStr (py "sequential"));
          (py "field", VStr (py "id"));
          (py "description", VStr (py "IDs follow sequential pattern")) ].

Definition patterns_answer (patterns : list value) : value :=
  VDict [ (py "patterns", VList patterns) ].

(** [isinstance(x, int)], with the integer: a bool is an int. *)
Definition as_int (x : value) : option Z :=
  match x with
  | VInt z => Some z
  | VBool b => Some (if b then 1 else 0)%Z
  | _ => None
  end.

Definition is_int (x : value) : bool :=
  match as_int x with
  | Some _ => true
  | None => false
  end.

Definition int_of (x : value) : Z :=
  match as_int x with
  | Some z => z
  | None => 0
  end.

(** [sorted] on ints: a stable insertion sort. *)
Fixpoint insert (z : Z) (l : list Z) : list Z :=
  match l with
  | [] => [z]
  | y :: r => if (z <=? y)%Z then z :: y :: r else y :: insert z r
  end.

Definition sorted (l : list Z) : list Z := fold_right insert [] l.

(** The items of [range(a, b)]. *)
Definition int_range (a b : Z) : list Z :=
  map (fun k => (a + Z.of_nat k)%Z) (seq 0 (Z.to_nat (b - a))).

Fixpoint ints_equal (a b : list Z) : bool :=
  match a, b with
  | [], [] => true
  | x :: a', y :: b' => Z.eqb x y && ints_equal a' b'
  | _, _ => false
  end.

(** [l[0]] and [l[-1]]. *)
Definition first_item (l : list Z) : result Z :=
  match l with
  | [] => Raise IndexError
  | z :: _ => Return z
  end.

Fixpoint last_item (l : list Z) : result Z :=
  match l with
  | [] => Raise IndexError
  | [z] => Return z
  | _ :: r => last_item r
  end.

Definition has_id (item : dict) : bool :=
  match dict_lookup item (py "id") with
  | Some _ => true
  | None => false
  end.

(** [item['id']]. *)
Definition item_id (item : dict) : result value :=
  match dict_lookup item (py "id") with
  | Some v => Return v
  | None => Raise KeyError
  end.

(** The id of an item when it has one and it is an int. *)
Definition int_id (item : dict) : option Z :=
  match dict_lookup item (py "id") with
  | Some v => as_int v
  | None => None
  end.

Fixpoint item_ids (test_data : list dict) : result (list value) :=
  match test_data with
  | [] => Return []
  | item :: rest =>
      id <~ item_id item ;;
      ids <~ item_ids rest ;;
      Return (id :: ids)
  end.

(** [l[i:j]] for [0 <= i <= j]. *)
Definition slice {A} (l : list A) (i j : nat) : list A :=
  firstn (j - i) (skipn i l).

(** The numbers of [range(a, b)] for [0 <= a]. *)
Definition range (a b : nat) : list nat := seq a (b - a).

Definition sequence_pattern (seq_ : list value) : value :=
  VDict [ (py "type", VStr (py "sequence"));
          (py "length", VInt 3);
          (py "occurrences", VInt 2);
          (py "pattern", VList (slice seq_ 0 2)) ].

Section Heuristics.

(** [str(e)] for an exception. *)
Variable str_of_exception : exn -> str.

(** [s.lower()]. *)
Variable lower : str -> str.

(** [list(range(a, b))] for [b - a] items: [None] when the list is built,
    else the exception raised for want of memory or for a length no list
    can have. *)
Variable list_of_range : Z -> option exn.

(** [a == b] on two observations. *)
Variable equal : value -> value -> bool.

(** [try: body / except Exception as e: raise HTTPException(status_code=500,
    detail=str(e))], around the body of every route here. *)
Definition or_500 (body : result value) : result value :=
  match body with
  | Return v => Return v
  | Raise e => Raise (HTTPException 500 (str_of_exception e))
  end.

Definition analyze_visual (request : dict) : result value :=
  or_500
    (diff_data <~ get (VDict request) (py "diffData") (VDict []) ;;
     percentage <~ get diff_data (py "diffPercentage") (VInt 0) ;;
     shifted <~ gt_int percentage 10 ;;
     percentage' <~ get diff_data (py "diffPercentage") (VInt 0) ;;
     severe <~ gt_int percentage' 20 ;;
     Return (visual_analysis shifted severe)).

Definition analyze_visual_similarity (selector html : str) : result value :=
  or_500
    (similar_selector <~
       (if contains (py "id=") selector then
          Return (replace (py "id=") (py "class*=") selector)
        else if contains (py "class=") selector then
          part <~ index1 (split EQUALS selector) ;;
          Return (py "text=/" ++ part ++ py "/")
        else Return selector) ;;
     Return (similarity similar_selector)).

Definition predict (model_name : str) (features : dict) (ml_models : models)
  : result value :=
  or_500
    (if in_models ml_models model_name then
       complexity <~ get (VDict features) (py "code_complexity") (VInt 0) ;;
       b <~ gt_int complexity 7 ;;
       Return (prediction b)
     else Return (prediction false)).

Definition analyze_data_patterns (test_data : list dict) : result value :=
  or_500
    (patterns <~
       (if (1 <? Z.of_nat (length test_data))%Z then
          if forallb has_id test_data then
            ids <~ item_ids test_data ;;
            if forallb is_int ids then
              let sorted_ids := sorted (map int_of ids) in
              first <~ first_item sorted_ids ;;
              last <~ last_item sorted_ids ;;
              match list_of_range (last + 1 - first) with
              | Some e => Raise e
              | None =>
                  if ints_equal sorted_ids (int_range first (last + 1))
                  then Return [SEQUENTIAL]
                  else Return []
              end
            else Return []
          else Return []
        else Return []) ;;
     Return (patterns_answer patterns)).

(** [a == b] on two lists: the same length and equal item by item. *)
Fixpoint list_equal (a b : list value) : bool :=
  match a, b with
  | [], [] => true
  | x :: a', y :: b' => equal x y && list_equal a' b'
  | _, _ => false
  end.

(** The inner loop of [discover_patterns] over [j], with its [break]. *)
Fixpoint search_repeat (observations seq_ : list value) (js : list nat)
    (patterns : list value) : list value :=
  match js with
  | [] => patterns
  | j :: rest =>
      if list_equal (slice observations j (j + 3)) seq_
      then patterns ++ [sequence_pattern seq_]
      else search_repeat observations seq_ rest patterns
  end.

(** What the inner loop decides: whether the three observations from
    [i] on come again further on. *)
Definition repeats (observations : list value) (i : nat) : bool :=
  existsb (fun j => list_equal (slice observations j (j + 3))
                      (slice observations i (i + 3)))
    (range (i + 3) (length observations - 2)).

(** The outer loop over [i]. *)
Fixpoint search_sequences (observations : list value) (is_ : list nat)
    (patterns : list value) : list value :=
  match is_ with
  | [] => patterns
  | i :: rest =>
      let seq_ := slice observations i (i + 3) in
      search_sequences observations rest
        (search_repeat observations seq_
           (range (i + 3) (length observations - 2)) patterns)
  end.

Definition discover_patterns (observations : list value) : result value :=
  or_500
    (let patterns :=
       if (3 <? Z.of_nat (length observations))%Z
       then search_sequences observations
              (range 0 (length observations - 2)) []
       else [] in
     Return (patterns_answer (slice patterns 0 5))).

Definition analyze_issue (comment screenshot : str) : result value :=
  or_500
    (let is_bug :=
       existsb (fun word => contains word (lower comment)) BUG_WORDS in
     let analysis :=
       [ (py "isBug", VBool is_bug);
         (py "severity",
          VStr (if contains (py "error") (lower comment)
                then py "high" else py "medium"));
         (py "category",
          VStr (if contains (py "button") (lower comment)
                   || contains (py "click") (lower comment)
                then py "functional" else py "visual")) ] in
     let analysis :=
       if is_bug then dict_set analysis (py "testCase") ISSUE_TEST_CASE
       else analysis in
     Return (VDict analysis)).

End Heuristics.

End Heuristics.

(* ================================================================== *)
(** * Concrete requests for the routes *)
(* ================================================================== *)

Module Cases.
Import Py Service Routes Heuristics.

(** An identity endpoint whose [expires_in] is not a number. *)
Definition bad_expiry_text : str := py "{'access_token':'new','expires_in':'soon'}".
Definition bad_expiry_body : dict :=
  [ (py "access_token", VStr (py "new")); (py "expires_in", VStr (py "soon")) ].
Definition bad_expiry_reply : reply := Response 200 bad_expiry_text.

Definition fenced_text : str := py "```json\n{'a':1}\n```".

(** An identity endpoint that names no lifetime. *)
Definition no_expiry_reply : reply := Response 200 (py "{'access_token':'tok'}").

(** Texts on which every strategy fails: a fenced block that is not JSON,
    a test_cases object that is never closed, and a closed one that is not
    JSON. *)
Definition fenced_garbage : str := py "```json\noops\n```".
Definition unbalanced_text : str := py "Here: {'test_cases':[{'id':1}".
Definition balanced_garbage : str := py "Here: {'test_cases':[oops]}".

(** A process that has a service and has not sent anything yet. *)
Definition serving : state :=
  mk_state None (Some Examples.the_service) 0 [].

(** Renderings that print nothing. *)
Definition silent {A} : A -> str := fun _ => [].

Definition recording_without_steps : dict :=
  [ (py "name", VStr (py "login")); (py "steps", VList []) ].

Definition recording_with_text_step : dict :=
  [ (py "steps", VList [ VDict [ (py "action", VStr (py "click")) ];
                         VStr (py "then wait") ]) ].

Definition hello_body : value :=
  VDict [ (py "results",
           VList [ VDict [ (py "generated_text", VStr (py "hello")) ] ]) ].

Definition connected : dict :=
  [ (py "status", VStr (py "success"));
    (py "message", VStr (py "Successfully connected to IBM Watson X AI"));
    (py "model_response", hello_body) ].

(** Eleven samples, ten samples. *)
Definition eleven : list dict := repeat [ (py "code_complexity", VInt 3) ] 11.
Definition ten : list dict := repeat [] 10.

Definition unregistered : list (str * str * list dict) :=
  [ (py "regression", py "flaky", eleven);
    (py "classification", py "flaky", ten);
    (py "classification", py "other", eleven) ].

Definition registered : list (str * str * list dict) :=
  [ (py "classification", py "flaky", eleven) ].

Definition shuffled_ids : list dict :=
  [ [ (py "id", VInt 3) ];
    [ (py "name", VStr (py "first")); (py "id", VBool true) ];
    [ (py "id", VInt 2) ] ].

Definition always_built : Z -> option exn := fun _ => None.

End Cases.

(* ================================================================== *)
(** * Proof tools *)
(* ================================================================== *)

Import Py Extractor Service.

(** Equal pairs whose first components differ by arithmetic only. *)
Ltac fst_lia :=
  match goal with
  | |- (?a, ?x) = (?b, ?x) => replace b with a by lia; reflexivity
  end.

(** Equal tests against zero whose arguments differ by arithmetic only. *)
Ltac eqb_lia :=
  match goal with
  | |- (?a =? 0)%Z = (?b =? 0)%Z => replace a with b by lia; reflexivity
  end.

(* ================================================================== *)
(** * Facts about the decoder *)
(* ================================================================== *)

Section JsonFacts.
Import Json.

Lemma skip_ws_length (s : str) : (length (skip_ws s) <= length s)%nat.
Proof.
  induction s as [|c r IH]; simpl; [lia|].
  destruct (is_ws c); simpl; lia.
Qed.

Lemma starts_with_length (p s r : str) :
  starts_with p s = Some r -> (length r + length p = length s)%nat.
Proof.
  revert s; induction p as [|x p IH]; intros [|y s]; simpl; intros H;
    try discriminate.
  - injection H as <-. simpl. lia.
  - injection H as <-. simpl. lia.
  - destruct (x =? y)%N; [|discriminate]. apply IH in H. lia.
Qed.

Lemma span_digits_length (s : str) :
  (length (snd (span_digits s)) <= length s)%nat.
Proof.
  induction s as [|c r IH]; simpl; [lia|].
  destruct (is_digit c); [|simpl; lia].
  destruct (span_digits r). simpl in *. lia.
Qed.

Lemma match_fraction_length (s : str) :
  (length (snd (match_fraction s)) <= length s)%nat.
Proof.
  unfold match_fraction. destruct s as [|c r]; [simpl; lia|].
  destruct (c =? 46)%N eqn:E.
  - apply N.eqb_eq in E. subst c.
    pose proof (span_digits_length r) as H.
    destruct (span_digits r) as [[|d ds] r']; simpl in *; lia.
  - destruct c as [|p]; [simpl; lia|].
    do 6 (destruct p as [p|p|]; try (simpl; lia)); discriminate.
Qed.

Lemma match_exponent_length (s : str) :
  (length (snd (match_exponent s)) <= length s)%nat.
Proof.
  unfold match_exponent. destruct s as [|c r]; [simpl; lia|].
  destruct ((c =? 101)%N || (c =? 69)%N); [|simpl; lia].
  assert (H : exists neg r1, (length r1 <= length r)%nat /\
            (match r with
             | 45%N :: r' => (true, r')
             | 43%N :: r' => (false, r')
             | _ => (false, r)
             end) = (neg, r1)).
  { destruct r as [|x r']; [exists false, []; split; [simpl; lia | reflexivity]|].
    destruct (N.eq_dec x 45) as [->|N1]; [exists true, r'; split; [simpl; lia | reflexivity]|].
    destruct (N.eq_dec x 43) as [->|N2]; [exists false, r'; split; [simpl; lia | reflexivity]|].
    exists false, (x :: r'). split; [lia|].
    destruct x as [|p]; [reflexivity|].
    do 6 (destruct p as [p|p|]; try reflexivity); congruence. }
  destruct H as (neg & r1 & Hl & ->).
  pose proof (span_digits_length r1) as H.
  destruct (span_digits r1) as [[|d ds] r']; simpl in *; lia.
Qed.

Lemma match_number_length (s r : str) (v : value) :
  match_number s = Some (v, r) -> (length r < length s)%nat.
Proof.
  unfold match_number.
  assert (H : exists neg s1, (length s1 <= length s)%nat /\
            (match s with
             | 45%N :: r => (true, r)
             | _ => (false, s)
             end) = (neg, s1)).
  { destruct s as [|x r']; [exists false, []; split; [simpl; lia | reflexivity]|].
    destruct (N.eq_dec x 45) as [->|N1]; [exists true, r'; split; [simpl; lia | reflexivity]|].
    exists false, (x :: r'). split; [lia|].
    destruct x as [|p]; [reflexivity|].
    do 6 (destruct p as [p|p|]; try reflexivity); congruence. }
  destruct H as (neg & s1 & Hl & ->).
  destruct s1 as [|c r1]; [discriminate|].
  assert (I : forall idigits s2,
            (if (c =? 48)%N then Some ([c], r1)
             else if is_digit c
                  then let (d, r') := span_digits r1 in Some (c :: d, r')
                  else None) = Some (idigits, s2) ->
            (length s2 <= length r1)%nat).
  { intros idigits s2. destruct (c =? 48)%N; [intros [= _ <-]; lia|].
    destruct (is_digit c); [|discriminate].
    pose proof (span_digits_length r1) as H.
    destruct (span_digits r1) as [d r']. intros [= _ <-]. exact H. }
  destruct (if (c =? 48)%N then _ else _) as [[idigits s2]|]; [|discriminate].
  specialize (I idigits s2 eq_refl).
  pose proof (match_fraction_length s2) as F.
  destruct (match_fraction s2) as [frac s3].
  pose proof (match_exponent_length s3) as X.
  destruct (match_exponent s3) as [exp s4].
  simpl in *.
  destruct frac; destruct exp; intros [= _ <-]; lia.
Qed.

Lemma scanstring_shorter (n : nat) :
  forall (s acc : str), (length s <= n)%nat ->
    match scanstring s acc with
    | Ok _ rest => (length rest < length s)%nat
    | Bad => True
    | OutOfFuel => False
    end.
Proof.
  induction n as [|n IH]; intros s acc Hn.
  - destruct s; [exact I | simpl in Hn; lia].
  - destruct s as [|c r]; [exact I|].
    cbn [scanstring].
    destruct (c =? 34)%N; [simpl; lia|].
    destruct (c =? 92)%N.
    + destruct r as [|e r1]; [exact I|].
      destruct (e =? 117)%N.
      * destruct r1 as [|h1 [|h2 [|h3 [|h4 r2]]]]; try exact I.
        destruct (hex4 h1 h2 h3 h4) as [u|]; [|exact I].
        assert (R2 : forall a, match scanstring r2 a with
                               | Ok _ rest => (length rest < length (c :: e :: h1 :: h2 :: h3 :: h4 :: r2))%nat
                               | Bad => True
                               | OutOfFuel => False
                               end).
        { intros a. specialize (IH r2 a ltac:(simpl in Hn; lia)).
          destruct (scanstring r2 a); simpl in *; try lia; exact IH. }
        destruct (is_high_surrogate u); [|apply R2].
        destruct r2 as [|b [|e' [|l1 [|l2 [|l3 [|l4 r3]]]]]]; try apply R2.
        destruct ((b =? 92)%N && (e' =? 117)%N); [|apply R2].
        destruct (hex4 l1 l2 l3 l4) as [u'|]; [|exact I].
        destruct (is_low_surrogate u'); [|apply R2].
        match goal with |- context [scanstring r3 ?a] =>
          generalize a; intros a'
        end.
        specialize (IH r3 a' ltac:(cbn [length] in Hn; lia)).
        destruct (scanstring r3 a'); cbn [length] in *; try lia; exact IH.
      * destruct (unescape e) as [c'|]; [|exact I].
        specialize (IH r1 (c' :: acc) ltac:(simpl in Hn; lia)).
        destruct (scanstring r1 (c' :: acc)); simpl in *; try lia; exact IH.
    + destruct (c <? 32)%N; [exact I|].
      specialize (IH r (c :: acc) ltac:(simpl in Hn; lia)).
      destruct (scanstring r (c :: acc)); simpl in *; try lia; exact IH.
Qed.

Lemma parse_atom_shorter (s : str) : Json.shorter s (Json.parse_atom s).
Proof.
  unfold parse_atom, shorter.
  repeat match goal with
  | |- context [starts_with ?p s] =>
      let E := fresh "E" in
      destruct (starts_with p s) eqn:E;
      [apply starts_with_length in E; simpl in E; lia|]
  | |- context [match_number s] =>
      let E := fresh "E" in
      destruct (match_number s) as [[? ?]|] eqn:E;
      [apply match_number_length in E; exact E|]
  end.
  exact I.
Qed.

Lemma parse_enough_fuel (fuel : nat) :
  (forall s, (2 * length s + 1 <= fuel)%nat -> shorter s (parse_value fuel s))
  /\ (forall s acc, (2 * length s + 2 <= fuel)%nat -> shorter s (parse_elements fuel s acc))
  /\ (forall s acc, (2 * length s + 2 <= fuel)%nat -> shorter s (parse_members fuel s acc)).
Proof.
  induction fuel as [|fuel (IHv & IHe & IHm)].
  - repeat split; intros; lia.
  - assert (V : forall s, (2 * length s + 1 <= S fuel)%nat ->
                  shorter s (parse_value (S fuel) s)).
    { intros s Hf. cbn [parse_value].
      destruct s as [|c r]; [exact I|].
      destruct (c =? 34)%N.
      { pose proof (scanstring_shorter (length r) r [] (le_n _)) as H.
        destruct (scanstring r []); simpl in *; try lia; exact H. }
      destruct (c =? 123)%N.
      { pose proof (skip_ws_length r) as W.
        destruct (skip_ws r) as [|c' r']; [exact I|].
        destruct (c' =? 125)%N; [simpl in *; lia|].
        specialize (IHm (c' :: r') [] ltac:(simpl in *; lia)).
        destruct (parse_members fuel (c' :: r') []); simpl in *; try lia; exact IHm. }
      destruct (c =? 91)%N.
      { pose proof (skip_ws_length r) as W.
        destruct (skip_ws r) as [|c' r']; [exact I|].
        destruct (c' =? 93)%N; [simpl in *; lia|].
        specialize (IHe (c' :: r') [] ltac:(simpl in *; lia)).
        destruct (parse_elements fuel (c' :: r') []); simpl in *; try lia; exact IHe. }
      apply parse_atom_shorter. }
    split; [exact V|]. split.
    + intros s acc Hf. cbn [parse_elements].
      specialize (IHv s ltac:(lia)).
      destruct (parse_value fuel s) as [v r| |]; simpl in IHv; try exact IHv.
      pose proof (skip_ws_length r) as W.
      destruct (skip_ws r) as [|c r']; [exact I|].
      destruct (c =? 93)%N; [simpl in *; lia|].
      destruct (c =? 44)%N; [|exact I].
      pose proof (skip_ws_length r') as W'.
      specialize (IHe (skip_ws r') (v :: acc) ltac:(simpl in *; lia)).
      destruct (parse_elements fuel (skip_ws r') (v :: acc)); simpl in *; try lia; exact IHe.
    + intros s acc Hf. cbn [parse_members].
      destruct s as [|q r]; [exact I|].
      destruct (q =? 34)%N; [|exact I].
      pose proof (scanstring_shorter (length r) r [] (le_n _)) as H.
      destruct (scanstring r []) as [k r1| |]; try exact H.
      pose proof (skip_ws_length r1) as W1.
      destruct (skip_ws r1) as [|c r2]; [exact I|].
      destruct (c =? 58)%N; [|exact I].
      pose proof (skip_ws_length r2) as W2.
      specialize (IHv (skip_ws r2) ltac:(simpl in *; lia)).
      destruct (parse_value fuel (skip_ws r2)) as [v r3| |]; simpl in IHv; try exact IHv.
      pose proof (skip_ws_length r3) as W3.
      destruct (skip_ws r3) as [|c' r4]; [exact I|].
      destruct (c' =? 125)%N; [simpl in *; lia|].
      destruct (c' =? 44)%N; [|exact I].
      pose proof (skip_ws_length r4) as W4.
      specialize (IHm (skip_ws r4) (dict_set acc k v) ltac:(simpl in *; lia)).
      destruct (parse_members fuel (skip_ws r4) (dict_set acc k v)); simpl in *; try lia; exact IHm.
Qed.

(** The fuel [loads] gives is enough: decoding never stops for lack of it. *)
Lemma loads_never_out_of_fuel (s : str) :
  parse_value (fuel_for s) (skip_ws s) <> OutOfFuel.
Proof.
  pose proof (skip_ws_length s) as W.
  destruct (parse_enough_fuel (fuel_for s)) as [V _].
  specialize (V (skip_ws s) ltac:(unfold fuel_for; lia)).
  intros E. rewrite E in V. exact V.
Qed.

(** The decoder at work. *)
Example loads_object : Json.loads (py "{'a':1}") = Some (VDict [ (py "a", VInt 1) ]).
Proof. vm_compute. reflexivity. Qed.

Example loads_repeated_key :
  Json.loads (py " { 'a' : 1 , 'b' : [true, null] , 'a' : -2 } ")
  = Some (VDict [ (py "a", VInt (-2)); (py "b", VList [VBool true; VNone]) ]).
Proof. vm_compute. reflexivity. Qed.

Example loads_floats :
  Json.loads (py "[0.9, 1e2, -0.0, 2.5E-1, NaN, -Infinity]")
  = Some (VList [VFloat 0.9; VFloat 100; VFloat (-0); VFloat 0.25;
                 VFloat nan; VFloat neg_infinity]).
Proof. vm_compute. reflexivity. Qed.

Example loads_escapes :
  Json.loads (py "'a\u00e9\ud83d\ude00\t'")
  = Some (VStr [97; 233; 128512; 9]%N).
Proof. vm_compute. reflexivity. Qed.

Example loads_rejects :
  map Json.loads
    [ py ""; py "[1,]"; py "{'a':1,}"; py "01"; py "1 2"; py "{a:1}";
      py "Sure"; py "'unterminated"; py "nul" ]
  = [None; None; None; None; None; None; None; None; None].
Proof. vm_compute. reflexivity. Qed.

End JsonFacts.

(* ================================================================== *)
(** * Facts about the extraction code *)
(* ================================================================== *)

Lemma str_eqb_eq (a b : str) : str_eqb a b = true <-> a = b.
Proof.
  revert b; induction a as [|x a IH]; intros [|y b]; simpl; split; intro H;
    try reflexivity; try discriminate.
  - apply andb_prop in H as [Hx Hr].
    apply N.eqb_eq in Hx. apply IH in Hr. now subst.
  - injection H as -> ->. rewrite N.eqb_refl. now apply IH.
Qed.

Lemma find_map_S (p : nat -> bool) (l : list nat) :
  find p (map S l) = option_map S (find (fun k => p (S k)) l).
Proof.
  induction l as [|k l IH]; simpl; [reflexivity|].
  destruct (p (S k)); [reflexivity | exact IH].
Qed.

Lemma find_ext_list {A} (p q : A -> bool) (l : list A) :
  (forall x, In x l -> p x = q x) -> find p l = find q l.
Proof.
  induction l as [|x l IH]; intros H; simpl; [reflexivity|].
  rewrite (H x (or_introl eq_refl)).
  destruct (q x); [reflexivity|].
  apply IH. intros y Hy. apply H. now right.
Qed.

Lemma first_index_cons (p : str -> bool) (c : N) (r : str) :
  first_index p (c :: r) =
  if p (c :: r) then Some 0%nat else option_map S (first_index p r).
Proof.
  unfold first_index.
  change (seq 0 (S (length (c :: r)))) with (0%nat :: seq 1 (S (length r))).
  cbn [find skipn]. destruct (p (c :: r)); [reflexivity|].
  rewrite <- seq_shift, find_map_S. reflexivity.
Qed.

(** The recursive search is the first index at which the pattern matches. *)
Lemma search_test_cases_first_index (s : str) (idx : nat) :
  search_test_cases s idx =
  option_map (fun k => (idx + k)%nat) (first_index match_test_cases_at s).
Proof.
  revert idx; induction s as [|c r IH]; intros idx.
  - reflexivity.
  - rewrite first_index_cons. cbn [search_test_cases].
    destruct (match_test_cases_at (c :: r)).
    + simpl. apply f_equal. lia.
    + rewrite IH.
      destruct (first_index match_test_cases_at r) as [n|]; cbn [option_map];
        [apply f_equal; lia | reflexivity].
Qed.

Lemma first_index_sound (p : str -> bool) (s : str) (k : nat) :
  first_index p s = Some k ->
  p (skipn k s) = true /\ forall j, (j < k)%nat -> p (skipn j s) = false.
Proof.
  unfold first_index.
  generalize (S (length s)) as n. intros n.
  assert (G : forall a, find (fun k => p (skipn k s)) (seq a n) = Some k ->
            p (skipn k s) = true /\ forall j, (a <= j < k)%nat -> p (skipn j s) = false).
  { induction n as [|n IH]; intros a; simpl; [discriminate|].
    destruct (p (skipn a s)) eqn:E.
    - intros [= <-]. split; [exact E | intros; lia].
    - intros H. destruct (IH _ H) as [H1 H2]. split; [exact H1|].
      intros j Hj. destruct (Nat.eq_dec j a) as [->|]; [exact E | apply H2; lia]. }
  intros H. destruct (G 0%nat H) as [H1 H2]. split; [exact H1|]. intros; apply H2; lia.
Qed.

Lemma match_test_cases_at_brace (s : str) :
  match_test_cases_at s = true -> exists r, s = 123%N :: r.
Proof.
  destruct s as [|c r]; simpl; [discriminate|].
  destruct c as [|p]; [discriminate|].
  do 7 (destruct p as [p|p|]; try discriminate).
  intros _. now exists r.
Qed.

Lemma firstn_S_cons {A} (n : nat) (x : A) (l : list A) :
  firstn (S n) (x :: l) = x :: firstn n l.
Proof. reflexivity. Qed.

(** The loop, started with a positive counter, stops at the shortest
    prefix that brings the counter to zero; failing that, it runs to the
    end with a counter that is still positive. *)
Lemma brace_loop_spec (chars : str) :
  forall (i start : nat) (c : Z), (0 < c)%Z ->
    match find (fun n => (c + depth (firstn n chars) =? 0)%Z) (seq 1 (length chars)) with
    | Some n => brace_loop chars i start c = (0%Z, Some (start + i + n)%nat)
    | None => brace_loop chars i start c = ((c + depth chars)%Z, None)
              /\ (0 < c + depth chars)%Z
    end.
Proof.
  induction chars as [|ch r IH]; intros i start c Hc.
  - simpl. split; [fst_lia | lia].
  - cbn [length seq find brace_loop]. rewrite firstn_S_cons. cbn [depth firstn].
    rewrite <- seq_shift, find_map_S.
    destruct (ch =? 123)%N eqn:E1; [|destruct (ch =? 125)%N eqn:E2].
    + replace (c + (1 + 0) =? 0)%Z with false by (symmetry; apply Z.eqb_neq; lia).
      specialize (IH (S i) start (c + 1)%Z ltac:(lia)).
      erewrite find_ext_list with (q := fun n => (c + 1 + depth (firstn n r) =? 0)%Z).
      2:{ intros n _. rewrite firstn_S_cons. cbn [depth]. rewrite E1. eqb_lia. }
      destruct (find _ _) as [n|]; cbn [option_map].
      * rewrite IH. do 2 apply f_equal. lia.
      * destruct IH as [IH1 IH2]. rewrite IH1. split; [fst_lia | lia].
    + cbv zeta. destruct (c - 1 =? 0)%Z eqn:E3.
      * replace (c + (-1 + 0) =? 0)%Z with true by (symmetry; apply Z.eqb_eq; apply Z.eqb_eq in E3; lia).
        apply Z.eqb_eq in E3. rewrite E3. reflexivity.
      * replace (c + (-1 + 0) =? 0)%Z with false by (symmetry; apply Z.eqb_neq; apply Z.eqb_neq in E3; lia).
        apply Z.eqb_neq in E3.
        specialize (IH (S i) start (c - 1)%Z ltac:(lia)).
        erewrite find_ext_list with (q := fun n => (c - 1 + depth (firstn n r) =? 0)%Z).
        2:{ intros n _. rewrite firstn_S_cons. cbn [depth]. rewrite E1, E2. eqb_lia. }
        destruct (find _ _) as [n|]; cbn [option_map].
        -- rewrite IH. do 2 apply f_equal. lia.
        -- destruct IH as [IH1 IH2]. rewrite IH1. split; [fst_lia | lia].
    + replace (c + (0 + 0) =? 0)%Z with false by (symmetry; apply Z.eqb_neq; lia).
      specialize (IH (S i) start c Hc).
      erewrite find_ext_list with (q := fun n => (c + depth (firstn n r) =? 0)%Z).
      2:{ intros n _. rewrite firstn_S_cons. cbn [depth]. rewrite E1, E2. eqb_lia. }
      destruct (find _ _) as [n|]; cbn [option_map].
      * rewrite IH. do 2 apply f_equal. lia.
      * destruct IH as [IH1 IH2]. rewrite IH1. split; [fst_lia | lia].
Qed.

Lemma find_seq_least (p : nat -> bool) (len : nat) :
  forall (a n : nat),
    find p (seq a len) = Some n ->
    (a <= n < a + len)%nat /\ p n = true /\
    forall m, (a <= m < n)%nat -> p m = false.
Proof.
  induction len as [|len IH]; intros a n; simpl; [discriminate|].
  destruct (p a) eqn:E.
  - intros [= <-]. split; [lia|]. split; [exact E | intros; lia].
  - intros H. destruct (IH _ _ H) as (B & P & L).
    split; [lia|]. split; [exact P|].
    intros m Hm. destruct (Nat.eq_dec m a) as [->|]; [exact E | apply L; lia].
Qed.

(** The prefix found is balanced, and no shorter non-empty prefix is. *)
Lemma shortest_balanced_least (chars : str) (n : nat) :
  shortest_balanced chars = Some n ->
  (1 <= n <= length chars)%nat
  /\ depth (firstn n chars) = 0%Z
  /\ forall m, (1 <= m < n)%nat -> depth (firstn m chars) <> 0%Z.
Proof.
  intros H. apply find_seq_least in H as (B & P & L).
  split; [lia|]. split.
  - now apply Z.eqb_eq.
  - intros m Hm. apply Z.eqb_neq. apply L. lia.
Qed.

(** From an opening brace on, the loop of the code finds the shortest
    balanced prefix. *)
Lemma brace_loop_from_brace (r : str) (start : nat) :
  match shortest_balanced (123%N :: r) with
  | Some n => brace_loop (123%N :: r) 0 start 0 = (0%Z, Some (start + n)%nat)
  | None => exists d, brace_loop (123%N :: r) 0 start 0 = (d, None) /\ (0 < d)%Z
  end.
Proof.
  unfold shortest_balanced.
  cbn [length seq find brace_loop]. rewrite firstn_S_cons. cbn [depth firstn].
  change (123 =? 123)%N with true. cbv iota.
  change (1 + 0 =? 0)%Z with false. cbv iota.
  rewrite <- seq_shift, find_map_S.
  pose proof (brace_loop_spec r 1 start 1%Z ltac:(lia)) as H.
  erewrite find_ext_list with (q := fun n => (1 + depth (firstn n r) =? 0)%Z).
  2:{ intros n _. rewrite firstn_S_cons. reflexivity. }
  change (0 + 1)%Z with 1%Z.
  destruct (find _ _) as [n|]; cbn [option_map].
  - rewrite H. do 2 apply f_equal. lia.
  - destruct H as [H1 H2]. eexists; split; [exact H1 | exact H2].
Qed.

Lemma raw_extraction_spec (json_loads : str -> option value) (response : str) (start : nat) :
  match_test_cases_at (skipn start response) = true ->
  raw_extraction json_loads response start =
  match shortest_balanced (skipn start response) with
  | Some n => loads_or_raise json_loads (firstn n (skipn start response))
  | None => Raise parse_failure
  end.
Proof.
  intros H. apply match_test_cases_at_brace in H as [r Hr].
  unfold raw_extraction. rewrite Hr.
  pose proof (brace_loop_from_brace r start) as B.
  destruct (shortest_balanced (123%N :: r)) as [n|].
  - rewrite B. unfold slice. rewrite Hr.
    replace (start + n - start)%nat with n by lia. reflexivity.
  - destruct B as (d & B & Hd). rewrite B.
    destruct d; try lia. reflexivity.
Qed.


(** The recovery block of [analyze_recording], strategy by strategy. *)
Lemma analyze_recording_parse_cases :
  forall (json_loads : str -> option value) (response : str),
    analyze_recording_parse json_loads response =
    match json_loads response with
    | Some v => Return v
    | None =>
        match search_fence response with
        | Some group1 => loads_or_raise json_loads group1
        | None =>
            match first_index match_test_cases_at response with
            | Some start =>
                match shortest_balanced (skipn start response) with
                | Some n => loads_or_raise json_loads (firstn n (skipn start response))
                | None => Raise parse_failure
                end
            | None => Raise parse_failure
            end
        end
    end.
Proof.
  intros json_loads response. unfold analyze_recording_parse.
  destruct (json_loads response); [reflexivity|].
  destruct (search_fence response); [reflexivity|].
  rewrite search_test_cases_first_index.
  destruct (first_index match_test_cases_at response) as [start|] eqn:F;
    simpl; [|reflexivity].
  apply first_index_sound in F as [F _].
  now apply raw_extraction_spec.
Qed.

(** C1 (as amended).  The recovery block of [analyze_recording] returns
    the direct parse when it succeeds; otherwise, when the text holds a
    fenced block, it parses the contents of the first one and that result
    is final, a parse error included; only when there is no fenced block
    does it look for the first occurrence of the opening pattern, take the
    shortest prefix from there whose brace counter is back at zero, and
    parse that substring alone.  On the text made of the word Result, a
    colon and the nested test_cases object, the scan cuts out exactly the
    object, and the value returned is the one the bare object parses to. *)
Theorem recording_parse_tiers :
  forall (json_loads : str -> option value) (response : str),
    analyze_recording_parse json_loads response =
    match json_loads response with
    | Some v => Return v
    | None =>
        match search_fence response with
        | Some group1 => loads_or_raise json_loads group1
        | None =>
            match first_index match_test_cases_at response with
            | Some start =>
                match shortest_balanced (skipn start response) with
                | Some n => loads_or_raise json_loads (firstn n (skipn start response))
                | None => Raise parse_failure
                end
            | None => Raise parse_failure
            end
        end
    end
    /\ Json.loads Examples.nested_text = None
    /\ search_fence Examples.nested_text = None
    /\ first_index match_test_cases_at Examples.nested_text = Some 8%nat
    /\ shortest_balanced (skipn 8 Examples.nested_text)
       = Some (length Examples.nested_object)
    /\ firstn (length Examples.nested_object) (skipn 8 Examples.nested_text)
       = Examples.nested_object
    /\ analyze_recording_parse Json.loads Examples.nested_text
       = Return Examples.nested_value
    /\ Json.loads Examples.nested_object = Some Examples.nested_value.
Proof.
  intros json_loads response. split.
  - apply analyze_recording_parse_cases.
  - repeat split; vm_compute; reflexivity.
Qed.

(** C1, the claim as stated fails: on a text whose fenced block does not
    parse and which goes on with a well-formed test_cases object, the
    third strategy on its own succeeds, so the first success among the
    three strategies is that object; the code raises the decoder's error
    instead and never runs the scan. *)
Lemma recording_parse_not_first_success :
  tier1 Json.loads Examples.bad_fence_text = None
  /\ tier2 Json.loads Examples.bad_fence_text = None
  /\ tier3 Json.loads Examples.bad_fence_text
     = Some (VDict [ (py "test_cases", VList []) ])
  /\ first_success Json.loads Examples.bad_fence_text
     = Some (VDict [ (py "test_cases", VList []) ])
  /\ analyze_recording_parse Json.loads Examples.bad_fence_text
     = Raise JSONDecodeError.
Proof. repeat split; vm_compute; reflexivity. Qed.

(** C2 (as amended).  A text that does not parse directly, holds no fenced
    block and nowhere shows the opening pattern of a test_cases object is
    rejected with the fixed HTTP 500 error, whatever else it contains;
    prose around a test_cases object is recovered, with the value of the
    bare object. *)
Theorem prose_needs_test_cases_pattern :
  forall (json_loads : str -> option value) (response : str),
    json_loads response = None ->
    search_fence response = None ->
    first_index match_test_cases_at response = None ->
    analyze_recording_parse json_loads response = Raise parse_failure
    /\ analyze_recording_parse Json.loads Examples.prose_test_cases
       = Return Examples.test_cases_value
    /\ Json.loads Examples.bare_test_cases = Some Examples.test_cases_value
    /\ Json.loads Examples.prose_test_cases = None
    /\ search_fence Examples.prose_test_cases = None.
Proof.
  intros json_loads response H1 H2 H3. split.
  - rewrite analyze_recording_parse_cases, H1, H2, H3. reflexivity.
  - repeat split; vm_compute; reflexivity.
Qed.

Lemma prose_needs_test_cases_pattern_witness :
  Json.loads Examples.prose_text = None
  /\ search_fence Examples.prose_text = None
  /\ first_index match_test_cases_at Examples.prose_text = None
  /\ analyze_recording_parse Json.loads Examples.prose_text = Raise parse_failure.
Proof.
  assert (H1 : Json.loads Examples.prose_text = None) by (vm_compute; reflexivity).
  assert (H2 : search_fence Examples.prose_text = None) by (vm_compute; reflexivity).
  assert (H3 : first_index match_test_cases_at Examples.prose_text = None)
    by (vm_compute; reflexivity).
  exact (conj H1 (conj H2 (conj H3
           (proj1 (prose_needs_test_cases_pattern Json.loads Examples.prose_text
                     H1 H2 H3))))).
Defined.

(** C2, the claim as stated fails: the text with prose around the object
    that has the single key a is not recovered; the code raises the HTTP
    500 error, while the bare object parses. *)
Lemma prose_around_plain_object_rejected :
  Json.loads Examples.prose_text = None
  /\ search_fence Examples.prose_text = None
  /\ Json.loads Examples.bare_text = Some Examples.bare_value
  /\ analyze_recording_parse Json.loads Examples.prose_text
     = Raise (HTTPException 500 (py "Failed to parse model response as JSON"))
  /\ analyze_prd_parse Json.loads Examples.prose_text
     = Raise (HTTPException 500 (py "Failed to parse model response as JSON")).
Proof. repeat split; vm_compute; reflexivity. Qed.

(** C7 (as amended).  When all three strategies fail, the recovery block
    of [analyze_recording] returns nothing and raises, and which error it
    raises is settled by the text: the decoder's error when the text holds
    a fenced block (whose contents then do not parse); without a fenced
    block, the HTTP 500 error with the one fixed detail when the opening
    pattern does not occur or the braces after it never balance, and the
    decoder's error when the balanced substring does not parse.  The block
    of [analyze_prd] raises the decoder's error with a fenced block and the
    same HTTP 500 error without one.  The detail of the HTTP 500 error is
    the same string for every text. *)
Theorem parse_failure_is_raised :
  forall (json_loads : str -> option value) (response : str),
    tier1 json_loads response = None ->
    tier2 json_loads response = None ->
    tier3 json_loads response = None ->
    analyze_recording_parse json_loads response
    = match search_fence response with
      | Some _ => Raise JSONDecodeError
      | None =>
          match first_index match_test_cases_at response with
          | Some start =>
              match shortest_balanced (skipn start response) with
              | Some _ => Raise JSONDecodeError
              | None =>
                  Raise (HTTPException 500
                           (py "Failed to parse model response as JSON"))
              end
          | None =>
              Raise (HTTPException 500 (py "Failed to parse model response as JSON"))
          end
      end
    /\ analyze_prd_parse json_loads response
       = match search_fence response with
         | Some _ => Raise JSONDecodeError
         | None =>
             Raise (HTTPException 500 (py "Failed to parse model response as JSON"))
         end.
Proof.
  intros json_loads response H1 H2 H3.
  pose proof (analyze_recording_parse_cases json_loads response) as E.
  unfold tier1 in H1. unfold tier2 in H2. unfold tier3 in H3.
  unfold analyze_prd_parse. rewrite E, H1. clear E.
  unfold loads_or_raise.
  destruct (search_fence response) as [g|].
  - rewrite H2. split; reflexivity.
  - split; [|reflexivity].
    destruct (first_index match_test_cases_at response) as [start|]; [|reflexivity].
    destruct (shortest_balanced (skipn start response)) as [n|]; [|reflexivity].
    rewrite H3. reflexivity.
Qed.

Lemma parse_failure_is_raised_witness :
  (analyze_recording_parse Json.loads Examples.refusal_text
   = Raise (HTTPException 500 (py "Failed to parse model response as JSON"))
   /\ analyze_prd_parse Json.loads Examples.refusal_text
      = Raise (HTTPException 500 (py "Failed to parse model response as JSON")))
  /\ (analyze_recording_parse Json.loads Cases.unbalanced_text
      = Raise (HTTPException 500 (py "Failed to parse model response as JSON"))
      /\ analyze_prd_parse Json.loads Cases.unbalanced_text
         = Raise (HTTPException 500 (py "Failed to parse model response as JSON")))
  /\ (analyze_recording_parse Json.loads Cases.balanced_garbage = Raise JSONDecodeError
      /\ analyze_prd_parse Json.loads Cases.balanced_garbage
         = Raise (HTTPException 500 (py "Failed to parse model response as JSON")))
  /\ (analyze_recording_parse Json.loads Cases.fenced_garbage = Raise JSONDecodeError
      /\ analyze_prd_parse Json.loads Cases.fenced_garbage = Raise JSONDecodeError).
Proof.
  split; [|split; [|split]].
  - refine (parse_failure_is_raised Json.loads Examples.refusal_text _ _ _);
      vm_compute; reflexivity.
  - refine (parse_failure_is_raised Json.loads Cases.unbalanced_text _ _ _);
      vm_compute; reflexivity.
  - refine (parse_failure_is_raised Json.loads Cases.balanced_garbage _ _ _);
      vm_compute; reflexivity.
  - refine (parse_failure_is_raised Json.loads Cases.fenced_garbage _ _ _);
      vm_compute; reflexivity.
Defined.

(** C7, the claim as stated fails: on a text with no JSON at all the code
    raises an exception instead of returning an outcome, and the exception
    is the same for texts of different lengths and contents, so it carries
    neither the length nor a preview of the text. *)
Lemma unparseable_is_raised_without_details :
  first_success Json.loads Examples.refusal_text = None
  /\ analyze_recording_parse Json.loads Examples.refusal_text
     = Raise (HTTPException 500 (py "Failed to parse model response as JSON"))
  /\ analyze_prd_parse Json.loads Examples.refusal_text
     = Raise (HTTPException 500 (py "Failed to parse model response as JSON"))
  /\ length Examples.refusal_text = 34%nat
  /\ length Examples.short_refusal_text = 3%nat
  /\ analyze_recording_parse Json.loads Examples.short_refusal_text
     = analyze_recording_parse Json.loads Examples.refusal_text.
Proof. repeat split; vm_compute; reflexivity. Qed.

(* ================================================================== *)
(** * Facts about the token manager and the generation client *)
(* ================================================================== *)

Section ServiceFacts.

Variable time_time : nat -> float.
Variable requests_post : nat -> request -> reply.
Variable json_loads : str -> option value.

Local Abbreviation refresh_token :=
  (Service.refresh_token time_time requests_post json_loads).
Local Abbreviation get_token :=
  (Service.get_token time_time requests_post json_loads).
Local Abbreviation generate_text :=
  (Service.generate_text time_time requests_post json_loads).
Local Abbreviation refreshed := (Service.refreshed json_loads).

Lemma refresh_token_run (s : state) (tm : TokenManager) :
  token_manager s = Some tm ->
  let rq := iam_request (api_key tm) in
  let '(ok, tm', ticked) :=
    refreshed tm (requests_post (length (sent s)) rq) (time_time (clock_reads s)) in
  refresh_token s =
  (Return ok,
   mk_state (Some tm') (watson_service s)
     (if ticked then S (clock_reads s) else clock_reads s) (rq :: sent s)).
Proof.
  intros Htm. destruct s as [m ws k log]. simpl in Htm. subst m.
  unfold Service.refreshed, Service.refresh_token, try_except, bind, self, post, log_request.
  cbn [token_manager sent clock_reads watson_service].
  destruct (requests_post (length log) (iam_request (api_key tm))) as [|code text];
    [reflexivity|].
  destruct (code =? 200)%Z; cbn [negb]; [|reflexivity].
  unfold response_json.
  destruct (json_loads text) as [v|]; [|reflexivity].
  destruct v; try reflexivity.
  unfold lift, get, set_token, bind, self, set_self, with_manager, now, tick, ret,
    set_expiry_time.
  cbn [token_manager sent clock_reads watson_service api_key token expiry_time].
  destruct (dict_lookup d (py "access_token")); destruct (dict_lookup d (py "expires_in"));
    cbn [token_manager sent clock_reads watson_service api_key token expiry_time];
    match goal with |- context [mul_float ?e ?y] => destruct (mul_float e y) end;
    reflexivity.
Qed.

Lemma get_token_run (s : state) (tm : TokenManager) :
  token_manager s = Some tm ->
  get_token s =
  if (expiry_time tm <? time_time (clock_reads s))%float then
    let '(_, tm', ticked) :=
      refreshed tm (requests_post (length (sent s)) (iam_request (api_key tm)))
        (time_time (S (clock_reads s))) in
    (Return (token tm'),
     mk_state (Some tm') (watson_service s)
       (if ticked then S (S (clock_reads s)) else S (clock_reads s))
       (iam_request (api_key tm) :: sent s))
  else (Return (token tm), tick s).
Proof.
  intros Htm.
  unfold Service.get_token, bind, now, self, ret.
  cbn [tick token_manager]. rewrite Htm.
  destruct (expiry_time tm <? time_time (clock_reads s))%float.
  - pose proof (refresh_token_run (tick s) tm Htm) as R.
    cbn [tick sent clock_reads watson_service] in R.
    destruct (refreshed tm _ _) as [[ok tm'] ticked].
    fold (tick s). rewrite R. reflexivity.
  - cbn [tick token_manager]. rewrite Htm. reflexivity.
Qed.

Lemma get_token_returns (s : state) (tm : TokenManager) :
  token_manager s = Some tm ->
  exists tm',
    get_token s = (Return (token tm'), snd (get_token s)) /\
    token_manager (snd (get_token s)) = Some tm'.
Proof.
  intros Htm. rewrite (get_token_run s tm Htm).
  destruct (expiry_time tm <? _)%float.
  - destruct (refreshed tm _ _) as [[ok tm'] ticked]. exists tm'. split; reflexivity.
  - exists tm. split; [reflexivity | exact Htm].
Qed.

Lemma generate_text_run (svc : WatsonXService) (prompt : str) (system_prompt params : value)
    (s s1 : state) (tok : value) :
  get_token s = (Return tok, s1) ->
  generate_text svc prompt system_prompt params s =
  if negb (truthy tok) then (Raise (Exception (py "Failed to obtain valid token")), s1)
  else
    let rq := generation_request svc tok (payload_of svc prompt system_prompt params) in
    match requests_post (length (sent s1)) rq with
    | Fails => (Raise ConnectionError, log_request rq s1)
    | Response status_code text =>
        if negb (status_code =? 200)%Z then
          (Raise (Exception (py "API call failed with status code: " ++ str_of_int status_code)),
           log_request rq s1)
        else
          match json_loads text with
          | Some result => (generated_text_of result, log_request rq s1)
          | None => (Raise JSONDecodeError, log_request rq s1)
          end
    end.
Proof.
  intros G. unfold Service.generate_text, try_except, bind. rewrite G.
  destruct (negb (truthy tok)); [reflexivity|].
  unfold post. cbv zeta.
  destruct (requests_post _ _) as [|code text]; [reflexivity|].
  destruct (negb (code =? 200)%Z); [reflexivity|].
  unfold response_json, lift.
  destruct (json_loads text) as [result|]; [|reflexivity].
  unfold raise, ret. destruct (generated_text_of result); reflexivity.
Qed.


Lemma get_token_sent (s : state) (tm : TokenManager) :
  token_manager s = Some tm ->
  sent (snd (get_token s)) =
  (if (expiry_time tm <? time_time (clock_reads s))%float
   then [iam_request (api_key tm)] else []) ++ sent s.
Proof.
  intros Htm. rewrite (get_token_run s tm Htm).
  destruct (expiry_time tm <? _)%float; [|reflexivity].
  destruct (refreshed tm _ _) as [[ok tm'] ticked]. reflexivity.
Qed.

Lemma get_token_needs_manager (s : state) (tok : value) :
  fst (get_token s) = Return tok -> exists tm, token_manager s = Some tm.
Proof.
  destruct (token_manager s) as [tm|] eqn:E; [now exists tm|].
  unfold Service.get_token, bind, now, self. cbn [tick token_manager].
  rewrite E. discriminate.
Qed.

End ServiceFacts.

Lemma iam_is_not_generation (svc : WatsonXService) (key : value) :
  to_generation svc (iam_request key) = false.
Proof.
  unfold to_generation, generation_url. cbn [url iam_request].
  destruct (str_eqb IAM_URL (api_url svc ++ GENERATION_PATH)) eqn:E; [|reflexivity].
  apply str_eqb_eq in E. apply (f_equal (@rev N)) in E.
  rewrite rev_app_distr in E. vm_compute in E. discriminate.
Qed.

(** C3 (as amended).  A call of [get_token] sends a refresh request to the
    identity endpoint exactly when the clock reads strictly more than the
    recorded expiry time, never at or before it, and the token returned is
    the one stored once that refresh is over.  In particular a manager
    whose expiry time still has its initial value 0 refreshes before
    returning whenever the clock reads a positive time. *)
Theorem get_token_refreshes_past_expiry :
  forall (time_time : nat -> float) (requests_post : nat -> request -> reply)
         (json_loads : str -> option value) (s : state) (tm : TokenManager),
    token_manager s = Some tm ->
    sent (snd (get_token time_time requests_post json_loads s)) =
      (if (expiry_time tm <? time_time (clock_reads s))%float
       then [iam_request (api_key tm)] else []) ++ sent s
    /\ (exists tm',
          token_manager (snd (get_token time_time requests_post json_loads s)) = Some tm'
          /\ fst (get_token time_time requests_post json_loads s) = Return (token tm'))
    /\ (expiry_time tm = 0%float ->
        (0 <? time_time (clock_reads s))%float = true ->
        sent (snd (get_token time_time requests_post json_loads s))
        = iam_request (api_key tm) :: sent s).
Proof.
  intros time_time requests_post json_loads s tm Htm.
  pose proof (get_token_sent time_time requests_post json_loads s tm Htm) as Hs.
  split; [exact Hs|]. split.
  - destruct (get_token_returns time_time requests_post json_loads s tm Htm)
      as (tm' & E & Hm).
    exists tm'. split; [exact Hm | now rewrite E].
  - intros H0 Hpos. rewrite Hs, H0, Hpos. reflexivity.
Qed.

Lemma get_token_refreshes_past_expiry_witness :
  token_manager Examples.fresh = Some (mk_TokenManager Examples.the_key VNone 0)
  /\ sent (snd (get_token Examples.the_clock
                  (Examples.network Examples.token_reply Examples.hello_reply)
                  Json.loads Examples.fresh))
     = [iam_request Examples.the_key].
Proof.
  assert (H : token_manager Examples.fresh
              = Some (mk_TokenManager Examples.the_key VNone 0)) by reflexivity.
  split; [exact H|].
  exact (proj1 (get_token_refreshes_past_expiry Examples.the_clock
                  (Examples.network Examples.token_reply Examples.hello_reply)
                  Json.loads Examples.fresh _ H)).
Defined.

(** C3, the claim as stated fails.  After a start-up that installed a
    token with expiry time 100, a call of [get_token] at time 100 finds
    the current time greater than or equal to the expiry time and yet
    sends nothing.  And after a start-up whose refresh was answered with
    an empty object, no token has ever been installed, the expiry time is
    3250, and a call at time 100 returns [None] without a refresh. *)
Lemma no_refresh_at_expiry :
  token_manager (Examples.started Examples.the_clock (Examples.network Examples.token_reply Examples.hello_reply))
  = Some Examples.valid_manager
  /\ Examples.the_clock
       (clock_reads (Examples.started Examples.the_clock
                       (Examples.network Examples.token_reply Examples.hello_reply)))
     = 100%float
  /\ (expiry_time Examples.valid_manager <=? 100)%float = true
  /\ get_token Examples.the_clock
       (Examples.network Examples.token_reply Examples.hello_reply) Json.loads
       (Examples.started Examples.the_clock (Examples.network Examples.token_reply Examples.hello_reply))
     = (Return (VStr (py "tok")),
        tick (Examples.started Examples.the_clock
                (Examples.network Examples.token_reply Examples.hello_reply)))
  /\ token_manager (Examples.started Examples.the_clock
                      (Examples.network Examples.no_token_reply Examples.hello_reply))
     = Some (mk_TokenManager Examples.the_key VNone 3250)
  /\ get_token Examples.the_clock
       (Examples.network Examples.no_token_reply Examples.hello_reply) Json.loads
       (Examples.started Examples.the_clock (Examples.network Examples.no_token_reply Examples.hello_reply))
     = (Return VNone,
        tick (Examples.started Examples.the_clock
                (Examples.network Examples.no_token_reply Examples.hello_reply))).
Proof. repeat split; vm_compute; reflexivity. Qed.

(** C4.  A refresh whose request fails in the transport or is answered
    with a status other than 200 returns [False] and leaves the manager,
    token and expiry time, as it was.  A [get_token] whose refresh fails
    in this way returns the prior token, and so does a [get_token] that
    follows a failed refresh while the token has not reached its expiry
    time. *)
Theorem failed_refresh_keeps_credential :
  forall (time_time : nat -> float) (requests_post : nat -> request -> reply)
         (json_loads : str -> option value) (s : state) (tm : TokenManager),
    token_manager s = Some tm ->
    (requests_post (length (sent s)) (iam_request (api_key tm)) = Fails
     \/ exists status_code text,
          requests_post (length (sent s)) (iam_request (api_key tm))
          = Response status_code text
          /\ status_code <> 200%Z) ->
    refresh_token time_time requests_post json_loads s
    = (Return false, log_request (iam_request (api_key tm)) s)
    /\ token_manager (snd (refresh_token time_time requests_post json_loads s)) = Some tm
    /\ fst (get_token time_time requests_post json_loads s) = Return (token tm)
    /\ token_manager (snd (get_token time_time requests_post json_loads s)) = Some tm
    /\ ((expiry_time tm <? time_time (clock_reads s))%float = false ->
        fst (get_token time_time requests_post json_loads
               (snd (refresh_token time_time requests_post json_loads s)))
        = Return (token tm)).
Proof.
  intros time_time requests_post json_loads s tm Htm Hfail.
  assert (R : forall t, refreshed json_loads tm
                (requests_post (length (sent s)) (iam_request (api_key tm))) t
              = (false, tm, false)).
  { intros t. destruct Hfail as [-> | (code & text & -> & Hne)]; [reflexivity|].
    unfold refreshed. apply Z.eqb_neq in Hne. now rewrite Hne. }
  assert (E : refresh_token time_time requests_post json_loads s
              = (Return false, log_request (iam_request (api_key tm)) s)).
  { pose proof (refresh_token_run time_time requests_post json_loads s tm Htm) as H.
    cbv zeta in H. rewrite R in H. rewrite H. unfold log_request.
    now rewrite Htm. }
  split; [exact E|]. rewrite E. cbn [snd log_request token_manager].
  split; [exact Htm|].
  rewrite (get_token_run time_time requests_post json_loads s tm Htm).
  destruct (expiry_time tm <? time_time (clock_reads s))%float eqn:X.
  - rewrite R. cbn [fst snd token_manager]. repeat split. discriminate.
  - cbn [fst snd tick token_manager]. repeat split; [exact Htm|]. intros _.
    rewrite (get_token_run time_time requests_post json_loads _ tm)
      by (cbn [token_manager]; exact Htm).
    cbn [clock_reads log_request]. rewrite X. reflexivity.
Qed.

Lemma failed_refresh_keeps_credential_witness :
  token_manager (Examples.started Examples.the_clock Examples.outage) = Some Examples.valid_manager
  /\ (exists status_code text,
        Examples.outage (length (sent (Examples.started Examples.the_clock Examples.outage)))
          (iam_request (api_key Examples.valid_manager))
        = Response status_code text
        /\ status_code <> 200%Z)
  /\ fst (get_token Examples.the_clock Examples.outage Json.loads
            (snd (refresh_token Examples.the_clock Examples.outage Json.loads
                    (Examples.started Examples.the_clock Examples.outage))))
     = Return (VStr (py "tok")).
Proof.
  assert (H1 : token_manager (Examples.started Examples.the_clock Examples.outage)
               = Some Examples.valid_manager) by (vm_compute; reflexivity).
  assert (H2 : exists status_code text,
             Examples.outage (length (sent (Examples.started Examples.the_clock Examples.outage)))
               (iam_request (api_key Examples.valid_manager))
             = Response status_code text
             /\ status_code <> 200%Z).
  { exists 500%Z, (py "Internal Server Error"). split; [vm_compute; reflexivity | discriminate]. }
  split; [exact H1|]. split; [exact H2|].
  refine (proj2 (proj2 (proj2 (proj2
            (failed_refresh_keeps_credential Examples.the_clock Examples.outage
               Json.loads (Examples.started Examples.the_clock Examples.outage) _ H1 (or_intror H2))))) _).
  vm_compute. reflexivity.
Defined.

(** C5.  A refresh that succeeds was answered with status 200 and a JSON
    object, and sets the expiry time to the clock reading plus 0.9 times
    [expires_in], the number found under that key of the object or 3600
    when the key is missing.  Conversely every answer with status 200 and a
    JSON object whose [expires_in] is a number, or is missing, makes the
    refresh succeed with that expiry time; for a missing key it is the
    clock reading plus 3240.  The arithmetic is that of the code, on
    doubles. *)
Theorem refresh_sets_expiry :
  forall (time_time : nat -> float) (requests_post : nat -> request -> reply)
         (json_loads : str -> option value) (s : state),
    (forall s' : state,
       refresh_token time_time requests_post json_loads s = (Return true, s') ->
       exists (tm tm' : TokenManager) (text : str) (d : dict) (expires_in : float),
         token_manager s = Some tm
         /\ token_manager s' = Some tm'
         /\ requests_post (length (sent s)) (iam_request (api_key tm))
            = Response 200 text
         /\ json_loads text = Some (VDict d)
         /\ to_float (match dict_lookup d (py "expires_in") with
                      | Some v => v
                      | None => VInt 3600
                      end) = Return expires_in
         /\ expiry_time tm' = (time_time (clock_reads s) + expires_in * 0.9)%float)
    /\ (forall (tm : TokenManager) (text : str) (d : dict) (expires_in : float),
          token_manager s = Some tm ->
          requests_post (length (sent s)) (iam_request (api_key tm))
          = Response 200 text ->
          json_loads text = Some (VDict d) ->
          to_float (match dict_lookup d (py "expires_in") with
                    | Some v => v
                    | None => VInt 3600
                    end) = Return expires_in ->
          refresh_token time_time requests_post json_loads s
          = (Return true,
             mk_state
               (Some (mk_TokenManager (api_key tm)
                        (match dict_lookup d (py "access_token") with
                         | Some v => v
                         | None => VNone
                         end)
                        (time_time (clock_reads s) + expires_in * 0.9)%float))
               (watson_service s) (S (clock_reads s))
               (iam_request (api_key tm) :: sent s)))
    /\ (forall (tm : TokenManager) (text : str) (d : dict),
          token_manager s = Some tm ->
          requests_post (length (sent s)) (iam_request (api_key tm))
          = Response 200 text ->
          json_loads text = Some (VDict d) ->
          dict_lookup d (py "expires_in") = None ->
          fst (refresh_token time_time requests_post json_loads s) = Return true
          /\ exists tm' : TokenManager,
               token_manager (snd (refresh_token time_time requests_post json_loads s))
               = Some tm'
               /\ expiry_time tm' = (time_time (clock_reads s) + 3240)%float).
Proof.
  intros time_time requests_post json_loads s.
  assert (Forward :
    forall (tm : TokenManager) (text : str) (d : dict) (expires_in : float),
      token_manager s = Some tm ->
      requests_post (length (sent s)) (iam_request (api_key tm)) = Response 200 text ->
      json_loads text = Some (VDict d) ->
      to_float (match dict_lookup d (py "expires_in") with
                | Some v => v
                | None => VInt 3600
                end) = Return expires_in ->
      refresh_token time_time requests_post json_loads s
      = (Return true,
         mk_state
           (Some (mk_TokenManager (api_key tm)
                    (match dict_lookup d (py "access_token") with
                     | Some v => v
                     | None => VNone
                     end)
                    (time_time (clock_reads s) + expires_in * 0.9)%float))
           (watson_service s) (S (clock_reads s))
           (iam_request (api_key tm) :: sent s))).
  { intros tm text d x Htm Q J F.
    pose proof (refresh_token_run time_time requests_post json_loads s tm Htm) as R.
    cbv zeta in R. unfold refreshed in R. rewrite Q in R.
    change (negb (200 =? 200)%Z) with false in R. cbv iota in R.
    rewrite J in R. cbv zeta in R. unfold mul_float in R. rewrite F in R.
    exact R. }
  split; [|split].
  - intros s' H.
    destruct (token_manager s) as [tm|] eqn:Htm.
    2:{ unfold refresh_token, try_except, bind, self in H. rewrite Htm in H.
        discriminate. }
    pose proof (refresh_token_run time_time requests_post json_loads s tm Htm) as R.
    cbv zeta in R. unfold refreshed in R.
    destruct (requests_post (length (sent s)) (iam_request (api_key tm)))
      as [|code text] eqn:Q.
    { rewrite R in H. discriminate. }
    destruct (code =? 200)%Z eqn:C; cbn [negb] in R.
    2:{ rewrite R in H. discriminate. }
    apply Z.eqb_eq in C. subst code.
    destruct (json_loads text) as [v|] eqn:J.
    2:{ rewrite R in H. discriminate. }
    destruct v as [ | | | | | |d]; try (rewrite R in H; discriminate).
    cbv zeta in R. unfold mul_float in R.
    destruct (to_float _) as [x|e] eqn:F.
    2:{ rewrite R in H. discriminate. }
    rewrite R in H. injection H as <-.
    eexists tm, _, text, d, x.
    repeat split; try reflexivity; try assumption.
  - exact Forward.
  - intros tm text d Htm Q J N.
    assert (F : to_float (match dict_lookup d (py "expires_in") with
                          | Some v => v
                          | None => VInt 3600
                          end) = Return 3600%float)
      by (rewrite N; vm_compute; reflexivity).
    rewrite (Forward tm text d _ Htm Q J F). cbn [fst snd token_manager].
    split; [reflexivity|]. eexists. split; [reflexivity|].
    cbn [expiry_time]. reflexivity.
Qed.

Lemma refresh_sets_expiry_witness :
  (fst (refresh_token Examples.the_clock
          (Examples.network Cases.no_expiry_reply Examples.hello_reply) Json.loads
          Examples.fresh) = Return true
   /\ exists tm' : TokenManager,
        token_manager
          (snd (refresh_token Examples.the_clock
                  (Examples.network Cases.no_expiry_reply Examples.hello_reply)
                  Json.loads Examples.fresh)) = Some tm'
        /\ expiry_time tm' = (10 + 3240)%float)
  /\ refresh_token Examples.the_clock
       (Examples.network Examples.token_reply Examples.hello_reply) Json.loads
       Examples.fresh
     = (Return true,
        mk_state
          (Some (mk_TokenManager Examples.the_key (VStr (py "tok")) (10 + 100 * 0.9)%float))
          None 1 [iam_request Examples.the_key]).
Proof.
  split.
  - refine (proj2 (proj2
              (refresh_sets_expiry Examples.the_clock
                 (Examples.network Cases.no_expiry_reply Examples.hello_reply)
                 Json.loads Examples.fresh))
              (mk_TokenManager Examples.the_key VNone 0)
              (py "{'access_token':'tok'}")
              [ (py "access_token", VStr (py "tok")) ] _ _ _ _);
      vm_compute; reflexivity.
  - refine (proj1 (proj2
              (refresh_sets_expiry Examples.the_clock
                 (Examples.network Examples.token_reply Examples.hello_reply)
                 Json.loads Examples.fresh))
              (mk_TokenManager Examples.the_key VNone 0)
              (py "{'access_token':'tok','expires_in':100}")
              [ (py "access_token", VStr (py "tok")); (py "expires_in", VInt 100) ]
              100%float _ _ _ _);
      vm_compute; reflexivity.
Defined.

(** C6 (as amended).  When the token manager hands out a usable token,
    [generate_text] sends one request to the generation endpoint, and its
    body has the field system_prompt exactly when the system prompt given
    by the caller is truthy, that is a non-empty string; [None] and the
    empty string both give a body without the field. *)
Theorem system_prompt_field_iff_truthy :
  forall (time_time : nat -> float) (requests_post : nat -> request -> reply)
         (json_loads : str -> option value) (svc : WatsonXService)
         (prompt : str) (system_prompt params : value)
         (s s1 : state) (tok : value),
    get_token time_time requests_post json_loads s = (Return tok, s1) ->
    truthy tok = true ->
    exists rq : request,
      sent (snd (generate_text time_time requests_post json_loads svc prompt
                   system_prompt params s))
      = rq :: sent s1
      /\ to_generation svc rq = true
      /\ body_field rq (py "system_prompt")
         = (if truthy system_prompt then Some system_prompt else None)
      /\ (system_prompt = VNone \/ system_prompt = VStr [] ->
          body_field rq (py "system_prompt") = None).
Proof.
  intros time_time requests_post json_loads svc prompt system_prompt params s s1 tok G T.
  rewrite (generate_text_run _ _ _ svc prompt system_prompt params s s1 tok G).
  rewrite T. cbn [negb]. cbv zeta.
  exists (generation_request svc tok (payload_of svc prompt system_prompt params)).
  assert (F : body_field
                (generation_request svc tok (payload_of svc prompt system_prompt params))
                (py "system_prompt")
              = (if truthy system_prompt then Some system_prompt else None)).
  { unfold body_field, generation_request, payload_of. cbn [json].
    destruct (truthy system_prompt); reflexivity. }
  repeat split.
  - destruct (requests_post _ _) as [|code text]; [reflexivity|].
    destruct (negb (code =? 200)%Z); [reflexivity|].
    destruct (json_loads text); reflexivity.
  - unfold to_generation. cbn [url generation_request]. now apply str_eqb_eq.
  - exact F.
  - intros [-> | ->]; rewrite F; reflexivity.
Qed.

Lemma system_prompt_field_iff_truthy_witness :
  get_token Examples.the_clock
    (Examples.network Examples.token_reply Examples.hello_reply) Json.loads
    (Examples.started Examples.the_clock (Examples.network Examples.token_reply Examples.hello_reply))
  = (Return (VStr (py "tok")),
     tick (Examples.started Examples.the_clock (Examples.network Examples.token_reply Examples.hello_reply)))
  /\ truthy (VStr (py "tok")) = true
  /\ exists rq : request,
      sent (snd (generate_text Examples.the_clock
                   (Examples.network Examples.token_reply Examples.hello_reply)
                   Json.loads Examples.the_service (py "hi") (VStr (py "be brief")) VNone
                   (Examples.started Examples.the_clock
                      (Examples.network Examples.token_reply Examples.hello_reply))))
      = rq :: sent (tick (Examples.started Examples.the_clock
                            (Examples.network Examples.token_reply Examples.hello_reply)))
      /\ to_generation Examples.the_service rq = true
      /\ body_field rq (py "system_prompt")
         = (if truthy (VStr (py "be brief")) then Some (VStr (py "be brief")) else None)
      /\ (VStr (py "be brief") = VNone \/ VStr (py "be brief") = VStr [] ->
          body_field rq (py "system_prompt") = None).
Proof.
  assert (G : get_token Examples.the_clock
                (Examples.network Examples.token_reply Examples.hello_reply) Json.loads
                (Examples.started Examples.the_clock
                   (Examples.network Examples.token_reply Examples.hello_reply))
              = (Return (VStr (py "tok")),
                 tick (Examples.started Examples.the_clock
                         (Examples.network Examples.token_reply Examples.hello_reply))))
    by (vm_compute; reflexivity).
  assert (T : truthy (VStr (py "tok")) = true) by reflexivity.
  split; [exact G|]. split; [exact T|].
  exact (system_prompt_field_iff_truthy Examples.the_clock
           (Examples.network Examples.token_reply Examples.hello_reply) Json.loads
           Examples.the_service (py "hi") (VStr (py "be brief")) VNone _ _ _ G T).
Defined.

(** C6, the claim as stated fails: a caller that passes the empty string
    as system prompt gets a request whose body has no system_prompt field,
    the very request sent when no system prompt is passed. *)
Lemma empty_system_prompt_is_dropped :
  option_map (fun rq => body_field rq (py "system_prompt"))
    (hd_error
       (sent (snd (generate_text Examples.the_clock
                     (Examples.network Examples.token_reply Examples.hello_reply)
                     Json.loads Examples.the_service (py "hi") (VStr []) VNone
                     (Examples.started Examples.the_clock
                        (Examples.network Examples.token_reply Examples.hello_reply))))))
  = Some None
  /\ generate_text Examples.the_clock
       (Examples.network Examples.token_reply Examples.hello_reply)
       Json.loads Examples.the_service (py "hi") (VStr []) VNone
       (Examples.started Examples.the_clock (Examples.network Examples.token_reply Examples.hello_reply))
     = generate_text Examples.the_clock
         (Examples.network Examples.token_reply Examples.hello_reply)
         Json.loads Examples.the_service (py "hi") VNone VNone
         (Examples.started Examples.the_clock (Examples.network Examples.token_reply Examples.hello_reply))
  /\ fst (generate_text Examples.the_clock
            (Examples.network Examples.token_reply Examples.hello_reply)
            Json.loads Examples.the_service (py "hi") (VStr []) VNone
            (Examples.started Examples.the_clock
               (Examples.network Examples.token_reply Examples.hello_reply)))
     = Return (VStr (py "hello")).
Proof. repeat split; vm_compute; reflexivity. Qed.

(** C8.  When no usable credential can be had, because the process was
    started without an API key or because the token manager hands out
    [None] or an empty value, the generate call raises an error that says
    so, and sends no request to the generation endpoint; with a service in
    place, [generate_text] itself raises after the manager's own traffic
    and nothing more. *)
Theorem generate_without_credential :
  forall (time_time : nat -> float) (requests_post : nat -> request -> reply)
         (json_loads : str -> option value)
         (prompt : str) (system_prompt params : value) (s : state),
    no_usable_credential time_time requests_post json_loads s ->
    (exists e : exn,
       fst (route_generate time_time requests_post json_loads prompt
              system_prompt params s) = Raise e
       /\ (e = not_initialized
           \/ e = Exception (py "Failed to obtain valid token")))
    /\ (forall svc : WatsonXService,
          filter (to_generation svc)
            (sent (snd (route_generate time_time requests_post json_loads prompt
                          system_prompt params s)))
          = filter (to_generation svc) (sent s))
    /\ (forall (svc : WatsonXService) (tok : value),
          fst (get_token time_time requests_post json_loads s) = Return tok ->
          truthy tok = false ->
          generate_text time_time requests_post json_loads svc prompt
            system_prompt params s
          = (Raise (Exception (py "Failed to obtain valid token")),
             snd (get_token time_time requests_post json_loads s))).
Proof.
  intros time_time requests_post json_loads prompt system_prompt params s H.
  assert (G : forall (svc : WatsonXService) (tok : value),
             fst (get_token time_time requests_post json_loads s) = Return tok ->
             truthy tok = false ->
             generate_text time_time requests_post json_loads svc prompt
               system_prompt params s
             = (Raise (Exception (py "Failed to obtain valid token")),
                snd (get_token time_time requests_post json_loads s))).
  { intros svc tok Hg Ht.
    destruct (get_token time_time requests_post json_loads s) as [r s1] eqn:E.
    cbn [fst] in Hg. subst r.
    rewrite (generate_text_run _ _ _ svc prompt system_prompt params s s1 tok E).
    now rewrite Ht. }
  assert (N : watson_service s = None ->
              route_generate time_time requests_post json_loads prompt
                system_prompt params s = (Raise not_initialized, s)).
  { intros W. unfold route_generate. now rewrite W. }
  destruct H as [s0 key space url_ Hk Hs | tok Hg Ht].
  - assert (W : watson_service s = None).
    { subst s. unfold startup. rewrite Hk. reflexivity. }
    rewrite (N W). repeat split; [exists not_initialized; split; [reflexivity | now left] | exact G].
  - destruct (watson_service s) as [svc0|] eqn:W.
    + unfold route_generate. rewrite W. rewrite (G svc0 tok Hg Ht).
      repeat split; [eexists; split; [reflexivity | now right] | | exact G].
      intros svc. cbn [snd].
      destruct (get_token_needs_manager _ _ _ s tok Hg) as [tm Htm].
      rewrite (get_token_sent _ _ _ s tm Htm).
      destruct (expiry_time tm <? _)%float; [|reflexivity].
      cbn [app filter]. now rewrite iam_is_not_generation.
    + rewrite (N eq_refl).
      repeat split; [exists not_initialized; split; [reflexivity | now left] | exact G].
Qed.

Lemma generate_without_credential_witness :
  no_usable_credential Examples.late_clock Examples.revoked Json.loads
    (Examples.started Examples.late_clock Examples.revoked)
  /\ generate_text Examples.late_clock Examples.revoked Json.loads
       Examples.the_service (py "hi") VNone VNone
       (Examples.started Examples.late_clock Examples.revoked)
     = (Raise (Exception (py "Failed to obtain valid token")),
        snd (get_token Examples.late_clock Examples.revoked Json.loads
               (Examples.started Examples.late_clock Examples.revoked)))
  /\ filter (to_generation Examples.the_service)
       (sent (snd (route_generate Examples.late_clock Examples.revoked Json.loads
                     (py "hi") VNone VNone
                     (Examples.started Examples.late_clock Examples.revoked))))
     = [].
Proof.
  assert (H : no_usable_credential Examples.late_clock Examples.revoked Json.loads
                (Examples.started Examples.late_clock Examples.revoked)).
  { apply no_token with (tok := VNone); vm_compute; reflexivity. }
  split; [exact H|]. split.
  - refine (proj2 (proj2 (generate_without_credential Examples.late_clock
              Examples.revoked Json.loads (py "hi") VNone VNone _ H))
              Examples.the_service VNone _ _);
      vm_compute; reflexivity.
  - vm_compute. reflexivity.
Defined.

(** C9.  Whatever the state of the token manager, [get_token] returns,
    and returns the stored token.  A value that passes the callers' test
    of usability is neither [None] nor the empty string; [None] and the
    empty string fail that test, and then [generate_text] raises its
    failure to obtain a valid token and goes no further, so the only
    request [generate_text] ever adds carries a token that passed the
    test.  After a refresh answered with status 200 and an object without
    access_token, the value returned is [None]. *)
Theorem no_empty_token_is_usable :
  forall (time_time : nat -> float) (requests_post : nat -> request -> reply)
         (json_loads : str -> option value) (s : state) (tm : TokenManager),
    token_manager s = Some tm ->
    exists (tok : value) (s' : state) (tm' : TokenManager),
      get_token time_time requests_post json_loads s = (Return tok, s')
      /\ token_manager s' = Some tm'
      /\ token tm' = tok
      /\ (truthy tok = true -> tok <> VNone /\ tok <> VStr [])
      /\ (tok = VNone \/ tok = VStr [] -> truthy tok = false)
      /\ (truthy tok = false ->
          forall (svc : WatsonXService) (prompt : str) (system_prompt params : value),
            generate_text time_time requests_post json_loads svc prompt
              system_prompt params s
            = (Raise (Exception (py "Failed to obtain valid token")), s'))
      /\ (forall (svc : WatsonXService) (prompt : str) (system_prompt params : value),
            sent (snd (generate_text time_time requests_post json_loads svc prompt
                         system_prompt params s))
            = sent s'
            \/ (truthy tok = true
                /\ sent (snd (generate_text time_time requests_post json_loads svc
                                prompt system_prompt params s))
                   = generation_request svc tok
                       (payload_of svc prompt system_prompt params)
                     :: sent s'))
      /\ (forall (text : str) (d : dict),
            (expiry_time tm <? time_time (clock_reads s))%float = true ->
            requests_post (length (sent s)) (iam_request (api_key tm))
            = Response 200 text ->
            json_loads text = Some (VDict d) ->
            dict_lookup d (py "access_token") = None ->
            tok = VNone).
Proof.
  intros time_time requests_post json_loads s tm Htm.
  destruct (get_token_returns time_time requests_post json_loads s tm Htm)
    as (tm' & E & Hm).
  exists (token tm'), (snd (get_token time_time requests_post json_loads s)), tm'.
  split; [exact E|]. split; [exact Hm|]. split; [reflexivity|].
  split; [intros T; split; intros X; rewrite X in T; discriminate|].
  split; [intros [-> | ->]; reflexivity|].
  split; [|split].
  - intros T svc prompt system_prompt params.
    rewrite (generate_text_run _ _ _ svc prompt system_prompt params s _ _ E).
    now rewrite T.
  - intros svc prompt system_prompt params.
    rewrite (generate_text_run _ _ _ svc prompt system_prompt params s _ _ E).
    destruct (truthy (token tm')); cbn [negb]; [right | now left].
    split; [reflexivity|]. cbv zeta.
    destruct (requests_post _ _) as [|code text]; [reflexivity|].
    destruct (negb (code =? 200)%Z); [reflexivity|].
    destruct (json_loads text); reflexivity.
  - intros text d X Q J A.
    rewrite (get_token_run time_time requests_post json_loads s tm Htm) in E, Hm.
    rewrite X, Q in E, Hm. unfold refreshed in E, Hm.
    change (negb (200 =? 200)%Z) with false in E, Hm. cbv iota in E, Hm.
    rewrite J, A in E, Hm. cbv zeta in E, Hm.
    destruct (mul_float _ _); cbn [snd token_manager] in Hm;
      injection Hm as <-; reflexivity.
Qed.

Lemma no_empty_token_is_usable_witness :
  token_manager (Examples.started Examples.late_clock Examples.revoked)
  = Some Examples.valid_manager
  /\ get_token Examples.late_clock Examples.revoked Json.loads
       (Examples.started Examples.late_clock Examples.revoked)
     = (Return VNone,
        mk_state (Some (mk_TokenManager Examples.the_key VNone 3440))
          (Some Examples.the_service) 4
          [iam_request Examples.the_key; iam_request Examples.the_key])
  /\ exists (tok : value) (s' : state) (tm' : TokenManager),
      get_token Examples.late_clock Examples.revoked Json.loads
        (Examples.started Examples.late_clock Examples.revoked) = (Return tok, s')
      /\ token_manager s' = Some tm'
      /\ token tm' = tok
      /\ (truthy tok = true -> tok <> VNone /\ tok <> VStr [])
      /\ (tok = VNone \/ tok = VStr [] -> truthy tok = false)
      /\ (truthy tok = false ->
          forall (svc : WatsonXService) (prompt : str) (system_prompt params : value),
            generate_text Examples.late_clock Examples.revoked Json.loads svc prompt
              system_prompt params (Examples.started Examples.late_clock Examples.revoked)
            = (Raise (Exception (py "Failed to obtain valid token")), s'))
      /\ (forall (svc : WatsonXService) (prompt : str) (system_prompt params : value),
            sent (snd (generate_text Examples.late_clock Examples.revoked Json.loads
                         svc prompt system_prompt params
                         (Examples.started Examples.late_clock Examples.revoked)))
            = sent s'
            \/ (truthy tok = true
                /\ sent (snd (generate_text Examples.late_clock Examples.revoked
                                Json.loads svc prompt system_prompt params
                                (Examples.started Examples.late_clock Examples.revoked)))
                   = generation_request svc tok
                       (payload_of svc prompt system_prompt params)
                     :: sent s'))
      /\ (forall (text : str) (d : dict),
            (expiry_time Examples.valid_manager
             <? Examples.late_clock
                  (clock_reads (Examples.started Examples.late_clock Examples.revoked)))%float
            = true ->
            Examples.revoked
              (length (sent (Examples.started Examples.late_clock Examples.revoked)))
              (iam_request (api_key Examples.valid_manager))
            = Response 200 text ->
            Json.loads text = Some (VDict d) ->
            dict_lookup d (py "access_token") = None ->
            tok = VNone).
Proof.
  assert (H : token_manager (Examples.started Examples.late_clock Examples.revoked)
              = Some Examples.valid_manager) by (vm_compute; reflexivity).
  split; [exact H|]. split; [vm_compute; reflexivity|].
  exact (no_empty_token_is_usable Examples.late_clock Examples.revoked Json.loads
           (Examples.started Examples.late_clock Examples.revoked) _ H).
Defined.

(** C10.  When a usable token is at hand and the generation endpoint
    answers 200 with a body that parses, [generate_text] ends as the
    expression on the parsed body does.  If the body is an object whose
    results key maps to the empty list, that is an [IndexError], not an
    empty string.  And whenever a value is returned, either the results
    key is missing and the value is the empty string, or results is a list
    whose first element is an object, and the value is that object's
    generated_text, or the empty string when it has none. *)
Theorem empty_results_raise :
  forall (time_time : nat -> float) (requests_post : nat -> request -> reply)
         (json_loads : str -> option value) (svc : WatsonXService)
         (prompt : str) (system_prompt params : value)
         (s s1 : state) (tok : value) (text : str) (result : value),
    get_token time_time requests_post json_loads s = (Return tok, s1) ->
    truthy tok = true ->
    requests_post (length (sent s1))
      (generation_request svc tok (payload_of svc prompt system_prompt params))
    = Response 200 text ->
    json_loads text = Some result ->
    fst (generate_text time_time requests_post json_loads svc prompt
           system_prompt params s)
    = generated_text_of result
    /\ (forall d : dict,
          result = VDict d ->
          dict_lookup d (py "results") = Some (VList []) ->
          fst (generate_text time_time requests_post json_loads svc prompt
                 system_prompt params s)
          = Raise IndexError)
    /\ (forall v : value,
          fst (generate_text time_time requests_post json_loads svc prompt
                 system_prompt params s)
          = Return v ->
          exists d : dict,
            result = VDict d
            /\ ((dict_lookup d (py "results") = None /\ v = VStr [])
                \/ exists (first : dict) (rest : list value),
                     dict_lookup d (py "results") = Some (VList (VDict first :: rest))
                     /\ (dict_lookup first (py "generated_text") = Some v
                         \/ (dict_lookup first (py "generated_text") = None
                             /\ v = VStr [])))).
Proof.
  intros time_time requests_post json_loads svc prompt system_prompt params
         s s1 tok text result G T Q J.
  assert (E : fst (generate_text time_time requests_post json_loads svc prompt
                     system_prompt params s)
              = generated_text_of result).
  { rewrite (generate_text_run _ _ _ svc prompt system_prompt params s s1 tok G).
    rewrite T. cbn [negb]. cbv zeta. rewrite Q.
    change (negb (200 =? 200)%Z) with false. cbv iota. now rewrite J. }
  split; [exact E|]. rewrite E. clear E. split.
  - intros d -> R. unfold generated_text_of, get. now rewrite R.
  - intros v R. unfold generated_text_of, get in R.
    destruct result as [ | | | | | |d]; try discriminate. exists d. split; [reflexivity|].
    destruct (dict_lookup d (py "results")) as [results|].
    + right. destruct results as [ | | | |x|l|d']; try discriminate.
      * destruct x; discriminate.
      * destruct l as [|first rest]; [discriminate|].
        cbn [index0] in R.
        destruct first as [ | | | | | |e]; try discriminate.
        exists e, rest. split; [reflexivity|].
        destruct (dict_lookup e (py "generated_text")) as [w|].
        -- left. now injection R as ->.
        -- right. split; [reflexivity|]. now injection R as <-.
    + left. split; [reflexivity|]. cbn in R. now injection R as <-.
Qed.

Lemma empty_results_raise_witness :
  fst (generate_text Examples.the_clock
         (Examples.network Examples.token_reply Examples.no_results_reply) Json.loads
         Examples.the_service (py "hi") VNone VNone
         (Examples.started Examples.the_clock
            (Examples.network Examples.token_reply Examples.no_results_reply)))
  = Raise IndexError.
Proof.
  refine (proj1 (proj2
            (empty_results_raise Examples.the_clock
               (Examples.network Examples.token_reply Examples.no_results_reply)
               Json.loads Examples.the_service (py "hi") VNone VNone
               (Examples.started Examples.the_clock
                  (Examples.network Examples.token_reply Examples.no_results_reply))
               (tick (Examples.started Examples.the_clock
                        (Examples.network Examples.token_reply Examples.no_results_reply)))
               (VStr (py "tok")) (py "{'results':[]}")
               (VDict [ (py "results", VList []) ]) _ _ _ _))
            [ (py "results", VList []) ] _ _);
    vm_compute; reflexivity.
Defined.

(* ================================================================== *)
(** * More facts about the token manager, the client and start-up *)
(* ================================================================== *)

Lemma refreshed_api_key (json_loads : str -> option value) (tm : TokenManager)
    (r : reply) (t : float) :
  api_key (snd (fst (refreshed json_loads tm r t))) = api_key tm.
Proof.
  unfold refreshed. destruct r as [|code text]; [reflexivity|].
  destruct (negb (code =? 200)%Z); [reflexivity|].
  destruct (json_loads text) as [v|]; [|reflexivity].
  destruct v; try reflexivity.
  cbv zeta. destruct (mul_float _ _); reflexivity.
Qed.

(** X1: [TokenManager.refresh_token] never raises: whatever the network
    gives, it returns [True] or [False], sends exactly one request, the one
    to the identity endpoint with the key of the manager, and leaves the
    key and the service global as they were. *)
Theorem refresh_token_never_raises :
  forall (time_time : nat -> float) (requests_post : nat -> request -> reply)
         (json_loads : str -> option value) (s : state) (tm : TokenManager),
    token_manager s = Some tm ->
    exists (ok : bool) (tm' : TokenManager),
      fst (refresh_token time_time requests_post json_loads s) = Return ok
      /\ token_manager (snd (refresh_token time_time requests_post json_loads s))
         = Some tm'
      /\ api_key tm' = api_key tm
      /\ watson_service (snd (refresh_token time_time requests_post json_loads s))
         = watson_service s
      /\ sent (snd (refresh_token time_time requests_post json_loads s))
         = iam_request (api_key tm) :: sent s.
Proof.
  intros time_time requests_post json_loads s tm Htm.
  pose proof (refresh_token_run time_time requests_post json_loads s tm Htm) as R.
  cbv zeta in R.
  pose proof (refreshed_api_key json_loads tm
                (requests_post (length (sent s)) (iam_request (api_key tm)))
                (time_time (clock_reads s))) as K.
  destruct (refreshed json_loads tm _ _) as [[ok tm'] ticked].
  rewrite R. exists ok, tm'. repeat split. exact K.
Qed.

Lemma refresh_token_never_raises_witness :
  exists (ok : bool) (tm' : Service.TokenManager),
    fst (Service.refresh_token Examples.the_clock
           (Examples.network Examples.error_reply Examples.hello_reply) Json.loads
           Examples.fresh) = Py.Return ok
    /\ Service.token_manager
         (snd (Service.refresh_token Examples.the_clock
                 (Examples.network Examples.error_reply Examples.hello_reply)
                 Json.loads Examples.fresh)) = Some tm'
    /\ Service.api_key tm' = Examples.the_key
    /\ Service.watson_service
         (snd (Service.refresh_token Examples.the_clock
                 (Examples.network Examples.error_reply Examples.hello_reply)
                 Json.loads Examples.fresh)) = None
    /\ Service.sent
         (snd (Service.refresh_token Examples.the_clock
                 (Examples.network Examples.error_reply Examples.hello_reply)
                 Json.loads Examples.fresh))
       = [Service.iam_request Examples.the_key].
Proof.
  refine (refresh_token_never_raises Examples.the_clock
            (Examples.network Examples.error_reply Examples.hello_reply) Json.loads
            Examples.fresh (Service.mk_TokenManager Examples.the_key Py.VNone 0) _).
  reflexivity.
Defined.

(** X2: when the identity endpoint answers 200 with an object whose
    [expires_in] is not a number, [refresh_token] returns [False], yet the
    manager already holds the [access_token] of that answer (or [None] when
    the answer has none) with the expiry time of before: the assignment to
    [self.token] precedes the arithmetic that raises. *)
Theorem refresh_with_bad_expiry_replaces_token :
  forall (time_time : nat -> float) (requests_post : nat -> request -> reply)
         (json_loads : str -> option value) (s : state) (tm : TokenManager)
         (text : str) (d : dict) (e : exn),
    token_manager s = Some tm ->
    requests_post (length (sent s)) (iam_request (api_key tm)) = Response 200 text ->
    json_loads text = Some (VDict d) ->
    to_float (match dict_lookup d (py "expires_in") with
              | Some v => v
              | None => VInt 3600
              end) = Raise e ->
    fst (refresh_token time_time requests_post json_loads s) = Return false
    /\ token_manager (snd (refresh_token time_time requests_post json_loads s))
       = Some (mk_TokenManager (api_key tm)
                 (match dict_lookup d (py "access_token") with
                  | Some v => v
                  | None => VNone
                  end)
                 (expiry_time tm)).
Proof.
  intros time_time requests_post json_loads s tm text d e Htm Q J F.
  pose proof (refresh_token_run time_time requests_post json_loads s tm Htm) as R.
  cbv zeta in R. unfold refreshed in R. rewrite Q in R.
  change (negb (200 =? 200)%Z) with false in R. cbv iota in R.
  rewrite J in R. cbv zeta in R. unfold mul_float in R. rewrite F in R.
  rewrite R. split; reflexivity.
Qed.

Lemma refresh_with_bad_expiry_replaces_token_witness :
  fst (Service.refresh_token Examples.the_clock
         (Examples.network Cases.bad_expiry_reply Examples.hello_reply) Json.loads
         Examples.fresh) = Py.Return false
  /\ Service.token_manager
       (snd (Service.refresh_token Examples.the_clock
               (Examples.network Cases.bad_expiry_reply Examples.hello_reply)
               Json.loads Examples.fresh))
     = Some (Service.mk_TokenManager Examples.the_key (Py.VStr (Py.py "new")) 0%float).
Proof.
  refine (refresh_with_bad_expiry_replaces_token Examples.the_clock
            (Examples.network Cases.bad_expiry_reply Examples.hello_reply) Json.loads
            Examples.fresh (Service.mk_TokenManager Examples.the_key Py.VNone 0)
            Cases.bad_expiry_text Cases.bad_expiry_body Py.TypeError _ _ _ _);
    vm_compute; reflexivity.
Defined.

Lemma get_token_api_key (time_time : nat -> float)
    (requests_post : nat -> request -> reply) (json_loads : str -> option value)
    (s : state) (tm : TokenManager) :
  token_manager s = Some tm ->
  exists tm',
    get_token time_time requests_post json_loads s
    = (Return (token tm'), snd (get_token time_time requests_post json_loads s))
    /\ token_manager (snd (get_token time_time requests_post json_loads s)) = Some tm'
    /\ api_key tm' = api_key tm
    /\ watson_service (snd (get_token time_time requests_post json_loads s))
       = watson_service s.
Proof.
  intros Htm. rewrite (get_token_run time_time requests_post json_loads s tm Htm).
  destruct (expiry_time tm <? _)%float.
  - pose proof (refreshed_api_key json_loads tm
                  (requests_post (length (sent s)) (iam_request (api_key tm)))
                  (time_time (S (clock_reads s)))) as K.
    destruct (refreshed json_loads tm _ _) as [[ok tm'] ticked]. exists tm'.
    repeat split. exact K.
  - exists tm. repeat split. exact Htm.
Qed.

Lemma generate_text_without_manager (time_time : nat -> float)
    (requests_post : nat -> request -> reply) (json_loads : str -> option value)
    (svc : WatsonXService) (prompt : str) (system_prompt params : value) (s : state) :
  token_manager s = None ->
  generate_text time_time requests_post json_loads svc prompt system_prompt params s
  = (Raise AttributeError, tick s).
Proof.
  intros Htm. unfold generate_text, try_except, bind, get_token, bind, now, self.
  cbn [tick token_manager]. rewrite Htm. reflexivity.
Qed.

Lemma generate_text_sent (time_time : nat -> float)
    (requests_post : nat -> request -> reply) (json_loads : str -> option value)
    (svc : WatsonXService) (prompt : str) (system_prompt params : value)
    (s s1 : state) (tok : value) :
  get_token time_time requests_post json_loads s = (Return tok, s1) ->
  sent (snd (generate_text time_time requests_post json_loads svc prompt
               system_prompt params s))
  = (if truthy tok
     then [generation_request svc tok (payload_of svc prompt system_prompt params)]
     else []) ++ sent s1.
Proof.
  intros E.
  rewrite (generate_text_run _ _ _ svc prompt system_prompt params s _ _ E).
  destruct (truthy tok); cbn [negb]; [|reflexivity].
  cbv zeta. destruct (requests_post _ _) as [|code text]; [reflexivity|].
  destruct (negb (code =? 200)%Z); [reflexivity|].
  destruct (json_loads text); reflexivity.
Qed.

(** X3: one call of [generate_text] sends at most two requests, in this
    order: at most one to the identity endpoint, then at most one to the
    generation endpoint of the service; and the generation request is only
    sent when [get_token] gave a truthy token. *)
Theorem generate_text_sends_at_most_two :
  forall (time_time : nat -> float) (requests_post : nat -> request -> reply)
         (json_loads : str -> option value) (svc : WatsonXService)
         (prompt : str) (system_prompt params : value) (s : state),
    exists refresh generation : list request,
      sent (snd (generate_text time_time requests_post json_loads svc prompt
                   system_prompt params s))
      = generation ++ refresh ++ sent s
      /\ (length refresh <= 1)%nat
      /\ (length generation <= 1)%nat
      /\ Forall (fun r => url r = IAM_URL) refresh
      /\ Forall (fun r => to_generation svc r = true) generation
      /\ (generation <> [] ->
          exists tok : value,
            fst (get_token time_time requests_post json_loads s) = Return tok
            /\ truthy tok = true).
Proof.
  intros time_time requests_post json_loads svc prompt system_prompt params s.
  destruct (token_manager s) as [tm|] eqn:Htm.
  2:{ rewrite generate_text_without_manager by exact Htm.
      exists [], []. repeat split; try constructor; simpl; try lia. congruence. }
  destruct (get_token_returns time_time requests_post json_loads s tm Htm)
    as (tm' & E & _).
  rewrite (generate_text_sent _ _ _ svc prompt system_prompt params s _ _ E).
  rewrite (get_token_sent time_time requests_post json_loads s tm Htm).
  exists (if (expiry_time tm <? time_time (clock_reads s))%float
          then [iam_request (api_key tm)] else []),
         (if truthy (token tm')
          then [generation_request svc (token tm')
                  (payload_of svc prompt system_prompt params)]
          else []).
  split; [reflexivity|].
  split; [destruct (_ <? _)%float; simpl; lia|].
  split; [destruct (truthy (token tm')); simpl; lia|].
  split; [destruct (_ <? _)%float; repeat constructor|].
  split.
  - destruct (truthy (token tm')); constructor; [|constructor].
    unfold to_generation. cbn [url generation_request]. now apply str_eqb_eq.
  - intros G. exists (token tm'). rewrite E. split; [reflexivity|].
    destruct (truthy (token tm')); [reflexivity | now contradiction G].
Qed.

(** X23: [generate_text] returns a value only when [get_token] gave a truthy
    token, the generation endpoint answered the request with status 200 and
    a body that parses, and the value is what the chain of [get] and index
    0 finds in the parsed body. *)
Theorem generate_text_returns_only_on_200 :
  forall (time_time : nat -> float) (requests_post : nat -> request -> reply)
         (json_loads : str -> option value) (svc : WatsonXService)
         (prompt : str) (system_prompt params v : value) (s : state),
    fst (generate_text time_time requests_post json_loads svc prompt system_prompt
           params s) = Return v ->
    exists (tok : value) (s1 : state) (text : str) (result : value),
      get_token time_time requests_post json_loads s = (Return tok, s1)
      /\ truthy tok = true
      /\ requests_post (length (sent s1))
           (generation_request svc tok (payload_of svc prompt system_prompt params))
         = Response 200 text
      /\ json_loads text = Some result
      /\ generated_text_of result = Return v.
Proof.
  intros time_time requests_post json_loads svc prompt system_prompt params v s.
  destruct (token_manager s) as [tm|] eqn:Htm.
  2:{ rewrite generate_text_without_manager by exact Htm. discriminate. }
  destruct (get_token_returns time_time requests_post json_loads s tm Htm)
    as (tm' & E & _).
  rewrite (generate_text_run _ _ _ svc prompt system_prompt params s _ _ E).
  destruct (truthy (token tm')) eqn:T; cbn [negb]; [|discriminate].
  cbv zeta. destruct (requests_post _ _) as [|code text] eqn:Q; [discriminate|].
  destruct (code =? 200)%Z eqn:C; cbn [negb]; [|discriminate].
  apply Z.eqb_eq in C. subst code.
  destruct (json_loads text) as [result|] eqn:J; [|discriminate].
  cbn [fst]. intros G.
  exists (token tm'), (snd (get_token time_time requests_post json_loads s)),
         text, result.
  split; [exact E|]. split; [exact T|]. split; [exact Q|]. split; [exact J | exact G].
Qed.

Lemma generate_text_returns_only_on_200_witness :
  exists (tok : Py.value) (s1 : Service.state) (text : Py.str) (result : Py.value),
    Service.get_token Examples.the_clock
      (Examples.network Examples.token_reply Examples.hello_reply) Json.loads
      (Examples.started Examples.the_clock
         (Examples.network Examples.token_reply Examples.hello_reply))
    = (Py.Return tok, s1)
    /\ Py.truthy tok = true
    /\ Examples.network Examples.token_reply Examples.hello_reply
         (length (Service.sent s1))
         (Service.generation_request Examples.the_service tok
            (Service.payload_of Examples.the_service (Py.py "hi") Py.VNone Py.VNone))
       = Service.Response 200 text
    /\ Json.loads text = Some result
    /\ Service.generated_text_of result = Py.Return (Py.VStr (Py.py "hello")).
Proof.
  refine (generate_text_returns_only_on_200 Examples.the_clock
            (Examples.network Examples.token_reply Examples.hello_reply) Json.loads
            Examples.the_service (Py.py "hi") Py.VNone Py.VNone
            (Py.VStr (Py.py "hello"))
            (Examples.started Examples.the_clock
               (Examples.network Examples.token_reply Examples.hello_reply)) _).
  vm_compute. reflexivity.
Defined.

(** X4: the start-up block never raises. With a falsy key or a falsy space
    id both globals are [None] and nothing is sent; with both truthy the
    manager is built on the key, and the service exists exactly when the
    token the manager gives on the check is truthy. *)
Theorem startup_service_iff_token :
  forall (time_time : nat -> float) (requests_post : nat -> request -> reply)
         (json_loads : str -> option value) (key space : value) (url_ : str)
         (s0 : state),
    fst (startup time_time requests_post json_loads key space url_ s0) = Return tt
    /\ (truthy key = false \/ truthy space = false ->
        snd (startup time_time requests_post json_loads key space url_ s0)
        = mk_state None None (clock_reads s0) (sent s0))
    /\ (truthy key = true -> truthy space = true ->
        exists tm : TokenManager,
          token_manager (snd (startup time_time requests_post json_loads key space
                                url_ s0)) = Some tm
          /\ api_key tm = key
          /\ watson_service (snd (startup time_time requests_post json_loads key space
                                    url_ s0))
             = (if truthy (token tm) then Some (mk_WatsonXService url_ space) else None)).
Proof.
  intros time_time requests_post json_loads key space url_ s0.
  unfold startup.
  destruct (truthy key) eqn:K; destruct (truthy space) eqn:S; cbn [negb orb];
    try (split; [reflexivity|]; split; [reflexivity | discriminate]).
  unfold try_except, bind, TokenManager_init, bind, set_self, ret.
  set (s1 := with_manager (Some (mk_TokenManager key VNone 0)) s0).
  assert (H1 : token_manager s1 = Some (mk_TokenManager key VNone 0)) by reflexivity.
  pose proof (refresh_token_run time_time requests_post json_loads s1 _ H1) as R.
  cbv zeta in R.
  pose proof (refreshed_api_key json_loads (mk_TokenManager key VNone 0)
                (requests_post (length (sent s1))
                   (iam_request (api_key (mk_TokenManager key VNone 0))))
                (time_time (clock_reads s1))) as A1.
  destruct (refreshed json_loads _ _ _) as [[ok tm1] ticked]. cbn [fst snd] in A1.
  rewrite R. clear R.
  match goal with |- context [get_token _ _ _ ?st] => set (s2 := st) end.
  assert (H2 : token_manager s2 = Some tm1) by reflexivity.
  destruct (get_token_api_key time_time requests_post json_loads s2 tm1 H2)
    as (tm2 & E & M & A2 & W).
  rewrite E.
  destruct (truthy (token tm2)) eqn:T; cbn [negb].
  - unfold set_watson_service. cbn [fst snd].
    split; [reflexivity|]. split; [intros [X|X]; discriminate|].
    intros _ _. exists tm2. cbn [token_manager watson_service].
    rewrite M, T. repeat split. rewrite A2, A1. reflexivity.
  - unfold raise, set_watson_service. cbn [fst snd].
    split; [reflexivity|]. split; [intros [X|X]; discriminate|].
    intros _ _. exists tm2. cbn [token_manager watson_service].
    rewrite M, T. repeat split. rewrite A2, A1. reflexivity.
Qed.

(** X5: the recovery code of [analyze_recording] extends that of
    [analyze_prd]: on every model answer on which [analyze_prd] does not end
    in its own parse failure, both give the same outcome. *)
Theorem recording_parse_extends_prd_parse :
  forall (json_loads : str -> option value) (response : str),
    analyze_prd_parse json_loads response <> Raise parse_failure ->
    analyze_recording_parse json_loads response
    = analyze_prd_parse json_loads response.
Proof.
  intros json_loads response H.
  unfold analyze_recording_parse, analyze_prd_parse in *.
  destruct (json_loads response); [reflexivity|].
  destruct (search_fence response); [reflexivity|].
  now contradiction H.
Qed.

Lemma recording_parse_extends_prd_parse_witness :
  Extractor.analyze_recording_parse Json.loads Cases.fenced_text
  = Extractor.analyze_prd_parse Json.loads Cases.fenced_text.
Proof.
  apply recording_parse_extends_prd_parse. vm_compute. discriminate.
Defined.

(* ================================================================== *)
(** * Facts about the routes that call the model *)
(* ================================================================== *)

Import Routes.

Section RouteFacts.
Variable time_time : nat -> float.
Variable requests_post : nat -> request -> reply.
Variable json_loads : str -> option value.
Variable str_of_exception : exn -> str.
Variable str_of_value : value -> str.
Variable json_dumps : value -> str.

Lemma prd_result_dict (response v : value) :
  prd_result json_loads response = Return v ->
  exists (text : str) (d : dict),
    response = VStr text
    /\ analyze_prd_parse json_loads text = Return (VDict d)
    /\ v = VDict d.
Proof.
  unfold prd_result, loads_response.
  destruct response as [ | | | |text| | ]; try discriminate.
  destruct (analyze_prd_parse json_loads text) as [result|e] eqn:A; [|discriminate].
  unfold get. destruct result as [ | | | | | |d]; try discriminate.
  intros H. exists text, d. split; [reflexivity|]. split; [exact A|].
  destruct (dict_lookup d (py "test_cases")) as [tc|].
  - destruct (len tc); [now injection H | discriminate].
  - cbn in H. now injection H.
Qed.

Lemma recording_result_dict (response v : value) :
  recording_result json_loads response = Return v ->
  exists (text : str) (d : dict),
    response = VStr text
    /\ analyze_recording_parse json_loads text = Return (VDict d)
    /\ v = VDict d.
Proof.
  unfold recording_result, loads_response.
  destruct response as [ | | | |text| | ]; try discriminate.
  destruct (analyze_recording_parse json_loads text) as [result|e] eqn:A; [|discriminate].
  unfold get. destruct result as [ | | | | | |d]; try discriminate.
  intros H. exists text, d. split; [reflexivity|]. split; [exact A|].
  destruct (dict_lookup d (py "test_cases")) as [tc|].
  - destruct (len tc); [now injection H | discriminate].
  - cbn in H. now injection H.
Qed.

Lemma cucumber_result_sized (response v : value) :
  cucumber_result json_loads response = Return v ->
  exists (text : str) (n : Z),
    response = VStr text
    /\ analyze_prd_parse json_loads text = Return v
    /\ len v = Return n.
Proof.
  unfold cucumber_result, loads_response.
  destruct response as [ | | | |text| | ]; try discriminate.
  destruct (analyze_prd_parse json_loads text) as [result|e] eqn:A; [|discriminate].
  destruct (len result) as [n|e'] eqn:L; [|discriminate].
  intros [= <-]. now exists text, n.
Qed.

End RouteFacts.

(** X6: [analyze_prd] leaves the state as its one call of the model left it,
    and it either returns a dict, the one its recovery code made of the text
    the model gave, or raises [HTTPException] with status 500 and a detail
    that starts with its own prefix; it returns nothing but dicts, since its
    log line calls [get] on the result. *)
Theorem analyze_prd_returns_objects_or_500 :
  forall (time_time : nat -> float) (requests_post : nat -> request -> reply)
         (json_loads : str -> option value) (str_of_exception : exn -> str)
         (content : str) (s : state),
    snd (analyze_prd time_time requests_post json_loads str_of_exception content s)
    = snd (route_generate time_time requests_post json_loads
             (TEST_CASE_PROMPT_HEAD ++ content ++ TEST_CASE_PROMPT_TAIL)
             (VStr SYSTEM_PROMPT) (route_params 0.2) s)
    /\ ((exists (text : str) (d : dict),
           fst (route_generate time_time requests_post json_loads
                  (TEST_CASE_PROMPT_HEAD ++ content ++ TEST_CASE_PROMPT_TAIL)
                  (VStr SYSTEM_PROMPT) (route_params 0.2) s) = Return (VStr text)
           /\ analyze_prd_parse json_loads text = Return (VDict d)
           /\ fst (analyze_prd time_time requests_post json_loads str_of_exception
                     content s) = Return (VDict d))
        \/ (exists e : exn,
              fst (analyze_prd time_time requests_post json_loads str_of_exception
                     content s)
              = Raise (HTTPException 500
                         (py "Error generating test cases: " ++ str_of_exception e)))).
Proof.
  intros time_time requests_post json_loads str_of_exception content s.
  unfold analyze_prd, try_except, bind, lift, raise.
  destruct (route_generate _ _ _ _ _ _ s) as [[response|e] s1]; cbn [fst snd].
  - destruct (prd_result json_loads response) as [v|e] eqn:P; cbn [fst snd].
    + split; [reflexivity|]. left.
      destruct (prd_result_dict json_loads response v P) as (text & d & -> & A & ->).
      now exists text, d.
    + split; [reflexivity|]. right. now exists e.
  - split; [reflexivity|]. right. now exists e.
Qed.

(** X7: [generate_cucumber_features] leaves the state as its one call of the
    model left it, and it either returns what the recovery code made of the
    model's text, which is a list, a dict or a str since its log line takes
    the length, or raises [HTTPException] with status 500 and its own
    prefix. *)
Theorem cucumber_returns_sized_or_500 :
  forall (time_time : nat -> float) (requests_post : nat -> request -> reply)
         (json_loads : str -> option value) (str_of_exception : exn -> str)
         (json_dumps : value -> str) (test_cases : value) (s : state),
    snd (generate_cucumber_features time_time requests_post json_loads
           str_of_exception json_dumps test_cases s)
    = snd (route_generate time_time requests_post json_loads
             (CUCUMBER_PROMPT_HEAD ++ json_dumps test_cases ++ CUCUMBER_PROMPT_TAIL)
             (VStr SYSTEM_PROMPT) (route_params 0.2) s)
    /\ ((exists (text : str) (v : value),
           fst (route_generate time_time requests_post json_loads
                  (CUCUMBER_PROMPT_HEAD ++ json_dumps test_cases
                   ++ CUCUMBER_PROMPT_TAIL)
                  (VStr SYSTEM_PROMPT) (route_params 0.2) s) = Return (VStr text)
           /\ analyze_prd_parse json_loads text = Return v
           /\ ((exists l, v = VList l) \/ (exists d, v = VDict d)
               \/ (exists t, v = VStr t))
           /\ fst (generate_cucumber_features time_time requests_post json_loads
                     str_of_exception json_dumps test_cases s) = Return v)
        \/ (exists e : exn,
              fst (generate_cucumber_features time_time requests_post json_loads
                     str_of_exception json_dumps test_cases s)
              = Raise (HTTPException 500
                         (py "Error generating Cucumber features: "
                          ++ str_of_exception e)))).
Proof.
  intros time_time requests_post json_loads str_of_exception json_dumps test_cases s.
  unfold generate_cucumber_features, try_except, bind, lift, raise.
  destruct (route_generate _ _ _ _ _ _ s) as [[response|e] s1]; cbn [fst snd].
  - destruct (cucumber_result json_loads response) as [v|e] eqn:P; cbn [fst snd].
    + split; [reflexivity|]. left.
      destruct (cucumber_result_sized json_loads response v P) as (text & n & -> & A & L).
      exists text, v. split; [reflexivity|]. split; [exact A|]. split; [|reflexivity].
      destruct v; try discriminate; eauto.
    + split; [reflexivity|]. right. now exists e.
  - split; [reflexivity|]. right. now exists e.
Qed.

Lemma step_lines_non_dict (str_of_value : value -> str) (l : list value) :
  forall (i : nat) (step : value),
    In step l -> (forall d, step <> VDict d) ->
    step_lines str_of_value i l = Raise AttributeError.
Proof.
  induction l as [|x l IH]; intros i step Hin Hnd; [contradiction|].
  cbn [step_lines].
  destruct x as [ | | | | | |d]; try reflexivity.
  destruct Hin as [<-|Hin]; [now contradiction (Hnd d)|].
  unfold step_line, get.
  destruct (dict_lookup d (py "action")); destruct (dict_lookup d (py "selector"));
    destruct (dict_lookup d (py "value"));
    rewrite (IH (S i) step Hin Hnd); reflexivity.
Qed.

Lemma steps_text_of_malformed (str_of_value : value -> str) (steps : value) :
  truthy steps = true ->
  ((forall l, steps <> VList l)
   \/ exists l step, steps = VList l /\ In step l /\ forall d, step <> VDict d) ->
  steps_text_of str_of_value steps = Raise AttributeError
  \/ steps_text_of str_of_value steps = Raise TypeError.
Proof.
  intros T [N | (l & step & -> & Hin & Hnd)].
  - unfold steps_text_of.
    destruct steps as [ | | | |t|l|d]; try (now right).
    + destruct t as [|c t]; [discriminate|]. now left.
    + now contradiction (N l).
    + destruct d as [|[k v] d]; [discriminate|]. now left.
  - left. unfold steps_text_of. cbn [iterate].
    now rewrite (step_lines_non_dict str_of_value l 0 step Hin Hnd).
Qed.

(** X8: a recording whose [steps] are missing or falsy: with a service,
    [analyze_recording] returns the canned answer without steps and touches
    neither the clock, the network nor the globals; without a service it
    raises the 500 of the missing service, the check of the service coming
    first. *)
Theorem recording_without_steps :
  forall (time_time : nat -> float) (requests_post : nat -> request -> reply)
         (json_loads : str -> option value) (str_of_exception : exn -> str)
         (str_of_value : value -> str) (recording : dict) (s : state),
    truthy (match dict_lookup recording (py "steps") with
            | Some steps => steps
            | None => VList []
            end) = false ->
    analyze_recording time_time requests_post json_loads str_of_exception
      str_of_value recording s
    = match watson_service s with
      | Some _ => (Return no_steps_response, s)
      | None =>
          (Raise (HTTPException 500
                    (py "Error generating test cases: "
                     ++ str_of_exception not_initialized)), s)
      end.
Proof.
  intros time_time requests_post json_loads str_of_exception str_of_value
         recording s T.
  unfold analyze_recording, try_except.
  destruct (watson_service s); [|reflexivity].
  unfold recording_plan, get.
  destruct (dict_lookup recording (py "steps")) as [steps|];
    destruct (dict_lookup recording (py "name")); rewrite T; reflexivity.
Qed.

Lemma recording_without_steps_witness :
  Routes.analyze_recording Examples.the_clock
    (Examples.network Examples.token_reply Examples.hello_reply) Json.loads
    Cases.silent Cases.silent Cases.recording_without_steps Cases.serving
  = (Py.Return Routes.no_steps_response, Cases.serving).
Proof.
  refine (recording_without_steps Examples.the_clock
            (Examples.network Examples.token_reply Examples.hello_reply) Json.loads
            Cases.silent Cases.silent Cases.recording_without_steps Cases.serving _).
  vm_compute. reflexivity.
Defined.

(** X9: a recording whose truthy [steps] are not a list, or are a list
    with an item that is not a dict, makes [analyze_recording] raise 500
    before anything is sent and with the state unchanged: with a service
    the detail is the text of an [AttributeError] or a [TypeError], without
    a service it is the text of the error of the missing service, the
    check of the service coming first. *)
Theorem recording_with_malformed_steps :
  forall (time_time : nat -> float) (requests_post : nat -> request -> reply)
         (json_loads : str -> option value) (str_of_exception : exn -> str)
         (str_of_value : value -> str) (recording : dict) (s : state)
         (steps : value),
    dict_lookup recording (py "steps") = Some steps ->
    truthy steps = true ->
    ((forall l, steps <> VList l)
     \/ exists l step, steps = VList l /\ In step l /\ forall d, step <> VDict d) ->
    exists e : exn,
      match watson_service s with
      | Some _ => e = AttributeError \/ e = TypeError
      | None => e = not_initialized
      end
      /\ analyze_recording time_time requests_post json_loads str_of_exception
           str_of_value recording s
         = (Raise (HTTPException 500
                     (py "Error generating test cases: " ++ str_of_exception e)), s).
Proof.
  intros time_time requests_post json_loads str_of_exception str_of_value
         recording s steps L T M.
  unfold analyze_recording, try_except.
  destruct (watson_service s) as [svc|].
  2:{ exists not_initialized. split; reflexivity. }
  unfold recording_plan, get. rewrite L, T. cbn [negb].
  destruct (steps_text_of_malformed str_of_value steps T M) as [E|E].
  - exists AttributeError. split; [now left|].
    destruct (dict_lookup recording (py "name")); rewrite E; reflexivity.
  - exists TypeError. split; [now right|].
    destruct (dict_lookup recording (py "name")); rewrite E; reflexivity.
Qed.

Lemma recording_with_malformed_steps_witness :
  (exists e : Py.exn,
     (e = Py.AttributeError \/ e = Py.TypeError)
     /\ Routes.analyze_recording Examples.the_clock
          (Examples.network Examples.token_reply Examples.hello_reply) Json.loads
          Cases.silent Cases.silent Cases.recording_with_text_step Cases.serving
        = (Py.Raise (Py.HTTPException 500
                       (Py.py "Error generating test cases: " ++ Cases.silent e)),
           Cases.serving))
  /\ (exists e : Py.exn,
        e = Service.not_initialized
        /\ Routes.analyze_recording Examples.the_clock
             (Examples.network Examples.token_reply Examples.hello_reply) Json.loads
             Cases.silent Cases.silent Cases.recording_with_text_step
             Service.initial_state
           = (Py.Raise (Py.HTTPException 500
                          (Py.py "Error generating test cases: " ++ Cases.silent e)),
              Service.initial_state)).
Proof.
  split.
  - refine (recording_with_malformed_steps Examples.the_clock
              (Examples.network Examples.token_reply Examples.hello_reply) Json.loads
              Cases.silent Cases.silent Cases.recording_with_text_step Cases.serving
              (Py.VList [ Py.VDict [ (Py.py "action", Py.VStr (Py.py "click")) ];
                          Py.VStr (Py.py "then wait") ]) _ _ _).
    + reflexivity.
    + reflexivity.
    + right. eexists _, (Py.VStr (Py.py "then wait")).
      split; [reflexivity|]. split; [right; left; reflexivity | discriminate].
  - refine (recording_with_malformed_steps Examples.the_clock
              (Examples.network Examples.token_reply Examples.hello_reply) Json.loads
              Cases.silent Cases.silent Cases.recording_with_text_step
              Service.initial_state
              (Py.VList [ Py.VDict [ (Py.py "action", Py.VStr (Py.py "click")) ];
                          Py.VStr (Py.py "then wait") ]) _ _ _).
    + reflexivity.
    + reflexivity.
    + right. eexists _, (Py.VStr (Py.py "then wait")).
      split; [reflexivity|]. split; [right; left; reflexivity | discriminate].
Defined.

(** X10: [analyze_recording] has three outcomes only: the canned answer
    without steps, a dict that its recovery code made of some text, or
    [HTTPException] with status 500 and its own prefix. *)
Theorem analyze_recording_returns_objects_or_500 :
  forall (time_time : nat -> float) (requests_post : nat -> request -> reply)
         (json_loads : str -> option value) (str_of_exception : exn -> str)
         (str_of_value : value -> str) (recording : dict) (s : state),
    fst (analyze_recording time_time requests_post json_loads str_of_exception
           str_of_value recording s) = Return no_steps_response
    \/ (exists (text : str) (d : dict),
          analyze_recording_parse json_loads text = Return (VDict d)
          /\ fst (analyze_recording time_time requests_post json_loads
                    str_of_exception str_of_value recording s) = Return (VDict d))
    \/ (exists e : exn,
          fst (analyze_recording time_time requests_post json_loads
                 str_of_exception str_of_value recording s)
          = Raise (HTTPException 500
                     (py "Error generating test cases: " ++ str_of_exception e))).
Proof.
  intros time_time requests_post json_loads str_of_exception str_of_value
         recording s.
  unfold analyze_recording, try_except, raise.
  destruct (watson_service s) as [svc|]; [|right; right; now eexists].
  destruct (recording_plan str_of_value recording) as [[prompt|]|e];
    [| now left | right; right; now eexists].
  unfold bind, lift.
  destruct (generate_text _ _ _ svc prompt _ _ s) as [[response|e] s1];
    [|right; right; now eexists].
  destruct (recording_result json_loads response) as [v|e] eqn:P;
    [|right; right; now eexists].
  right; left.
  destruct (recording_result_dict json_loads response v P) as (text & d & _ & A & ->).
  now exists text, d.
Qed.

Lemma error_status_is_error (message : str) (extra : dict) :
  dict_lookup (error_status message ++ extra) (py "status") = Some (VStr (py "error")).
Proof. reflexivity. Qed.

(** X11: [test_api] never raises: it always returns a dict whose [status] is
    [error] or [success], and without a token manager it returns at once,
    the state unchanged. *)
Theorem test_api_never_raises :
  forall (time_time : nat -> float) (requests_post : nat -> request -> reply)
         (json_loads : str -> option value) (str_of_exception : exn -> str)
         (url_ : str) (space : value) (s : state),
    exists d : dict,
      fst (test_api time_time requests_post json_loads str_of_exception url_ space s)
      = Return (VDict d)
      /\ (dict_lookup d (py "status") = Some (VStr (py "error"))
          \/ dict_lookup d (py "status") = Some (VStr (py "success")))
      /\ (token_manager s = None ->
          snd (test_api time_time requests_post json_loads str_of_exception
                 url_ space s) = s).
Proof.
  intros time_time requests_post json_loads str_of_exception url_ space s.
  unfold test_api, try_except.
  destruct (token_manager s) as [tm|] eqn:Htm.
  2:{ eexists. split; [reflexivity|]. split; [left; reflexivity | reflexivity]. }
  destruct (get_token_returns time_time requests_post json_loads s tm Htm)
    as (tm' & E & _).
  unfold bind. rewrite E.
  destruct (truthy (token tm')); cbn [negb].
  2:{ eexists. split; [reflexivity|]. split; [left; reflexivity | discriminate]. }
  unfold post.
  destruct (requests_post _ _) as [|code body].
  { eexists. split; [reflexivity|]. split; [left; reflexivity | discriminate]. }
  destruct (negb (code =? 200)%Z).
  { eexists. split; [reflexivity|]. split; [left; reflexivity | discriminate]. }
  unfold response_json. destruct (json_loads body).
  - eexists. split; [reflexivity|]. split; [right; reflexivity | discriminate].
  - eexists. split; [reflexivity|]. split; [left; reflexivity | discriminate].
Qed.

(** X12: [test_api] reports [success] only when [get_token] gave a truthy
    token, the generation endpoint answered the probe with status 200 and a
    body that parses; the parsed body is the [model_response] of the answer,
    and the probe is the one request sent after those of [get_token]. *)
Theorem test_api_success_means_connected :
  forall (time_time : nat -> float) (requests_post : nat -> request -> reply)
         (json_loads : str -> option value) (str_of_exception : exn -> str)
         (url_ : str) (space : value) (s : state) (d : dict),
    fst (test_api time_time requests_post json_loads str_of_exception url_ space s)
    = Return (VDict d) ->
    dict_lookup d (py "status") = Some (VStr (py "success")) ->
    exists (tok : value) (s1 : state) (body : str) (model_response : value),
      get_token time_time requests_post json_loads s = (Return tok, s1)
      /\ truthy tok = true
      /\ requests_post (length (sent s1)) (test_request url_ space tok)
         = Response 200 body
      /\ json_loads body = Some model_response
      /\ dict_lookup d (py "model_response") = Some model_response
      /\ sent (snd (test_api time_time requests_post json_loads str_of_exception
                      url_ space s))
         = test_request url_ space tok :: sent s1.
Proof.
  intros time_time requests_post json_loads str_of_exception url_ space s d.
  unfold test_api, try_except.
  destruct (token_manager s) as [tm|] eqn:Htm.
  2:{ cbn [fst]. intros [= <-] H. discriminate H. }
  destruct (get_token_returns time_time requests_post json_loads s tm Htm)
    as (tm' & E & _).
  unfold bind. rewrite E.
  destruct (truthy (token tm')) eqn:T; cbn [negb].
  2:{ cbn [fst ret]. intros [= <-] H. discriminate H. }
  unfold post.
  destruct (requests_post _ _) as [|code body] eqn:Q.
  { cbn [fst ret]. intros [= <-] H. discriminate H. }
  destruct (code =? 200)%Z eqn:C; cbn [negb].
  2:{ cbn [fst ret]. intros [= <-] H. discriminate H. }
  apply Z.eqb_eq in C. subst code.
  unfold response_json. destruct (json_loads body) as [m|] eqn:J.
  - cbn [fst snd ret]. intros [= <-] _.
    exists (token tm'), (snd (get_token time_time requests_post json_loads s)), body, m.
    repeat split; try assumption; reflexivity.
  - cbn [fst ret]. intros [= <-] H. discriminate H.
Qed.

Lemma test_api_success_means_connected_witness :
  exists (tok : Py.value) (s1 : Service.state) (body : Py.str)
         (model_response : Py.value),
    Service.get_token Examples.the_clock
      (Examples.network Examples.token_reply Examples.hello_reply) Json.loads
      (Examples.started Examples.the_clock
         (Examples.network Examples.token_reply Examples.hello_reply))
    = (Py.Return tok, s1)
    /\ Py.truthy tok = true
    /\ Examples.network Examples.token_reply Examples.hello_reply
         (length (Service.sent s1))
         (Routes.test_request Examples.the_url Examples.the_space tok)
       = Service.Response 200 body
    /\ Json.loads body = Some model_response
    /\ Py.dict_lookup Cases.connected (Py.py "model_response") = Some model_response
    /\ Service.sent
         (snd (Routes.test_api Examples.the_clock
                 (Examples.network Examples.token_reply Examples.hello_reply)
                 Json.loads Cases.silent Examples.the_url Examples.the_space
                 (Examples.started Examples.the_clock
                    (Examples.network Examples.token_reply Examples.hello_reply))))
       = Routes.test_request Examples.the_url Examples.the_space tok :: Service.sent s1.
Proof.
  refine (test_api_success_means_connected Examples.the_clock
            (Examples.network Examples.token_reply Examples.hello_reply) Json.loads
            Cases.silent Examples.the_url Examples.the_space
            (Examples.started Examples.the_clock
               (Examples.network Examples.token_reply Examples.hello_reply))
            Cases.connected _ _);
    vm_compute; reflexivity.
Defined.

From Stdlib Require Import Permutation Sorted.

(* ================================================================== *)
(** * Facts about the rule-of-thumb routes *)
(* ================================================================== *)

Section HeuristicFacts.
Import Py Routes Heuristics.

Lemma starts_with_spec (p s r : str) :
  starts_with p s = Some r <-> s = p ++ r.
Proof.
  revert s. induction p as [|x p IH]; intros s; cbn [starts_with app].
  - split; [now intros [= ->] | now intros ->].
  - destruct s as [|y s]; [split; discriminate|].
    destruct (N.eqb x y) eqn:E.
    + apply N.eqb_eq in E. subst y. rewrite IH.
      split; [now intros -> | now intros [= ->]].
    + apply N.eqb_neq in E. split; [discriminate | intros [= <- _]; congruence].
Qed.

Lemma is_prefix_spec (p s : str) :
  is_prefix p s = true <-> exists r, s = p ++ r.
Proof.
  unfold is_prefix. destruct (starts_with p s) as [r|] eqn:E.
  - apply starts_with_spec in E. split; [now exists r | reflexivity].
  - split; [discriminate|]. intros [r Hr].
    apply starts_with_spec in Hr. congruence.
Qed.

(** [sub in s] holds exactly when [sub] occurs in [s]. *)
Lemma contains_spec (sub s : str) :
  contains sub s = true <-> exists a b, s = a ++ sub ++ b.
Proof.
  induction s as [|c s IH].
  - cbn [contains]. rewrite orb_false_r, is_prefix_spec. split.
    + intros [r Hr]. now exists [], r.
    + intros (a & b & H). destruct a; [now exists b|discriminate].
  - cbn [contains]. rewrite orb_true_iff, is_prefix_spec, IH. split.
    + intros [[r Hr] | (a & b & ->)].
      * now exists [], r.
      * now exists (c :: a), b.
    + intros (a & b & H). destruct a as [|x a].
      * left. now exists b.
      * right. injection H as _ ->. now exists a, b.
Qed.

Lemma split_not_empty (sep : N) (s : str) : split sep s <> [].
Proof.
  destruct s as [|c s]; cbn [split]; [discriminate|].
  destruct (N.eqb c sep); [discriminate|].
  destruct (split sep s); discriminate.
Qed.

(** [sep.join(s.split(sep))] gives [s] back. *)
Lemma join_split (sep : N) (s : str) : join [sep] (split sep s) = s.
Proof.
  induction s as [|c s IH]; [reflexivity|].
  cbn [split]. pose proof (split_not_empty sep s) as NE.
  destruct (N.eqb c sep) eqn:E.
  - apply N.eqb_eq in E. subst c.
    destruct (split sep s) as [|p ps]; [contradiction|].
    change (join [sep] ([] :: p :: ps)) with ([] ++ [sep] ++ join [sep] (p :: ps)).
    now rewrite IH.
  - destruct (split sep s) as [|p ps]; [contradiction|].
    destruct ps as [|q ps].
    + cbn [join] in *. now rewrite IH.
    + change (join [sep] ((c :: p) :: q :: ps))
        with (c :: (p ++ [sep] ++ join [sep] (q :: ps))).
      change (join [sep] (p :: q :: ps))
        with (p ++ [sep] ++ join [sep] (q :: ps)) in IH.
      now rewrite IH.
Qed.

Lemma split_parts_free (sep : N) (s : str) :
  Forall (fun part => ~ In sep part) (split sep s).
Proof.
  induction s as [|c s IH]; cbn [split].
  - constructor; [now intros []|constructor].
  - destruct (N.eqb c sep) eqn:E.
    + constructor; [now intros []|exact IH].
    + apply N.eqb_neq in E.
      destruct (split sep s) as [|p ps]; [constructor; [|constructor]|].
      * intros [H|[]]. congruence.
      * inversion IH as [|? ? Hp Hps]; subst. constructor; [|exact Hps].
        intros [H|H]; [congruence | now apply Hp].
Qed.

Lemma split_has_second (sep : N) (s : str) :
  In sep s -> exists before part rest, split sep s = before :: part :: rest.
Proof.
  induction s as [|c s IH]; [intros []|]. intros Hin. cbn [split].
  pose proof (split_not_empty sep s) as NE.
  destruct (N.eqb c sep) eqn:E.
  - destruct (split sep s) as [|p ps]; [contradiction|]. now exists [], p, ps.
  - apply N.eqb_neq in E. destruct Hin as [H|H]; [congruence|].
    destruct (IH H) as (b & p & r & ->). now exists (c :: b), p, r.
Qed.

(** What [x > 20] says, [x > 10] says too. *)
Lemma double_gt_20_10 (f : float) :
  PrimFloat.ltb (double_of 20) f = true -> PrimFloat.ltb (double_of 10) f = true.
Proof.
  rewrite !ltb_spec.
  change (Prim2SF (double_of 20)) with (S754_finite false 5629499534213120 (-48)).
  change (Prim2SF (double_of 10)) with (S754_finite false 5629499534213120 (-49)).
  unfold SFltb, SFcompare.
  destruct (Prim2SF f) as [s|s| |s m e]; try discriminate.
  - now destruct s.
  - destruct s; [discriminate|].
    destruct (Z.compare_spec (-48) e) as [E|E|E]; try discriminate.
    + subst e. reflexivity.
    + intros _. destruct (Z.compare_spec (-49) e) as [E1|E1|E1]; [lia | reflexivity | lia].
Qed.

Lemma gt_int_20_10 (x : value) :
  gt_int x 20 = Return true -> gt_int x 10 = Return true.
Proof.
  destruct x as [ |b|z|f| | | ]; cbn [gt_int]; try discriminate.
  - now destruct b.
  - intros [= H]. apply Z.ltb_lt in H. f_equal. apply Z.ltb_lt. lia.
  - intros [= H]. now rewrite (double_gt_20_10 f H).
Qed.

Lemma gt_int_raises (x : value) (n m : Z) (e : exn) :
  gt_int x n = Raise e -> e = TypeError /\ gt_int x m = Raise TypeError.
Proof.
  destruct x; cbn [gt_int]; try discriminate; now intros [= <-].
Qed.

Lemma gt_int_returns (x : value) (n m : Z) (b : bool) :
  gt_int x n = Return b -> exists b', gt_int x m = Return b'.
Proof.
  destruct x; cbn [gt_int]; try discriminate; intros _; now eexists.
Qed.

End HeuristicFacts.

(** X13: [analyze_visual] either returns its analysis, in which the severity
    is [high] only if the anomaly type is [layout_shift] (what exceeds 20
    exceeds 10, also as doubles), or raises 500 with the text of an
    [AttributeError] (the diff data is not a dict) or of a [TypeError] (the
    percentage is not a number). *)
Theorem visual_severity_follows_shift :
  forall (str_of_exception : Py.exn -> Py.str) (request : Py.dict),
    (exists shifted severe : bool,
       Heuristics.analyze_visual str_of_exception request
       = Py.Return (Heuristics.visual_analysis shifted severe)
       /\ (severe = true -> shifted = true))
    \/ (exists e : Py.exn,
          (e = Py.AttributeError \/ e = Py.TypeError)
          /\ Heuristics.analyze_visual str_of_exception request
             = Py.Raise (Py.HTTPException 500 (str_of_exception e))).
Proof.
  intros soe request. unfold Heuristics.analyze_visual, Heuristics.or_500.
  cbn [Py.get Heuristics.and_then].
  destruct (Py.dict_lookup request (Py.py "diffData")) as [diff_data|];
    cbn [Heuristics.and_then].
  - destruct (Py.get diff_data (Py.py "diffPercentage") (Py.VInt 0))
      as [p|e] eqn:G; cbn [Heuristics.and_then].
    + destruct (Heuristics.gt_int p 10) as [shifted|e] eqn:A; cbn [Heuristics.and_then].
      * destruct (Heuristics.gt_int p 20) as [severe|e] eqn:B; cbn [Heuristics.and_then].
        -- left. exists shifted, severe. split; [reflexivity|].
           intros ->. apply gt_int_20_10 in B. congruence.
        -- destruct (gt_int_raises p 20 10 e B) as [-> _].
           right. exists Py.TypeError. split; [now right | reflexivity].
      * destruct (gt_int_raises p 10 10 e A) as [-> _].
        right. exists Py.TypeError. split; [now right | reflexivity].
    + right. exists Py.AttributeError. split; [now left|].
      destruct diff_data as [ | | | | | |d]; cbn [Py.get] in G;
        try (injection G as <-; reflexivity).
      destruct (Py.dict_lookup d _); discriminate.
  - left. exists false, false. split; [reflexivity | discriminate].
Qed.

(** X14: [analyze_visual_similarity] never raises, the index 1 into the
    split selector being guarded by the test for [class=]. With [id=] in the
    selector the answer is the selector after the replacement; else with
    [class=] in it the selector is the join of at least two parts free of
    the equals sign and the answer is built on the second part; else the
    selector comes back as it is. *)
Theorem visual_similarity_never_raises :
  forall (str_of_exception : Py.exn -> Py.str) (selector html : Py.str),
    exists similar : Py.str,
      Heuristics.analyze_visual_similarity str_of_exception selector html
      = Py.Return (Heuristics.similarity similar)
      /\ (Heuristics.contains (Py.py "id=") selector = true ->
          similar = Heuristics.replace (Py.py "id=") (Py.py "class*=") selector)
      /\ (Heuristics.contains (Py.py "id=") selector = false ->
          Heuristics.contains (Py.py "class=") selector = true ->
          exists (before part : Py.str) (rest : list Py.str),
            selector = Routes.join [Heuristics.EQUALS] (before :: part :: rest)
            /\ Forall (fun p => ~ In Heuristics.EQUALS p) (before :: part :: rest)
            /\ similar = (Py.py "text=/" ++ part ++ Py.py "/")%list)
      /\ (Heuristics.contains (Py.py "id=") selector = false ->
          Heuristics.contains (Py.py "class=") selector = false ->
          similar = selector).
Proof.
  intros soe selector html.
  unfold Heuristics.analyze_visual_similarity, Heuristics.or_500.
  destruct (Heuristics.contains (Py.py "id=") selector) eqn:I;
    cbn [Heuristics.and_then].
  { eexists. split; [reflexivity|]. repeat split; try discriminate. }
  destruct (Heuristics.contains (Py.py "class=") selector) eqn:C;
    cbn [Heuristics.and_then].
  2:{ eexists. split; [reflexivity|]. repeat split; try discriminate. }
  assert (Hin : In Heuristics.EQUALS selector).
  { apply contains_spec in C. destruct C as (a & b & ->).
    apply in_or_app. right. apply in_or_app. left.
    vm_compute. tauto. }
  destruct (split_has_second _ _ Hin) as (before & part & rest & S).
  pose proof (join_split Heuristics.EQUALS selector) as J.
  pose proof (split_parts_free Heuristics.EQUALS selector) as F.
  rewrite S in J, F |- *. cbn [Heuristics.index1 Heuristics.and_then].
  eexists. split; [reflexivity|].
  split; [discriminate|]. split; [|discriminate].
  intros _ _. exists before, part, rest. now rewrite J.
Qed.

Section ModelFacts.
Import Py Routes Heuristics.

Lemma str_eqb_refl (a : str) : str_eqb a a = true.
Proof. now apply str_eqb_eq. Qed.

Lemma str_eqb_neq (a b : str) : str_eqb a b = false <-> a <> b.
Proof.
  split.
  - intros E H. apply str_eqb_eq in H. congruence.
  - intros N. destruct (str_eqb a b) eqn:E; [|reflexivity].
    apply str_eqb_eq in E. contradiction.
Qed.

(** Reading a dict after [d[k] = v]. *)
Lemma dict_lookup_set (d : dict) (k k' : str) (v : value) :
  dict_lookup (dict_set d k v) k'
  = if str_eqb k' k then Some v else dict_lookup d k'.
Proof.
  induction d as [|[k0 v0] d IH]; cbn [dict_set dict_lookup].
  - reflexivity.
  - destruct (str_eqb k k0) eqn:A; cbn [dict_lookup].
    + apply str_eqb_eq in A. subst k0. now destruct (str_eqb k' k).
    + rewrite IH. destruct (str_eqb k' k0) eqn:B; [|reflexivity].
      apply str_eqb_eq in B. subst k0.
      destruct (str_eqb k' k) eqn:C; [|reflexivity].
      apply str_eqb_eq in C. subst k'. rewrite str_eqb_refl in A. discriminate.
Qed.

Lemma collect_samples_length (training_data : list dict) :
  forall (X : list (list value)) (y : list value),
    length (fst (collect_samples training_data X y))
    = (length X + length training_data)%nat.
Proof.
  induction training_data as [|sample rest IH]; intros X y; cbn [collect_samples].
  - cbn. lia.
  - rewrite IH, length_app. cbn [length]. lia.
Qed.

Lemma train_model_in_models (model_type model_name : str) (training_data : list dict)
    (ml_models : models) (name : str) :
  in_models (snd (train_model model_type model_name training_data ml_models)) name
  = in_models ml_models name
    || registers name (model_type, model_name, training_data).
Proof.
  unfold train_model, registers.
  pose proof (collect_samples_length training_data [] []) as L.
  destruct (collect_samples training_data [] []) as [X y]. cbn [fst length] in L.
  rewrite L. cbn [Nat.add].
  destruct (str_eqb model_type (py "classification")); cbn [andb snd];
    [|now rewrite orb_false_r].
  destruct (10 <? Z.of_nat (length training_data))%Z; cbn [andb snd];
    [|now rewrite orb_false_r].
  unfold in_models. rewrite dict_lookup_set.
  destruct (str_eqb name model_name); [now rewrite orb_true_r|].
  now rewrite orb_false_r.
Qed.

Lemma train_all_in_models (requests : list (str * str * list dict)) :
  forall (ml_models : models) (name : str),
    in_models (train_all requests ml_models) name
    = in_models ml_models name || existsb (registers name) requests.
Proof.
  induction requests as [|[[model_type model_name] training_data] rest IH];
    intros ml_models name.
  - cbn. now rewrite orb_false_r.
  - cbn [train_all existsb]. rewrite IH, train_model_in_models.
    now rewrite orb_assoc.
Qed.

End ModelFacts.

(** X16: after a run of [train_model] calls a name is in [ml_models] exactly
    when it was there before or one of the calls had the model type
    [classification], that name, and more than ten samples. *)
Theorem model_known_iff_registered :
  forall (requests : list (Py.str * Py.str * list Py.dict))
         (ml_models : Heuristics.models) (name : Py.str),
    Heuristics.in_models (Heuristics.train_all requests ml_models) name = true
    <-> Heuristics.in_models ml_models name = true
        \/ exists (model_type : Py.str) (training_data : list Py.dict),
             In (model_type, name, training_data) requests
             /\ model_type = Py.py "classification"
             /\ 10 < length training_data.
Proof.
  intros requests ml_models name.
  rewrite train_all_in_models, orb_true_iff, existsb_exists.
  split; (intros [H|H]; [now left | right]).
  - destruct H as ([[model_type model_name] training_data] & Hin & R).
    unfold Heuristics.registers in R.
    apply andb_true_iff in R. destruct R as [R N].
    apply andb_true_iff in R. destruct R as [T L].
    apply str_eqb_eq in N, T. apply Z.ltb_lt in L. subst.
    exists (Py.py "classification"), training_data.
    split; [exact Hin|]. split; [reflexivity | lia].
  - destruct H as (model_type & training_data & Hin & -> & L).
    exists (Py.py "classification", name, training_data). split; [exact Hin|].
    unfold Heuristics.registers.
    rewrite !str_eqb_refl. cbn [andb]. rewrite andb_true_r.
    apply Z.ltb_lt. lia.
Qed.

(** X17: from the empty [ml_models] of a new process, after a run of
    [train_model] calls none of which registered the name, [predict] for
    that name answers [False] whatever the features are. *)
Theorem predict_without_training :
  forall (str_of_exception : Py.exn -> Py.str)
         (requests : list (Py.str * Py.str * list Py.dict))
         (name : Py.str) (features : Py.dict),
    existsb (Heuristics.registers name) requests = false ->
    Heuristics.predict str_of_exception name features
      (Heuristics.train_all requests [])
    = Py.Return (Heuristics.prediction false).
Proof.
  intros soe requests name features H. unfold Heuristics.predict.
  rewrite train_all_in_models, H. reflexivity.
Qed.

Lemma predict_without_training_witness :
  Heuristics.predict Cases.silent (Py.py "flaky")
    [ (Py.py "code_complexity", Py.VInt 9) ]
    (Heuristics.train_all Cases.unregistered [])
  = Py.Return (Heuristics.prediction false).
Proof.
  apply predict_without_training. vm_compute. reflexivity.
Defined.

(** X18: from the empty [ml_models] of a new process, [predict] answers
    [True] only for a name that one of the [train_model] calls registered
    and for features whose [code_complexity] is present and exceeds 7. *)
Theorem predicts_failure_only_when_trained :
  forall (str_of_exception : Py.exn -> Py.str)
         (requests : list (Py.str * Py.str * list Py.dict))
         (name : Py.str) (features : Py.dict),
    Heuristics.predict str_of_exception name features
      (Heuristics.train_all requests [])
    = Py.Return (Heuristics.prediction true) ->
    existsb (Heuristics.registers name) requests = true
    /\ exists complexity : Py.value,
         Py.dict_lookup features (Py.py "code_complexity") = Some complexity
         /\ Heuristics.gt_int complexity 7 = Py.Return true.
Proof.
  intros soe requests name features. unfold Heuristics.predict.
  rewrite train_all_in_models. cbn [Heuristics.in_models Py.dict_lookup orb].
  destruct (existsb (Heuristics.registers name) requests);
    cbn [Heuristics.or_500]; [|discriminate].
  cbn [Py.get Heuristics.and_then].
  destruct (Py.dict_lookup features (Py.py "code_complexity")) as [c|];
    cbn [Heuristics.and_then].
  - destruct (Heuristics.gt_int c 7) as [b|e] eqn:G;
      cbn [Heuristics.and_then Heuristics.or_500]; [|discriminate].
    intros [= ->]. split; [reflexivity|]. now exists c.
  - cbn. discriminate.
Qed.

Lemma predicts_failure_only_when_trained_witness :
  existsb (Heuristics.registers (Py.py "flaky")) Cases.registered = true
  /\ exists complexity : Py.value,
       Py.dict_lookup [ (Py.py "code_complexity", Py.VFloat 7.5) ]
         (Py.py "code_complexity") = Some complexity
       /\ Heuristics.gt_int complexity 7 = Py.Return true.
Proof.
  apply (predicts_failure_only_when_trained Cases.silent Cases.registered
           (Py.py "flaky") [ (Py.py "code_complexity", Py.VFloat 7.5) ]).
  vm_compute. reflexivity.
Defined.

(** X19: [analyze_issue] never raises; its analysis has a [testCase] exactly
    when [isBug] is [True], which is exactly when the lowered comment
    contains one of the five bug words, and a severity [high] implies
    [isBug]. *)
Theorem issue_test_case_iff_bug :
  forall (str_of_exception : Py.exn -> Py.str) (lower : Py.str -> Py.str)
         (comment screenshot : Py.str),
    exists (analysis : Py.dict) (is_bug : bool),
      Heuristics.analyze_issue str_of_exception lower comment screenshot
      = Py.Return (Py.VDict analysis)
      /\ Py.dict_lookup analysis (Py.py "isBug") = Some (Py.VBool is_bug)
      /\ Py.dict_lookup analysis (Py.py "testCase")
         = (if is_bug then Some Heuristics.ISSUE_TEST_CASE else None)
      /\ (is_bug = true
          <-> exists word a b : Py.str,
                In word Heuristics.BUG_WORDS
                /\ lower comment = (a ++ word ++ b)%list)
      /\ (Py.dict_lookup analysis (Py.py "severity") = Some (Py.VStr (Py.py "high"))
          -> is_bug = true).
Proof.
  intros soe lower comment screenshot.
  unfold Heuristics.analyze_issue, Heuristics.or_500.
  set (is_bug := existsb (fun word => Heuristics.contains word (lower comment))
                   Heuristics.BUG_WORDS).
  assert (B : is_bug = true
              <-> exists word a b : Py.str,
                    In word Heuristics.BUG_WORDS
                    /\ lower comment = (a ++ word ++ b)%list).
  { unfold is_bug. rewrite existsb_exists. split.
    - intros (word & Hin & C). apply contains_spec in C.
      destruct C as (a & b & C). now exists word, a, b.
    - intros (word & a & b & Hin & C). exists word. split; [exact Hin|].
      apply contains_spec. now exists a, b. }
  assert (S : Heuristics.contains (Py.py "error") (lower comment) = true
              -> is_bug = true).
  { intros C. unfold is_bug. cbn [Heuristics.BUG_WORDS existsb].
    now rewrite C. }
  clearbody is_bug.
  destruct (Heuristics.contains (Py.py "error") (lower comment)) eqn:E.
  - rewrite (S eq_refl) in *. eexists _, true. split; [reflexivity|].
    repeat split; try reflexivity; try (now apply B); now intros _.
  - destruct is_bug; eexists _, _; (split; [reflexivity|]);
      (split; [reflexivity|]); (split; [reflexivity|]); (split; [exact B|]);
      intros H; vm_compute in H; discriminate H.
Qed.

Section PatternFacts.
Import Py Routes Heuristics.

Variable equal : value -> value -> bool.

Local Abbreviation list_equal := (Heuristics.list_equal equal).

Lemma search_repeat_spec (observations seq_ : list value) (js : list nat)
    (patterns : list value) :
  search_repeat equal observations seq_ js patterns
  = if existsb (fun j => list_equal (slice observations j (j + 3)) seq_) js
    then patterns ++ [sequence_pattern seq_]
    else patterns.
Proof.
  induction js as [|j js IH]; cbn [search_repeat existsb]; [reflexivity|].
  destruct (list_equal (slice observations j (j + 3)) seq_); [reflexivity|].
  exact IH.
Qed.

Lemma search_sequences_spec (observations : list value) (is_ : list nat) :
  forall patterns : list value,
    search_sequences equal observations is_ patterns
    = patterns
      ++ map (fun i => sequence_pattern (slice observations i (i + 3)))
           (filter (repeats equal observations) is_).
Proof.
  induction is_ as [|i is_ IH]; intros patterns;
    cbn [search_sequences filter map].
  - now rewrite app_nil_r.
  - rewrite IH, search_repeat_spec. fold (repeats equal observations i).
    destruct (repeats equal observations i); cbn [map]; [|reflexivity].
    now rewrite <- app_assoc.
Qed.

Lemma repeats_spec (observations : list value) (i : nat) :
  repeats equal observations i = true
  <-> exists j, i + 3 <= j /\ j + 3 <= length observations
                /\ list_equal (slice observations j (j + 3))
                     (slice observations i (i + 3)) = true.
Proof.
  unfold repeats, range. rewrite existsb_exists. split.
  - intros (j & Hin & E). apply in_seq in Hin. exists j. repeat split; [lia|lia|exact E].
  - intros (j & A & B & E). exists j. split; [apply in_seq; lia | exact E].
Qed.

Lemma filter_seq_increasing (p : nat -> bool) (n : nat) :
  forall a, StronglySorted lt (filter p (seq a n)).
Proof.
  induction n as [|n IH]; intros a; cbn [seq filter]; [constructor|].
  destruct (p a); [|apply IH].
  constructor; [apply IH|].
  apply Forall_forall. intros x Hx. apply filter_In in Hx.
  destruct Hx as [Hx _]. apply in_seq in Hx. lia.
Qed.

End PatternFacts.

(** X20: [discover_patterns] never raises and reports, in increasing order of
    the index and cut to five, one pattern for each index [i] whose three
    observations come again at some [j >= i + 3]; each pattern shows the
    first two of the three. So with fewer than six observations nothing is
    reported. *)
Theorem discover_patterns_reports_repeats :
  forall (str_of_exception : Py.exn -> Py.str)
         (equal : Py.value -> Py.value -> bool) (observations : list Py.value),
    exists found : list nat,
      Heuristics.discover_patterns str_of_exception equal observations
      = Py.Return
          (Heuristics.patterns_answer
             (firstn 5
                (map (fun i => Heuristics.sequence_pattern
                                 (Heuristics.slice observations i (i + 3)))
                   found)))
      /\ StronglySorted lt found
      /\ forall i : nat,
           In i found
           <-> exists j : nat,
                 i + 3 <= j /\ j + 3 <= length observations
                 /\ Heuristics.list_equal equal
                      (Heuristics.slice observations j (j + 3))
                      (Heuristics.slice observations i (i + 3)) = true.
Proof.
  intros soe equal observations.
  exists (filter (Heuristics.repeats equal observations)
            (Heuristics.range 0 (length observations - 2))).
  split; [|split].
  - unfold Heuristics.discover_patterns, Heuristics.or_500.
    destruct (3 <? Z.of_nat (length observations))%Z eqn:L.
    + rewrite search_sequences_spec. reflexivity.
    + apply Z.ltb_ge in L.
      replace (length observations - 2) with (length observations - 2 - 0) by lia.
      assert (E : filter (Heuristics.repeats equal observations)
                    (Heuristics.range 0 (length observations - 2 - 0)) = []).
      { remember (Heuristics.range 0 (length observations - 2 - 0)) as l eqn:Hl.
        clear Hl. induction l as [|i l IH]; [reflexivity|]. cbn [filter].
        destruct (Heuristics.repeats equal observations i) eqn:R; [|exact IH].
        apply repeats_spec in R. destruct R as (j & ? & ? & _). lia. }
      rewrite E. reflexivity.
  - apply filter_seq_increasing.
  - intros i. rewrite filter_In, repeats_spec. unfold Heuristics.range.
    rewrite in_seq. split.
    + now intros [_ H].
    + intros (j & A & B & E). split; [lia | now exists j].
Qed.

Section DataPatternFacts.
Import Py Routes Heuristics.

Lemma insert_perm (z : Z) (l : list Z) : Permutation (insert z l) (z :: l).
Proof.
  induction l as [|y l IH]; cbn [insert]; [reflexivity|].
  destruct (z <=? y)%Z; [reflexivity|].
  rewrite IH. apply perm_swap.
Qed.

Lemma sorted_perm (l : list Z) : Permutation (sorted l) l.
Proof.
  induction l as [|z l IH]; [reflexivity|].
  change (sorted (z :: l)) with (insert z (sorted l)).
  now rewrite insert_perm, IH.
Qed.

Lemma insert_sorted (z : Z) (l : list Z) :
  StronglySorted Z.le l -> StronglySorted Z.le (insert z l).
Proof.
  induction 1 as [|y l S IH F]; cbn [insert].
  - constructor; constructor.
  - destruct (Z.leb_spec z y) as [L|L].
    + constructor; [now constructor|].
      constructor; [exact L|].
      eapply Forall_impl; [|exact F]. cbn. intros; lia.
    + constructor; [exact IH|].
      eapply Permutation_Forall; [symmetry; apply insert_perm|].
      constructor; [lia | exact F].
Qed.

Lemma sorted_sorted (l : list Z) : StronglySorted Z.le (sorted l).
Proof.
  induction l as [|z l IH]; [constructor|].
  change (sorted (z :: l)) with (insert z (sorted l)).
  now apply insert_sorted.
Qed.

(** Two sorted lists with the same items are the same list. *)
Lemma sorted_unique (a : list Z) :
  forall b, StronglySorted Z.le a -> StronglySorted Z.le b ->
            Permutation a b -> a = b.
Proof.
  induction a as [|x a IH]; intros b Sa Sb P.
  - apply Permutation_nil in P. now subst.
  - destruct b as [|y b]; [symmetry in P; now apply Permutation_nil in P|].
    inversion Sa as [|? ? Sa' Fa]; inversion Sb as [|? ? Sb' Fb]; subst.
    assert (x = y) as ->.
    { assert (Hx : In x (y :: b)) by (eapply Permutation_in; [exact P | now left]).
      assert (Hy : In y (x :: a))
        by (eapply Permutation_in; [symmetry; exact P | now left]).
      rewrite Forall_forall in Fa, Fb.
      destruct Hx as [->|Hx]; [reflexivity|]. destruct Hy as [->|Hy]; [reflexivity|].
      specialize (Fa y Hy). specialize (Fb x Hx). lia. }
    f_equal. apply IH; [exact Sa' | exact Sb' |].
    eapply Permutation_cons_inv; exact P.
Qed.

Lemma int_range_cons (a b : Z) :
  (a < b)%Z -> int_range a b = a :: int_range (a + 1) b.
Proof.
  intros L. unfold int_range.
  replace (Z.to_nat (b - a)) with (S (Z.to_nat (b - (a + 1)))) by lia.
  cbn [seq map]. rewrite <- seq_shift, map_map. f_equal; [lia|].
  apply map_ext. intros k. lia.
Qed.

Lemma int_range_nil (a b : Z) : (b <= a)%Z -> int_range a b = [].
Proof.
  intros L. unfold int_range. now replace (Z.to_nat (b - a)) with 0%nat by lia.
Qed.

Lemma int_range_length (a b : Z) : length (int_range a b) = Z.to_nat (b - a).
Proof. unfold int_range. now rewrite length_map, length_seq. Qed.

Lemma int_range_in (a b z : Z) : In z (int_range a b) <-> (a <= z < b)%Z.
Proof.
  unfold int_range. rewrite in_map_iff. split.
  - intros (k & <- & Hk). apply in_seq in Hk. lia.
  - intros H. exists (Z.to_nat (z - a)). split; [lia|]. apply in_seq. lia.
Qed.

Lemma int_range_sorted (n : nat) :
  forall a, StronglySorted Z.le (int_range a (a + Z.of_nat n)).
Proof.
  induction n as [|n IH]; intros a.
  - rewrite int_range_nil by lia. constructor.
  - rewrite int_range_cons by lia.
    replace (a + Z.of_nat (S n))%Z with ((a + 1) + Z.of_nat n)%Z by lia.
    constructor; [apply IH|].
    apply Forall_forall. intros z Hz. apply int_range_in in Hz. lia.
Qed.

Lemma ints_equal_eq (a : list Z) : forall b, ints_equal a b = true <-> a = b.
Proof.
  induction a as [|x a IH]; intros [|y b]; cbn [ints_equal];
    try (split; [discriminate | discriminate]); [tauto|].
  rewrite andb_true_iff, Z.eqb_eq, IH. split.
  - now intros [-> ->].
  - now intros [= -> ->].
Qed.

Lemma last_item_range (n : nat) :
  forall a, last_item (int_range a (a + Z.of_nat (S n))) = Return (a + Z.of_nat n)%Z.
Proof.
  induction n as [|n IH]; intros a.
  - rewrite int_range_cons, int_range_nil by lia. cbn. f_equal. lia.
  - rewrite int_range_cons by lia.
    replace (a + Z.of_nat (S (S n)))%Z with ((a + 1) + Z.of_nat (S n))%Z by lia.
    specialize (IH (a + 1)%Z).
    destruct (int_range (a + 1) (a + 1 + Z.of_nat (S n))) as [|z r] eqn:E.
    + discriminate IH.
    + cbn [last_item]. cbn [last_item] in IH. rewrite IH. f_equal. lia.
Qed.

Lemma first_last_return (l : list Z) :
  l <> [] -> exists first last, first_item l = Return first /\ last_item l = Return last.
Proof.
  induction l as [|z l IH]; [contradiction|]. intros _.
  exists z. destruct l as [|y l].
  - now exists z.
  - destruct IH as (_ & last & _ & H); [discriminate|].
    exists last. split; [reflexivity | exact H].
Qed.

Lemma item_ids_spec (test_data : list dict) :
  forallb has_id test_data = true ->
  exists ids, item_ids test_data = Return ids
              /\ map (fun item => dict_lookup item (py "id")) test_data = map Some ids.
Proof.
  induction test_data as [|item rest IH]; cbn [forallb item_ids map].
  - now exists [].
  - intros H. apply andb_true_iff in H. destruct H as [H R].
    destruct (IH R) as (ids & E & M). unfold has_id, item_id in *.
    destruct (dict_lookup item (py "id")) as [v|]; [|discriminate].
    cbn [and_then]. rewrite E. cbn [and_then]. exists (v :: ids).
    split; [reflexivity|]. cbn [map]. now rewrite M.
Qed.

Lemma int_ids_of_route (test_data : list dict) (ids : list value) :
  map (fun item => dict_lookup item (py "id")) test_data = map Some ids ->
  forallb is_int ids = true ->
  map Heuristics.int_id test_data = map Some (map int_of ids).
Proof.
  revert ids. induction test_data as [|item rest IH]; intros [|v ids];
    cbn [map forallb]; try discriminate; [reflexivity|].
  intros [= E M] H. apply andb_true_iff in H. destruct H as [H R].
  rewrite (IH ids M R). unfold int_id.
  replace (dict_lookup item (py "id")) with (Some v) by (symmetry; exact E).
  f_equal.
  unfold is_int, int_of in *. now destruct (as_int v).
Qed.

Lemma route_of_int_ids (test_data : list dict) (zs : list Z) :
  map Heuristics.int_id test_data = map Some zs ->
  forallb has_id test_data = true
  /\ exists ids, item_ids test_data = Return ids
                 /\ forallb is_int ids = true /\ map int_of ids = zs.
Proof.
  revert zs. induction test_data as [|item rest IH]; intros [|z zs];
    cbn [map forallb item_ids]; try discriminate.
  - intros _. split; [reflexivity|]. now exists [].
  - intros [= E M]. destruct (IH zs M) as (H & ids & I & F & Z).
    unfold int_id in E. unfold has_id at 1. unfold item_id.
    destruct (dict_lookup item (py "id")) as [v|]; [|discriminate].
    split; [exact H|]. exists (v :: ids). cbn [and_then]. rewrite I.
    cbn [and_then forallb map]. split; [reflexivity|].
    rewrite F, Z. unfold is_int, int_of. rewrite E. now split.
Qed.

End DataPatternFacts.

(** X21: whenever [analyze_data_patterns] reports a pattern it is the
    sequential one and the only one, there is more than one item, every
    item has an [id] that is an int (a bool counts), and the ids are a
    rearrangement of consecutive integers. *)
Theorem sequential_means_consecutive :
  forall (str_of_exception : Py.exn -> Py.str) (list_of_range : Z -> option Py.exn)
         (test_data : list Py.dict) (pattern : Py.value) (others : list Py.value),
    Heuristics.analyze_data_patterns str_of_exception list_of_range test_data
    = Py.Return (Heuristics.patterns_answer (pattern :: others)) ->
    pattern = Heuristics.SEQUENTIAL /\ others = []
    /\ 1 < length test_data
    /\ exists (ids : list Z) (first : Z),
         map Heuristics.int_id test_data = map Some ids
         /\ Permutation ids
              (Heuristics.int_range first (first + Z.of_nat (length ids))).
Proof.
  intros soe list_of_range test_data pattern others.
  unfold Heuristics.analyze_data_patterns, Heuristics.or_500.
  destruct (1 <? Z.of_nat (length test_data))%Z eqn:L;
    [|cbn; discriminate].
  apply Z.ltb_lt in L.
  destruct (forallb Heuristics.has_id test_data) eqn:H; [|cbn; discriminate].
  destruct (item_ids_spec test_data H) as (ids & I & M). rewrite I.
  cbn [Heuristics.and_then].
  destruct (forallb Heuristics.is_int ids) eqn:F; [|cbn; discriminate].
  pose proof (int_ids_of_route test_data ids M F) as Hids.
  set (zs := map Heuristics.int_of ids) in *.
  destruct (Heuristics.first_item (Heuristics.sorted zs)) as [first|e] eqn:A;
    cbn [Heuristics.and_then]; [|discriminate].
  destruct (Heuristics.last_item (Heuristics.sorted zs)) as [last|e] eqn:B;
    cbn [Heuristics.and_then]; [|discriminate].
  destruct (list_of_range (last + 1 - first)%Z); cbn [Heuristics.and_then];
    [discriminate|].
  destruct (Heuristics.ints_equal (Heuristics.sorted zs)
              (Heuristics.int_range first (last + 1))) eqn:E;
    cbn [Heuristics.and_then]; [|discriminate].
  intros [= <- <-]. split; [reflexivity|]. split; [reflexivity|].
  split; [lia|]. exists zs, first. split; [exact Hids|].
  apply ints_equal_eq in E.
  assert (Len : length zs = Z.to_nat (last + 1 - first)).
  { rewrite <- (Permutation_length (sorted_perm zs)), E.
    apply int_range_length. }
  assert (Pos : (0 < length zs)%nat).
  { unfold zs. rewrite length_map.
    apply (f_equal (@length _)) in M. rewrite !length_map in M. lia. }
  replace (first + Z.of_nat (length zs))%Z with (last + 1)%Z by lia.
  rewrite <- E. symmetry. apply sorted_perm.
Qed.

Lemma sequential_means_consecutive_witness :
  Heuristics.SEQUENTIAL = Heuristics.SEQUENTIAL /\ @nil Py.value = []
  /\ 1 < length Cases.shuffled_ids
  /\ exists (ids : list Z) (first : Z),
       map Heuristics.int_id Cases.shuffled_ids = map Some ids
       /\ Permutation ids
            (Heuristics.int_range first (first + Z.of_nat (length ids))).
Proof.
  apply (sequential_means_consecutive Cases.silent Cases.always_built
           Cases.shuffled_ids Heuristics.SEQUENTIAL []).
  vm_compute. reflexivity.
Defined.

(** X22: conversely, for more than one item whose ids are ints that
    rearrange consecutive integers, [analyze_data_patterns] reports the
    sequential pattern, provided the list of the range can be built. *)
Theorem consecutive_ids_are_sequential :
  forall (str_of_exception : Py.exn -> Py.str) (list_of_range : Z -> option Py.exn)
         (test_data : list Py.dict) (ids : list Z) (first : Z),
    1 < length test_data ->
    map Heuristics.int_id test_data = map Some ids ->
    Permutation ids (Heuristics.int_range first (first + Z.of_nat (length ids))) ->
    list_of_range (Z.of_nat (length ids)) = None ->
    Heuristics.analyze_data_patterns str_of_exception list_of_range test_data
    = Py.Return (Heuristics.patterns_answer [Heuristics.SEQUENTIAL]).
Proof.
  intros soe list_of_range test_data zs first L M P A.
  unfold Heuristics.analyze_data_patterns, Heuristics.or_500.
  replace (1 <? Z.of_nat (length test_data))%Z with true
    by (symmetry; apply Z.ltb_lt; lia).
  destruct (route_of_int_ids test_data zs M) as (H & ids & I & F & Zs).
  rewrite H, I. cbn [Heuristics.and_then]. rewrite F, Zs.
  assert (Len : length zs = length test_data).
  { apply (f_equal (@length _)) in M. now rewrite !length_map in M. }
  assert (Srt : Heuristics.sorted zs
              = Heuristics.int_range first (first + Z.of_nat (length zs))).
  { apply sorted_unique.
    - apply sorted_sorted.
    - apply int_range_sorted.
    - now rewrite sorted_perm. }
  rewrite Srt.
  destruct (length zs) as [|n] eqn:N; [lia|].
  rewrite last_item_range. rewrite int_range_cons by lia.
  cbn [Heuristics.first_item Heuristics.and_then].
  replace (first + Z.of_nat n + 1 - first)%Z with (Z.of_nat (S n)) by lia.
  rewrite A.
  replace (first + Z.of_nat n + 1)%Z with (first + Z.of_nat (S n))%Z by lia.
  rewrite <- int_range_cons by lia.
  replace (Heuristics.ints_equal _ _) with true
    by (symmetry; now apply ints_equal_eq).
  reflexivity.
Qed.

Lemma consecutive_ids_are_sequential_witness :
  Heuristics.analyze_data_patterns Cases.silent Cases.always_built Cases.shuffled_ids
  = Py.Return (Heuristics.patterns_answer [Heuristics.SEQUENTIAL]).
Proof.
  apply (consecutive_ids_are_sequential Cases.silent Cases.always_built
           Cases.shuffled_ids [3; 1; 2]%Z 1%Z).
  - cbn. lia.
  - reflexivity.
  - change (Permutation [3; 1; 2]%Z [1; 2; 3]%Z).
    eapply perm_trans; [apply perm_swap | apply perm_skip, perm_swap].
  - reflexivity.
Defined.

Section SelectorFacts.
Import Py Routes Heuristics.

Local Abbreviation ID := (py "id=").
Local Abbreviation CLASS := (py "class*=").

Lemma replace_from_skip (old new : str) (r : str) :
  forall k, replace_from old new k r = replace_from old new 0 (skipn k r).
Proof.
  induction r as [|c r IH]; intros [|k]; try reflexivity.
  cbn [replace_from skipn]. apply IH.
Qed.

Lemma is_prefix_cons (x : N) (p : str) (c : N) (s : str) :
  is_prefix (x :: p) (c :: s) = N.eqb x c && is_prefix p s.
Proof. unfold is_prefix. cbn [starts_with]. now destruct (N.eqb x c). Qed.

Lemma is_prefix_nil_r (x : N) (p : str) : is_prefix (x :: p) [] = false.
Proof. reflexivity. Qed.

(** A character copied in front of the rewritten rest does not start a new
    id test. *)
Lemma copied_starts_no_id (c : N) (r : str) :
  is_prefix ID (c :: r) = false ->
  is_prefix ID (c :: replace_from ID CLASS 0 r) = false.
Proof.
  change ID with [105; 100; 61]%N.
  rewrite !is_prefix_cons.
  destruct (N.eqb 105 c); cbn [andb]; [|reflexivity].
  destruct r as [|c2 r2]; [reflexivity|].
  cbn [replace_from].
  destruct (is_prefix [105; 100; 61]%N (c2 :: r2)) eqn:P2.
  { intros _. reflexivity. }
  rewrite !is_prefix_cons.
  destruct (N.eqb 100 c2); cbn [andb]; [|reflexivity].
  destruct r2 as [|c3 r3]; [reflexivity|].
  cbn [replace_from].
  destruct (is_prefix [105; 100; 61]%N (c3 :: r3)) eqn:P3.
  { intros _. reflexivity. }
  rewrite !is_prefix_cons.
  destruct (N.eqb 61 c3); cbn [andb]; [|reflexivity].
  unfold is_prefix. cbn [starts_with]. discriminate.
Qed.

Lemma replace_removes_id_bounded (n : nat) :
  forall s, length s <= n -> contains ID (replace_from ID CLASS 0 s) = false.
Proof.
  induction n as [|n IH]; intros s L.
  - destruct s; [reflexivity | cbn in L; lia].
  - destruct s as [|c r]; [reflexivity|].
    cbn [replace_from].
    destruct (is_prefix ID (c :: r)) eqn:P.
    + apply is_prefix_spec in P. destruct P as [rest P].
      change ID with [105; 100; 61]%N in P. injection P as -> ->.
      change (length ID - 1) with 2.
      change (replace_from ID CLASS 2 (100%N :: 61%N :: rest))
        with (replace_from ID CLASS 0 rest).
      assert (R : contains ID (replace_from ID CLASS 0 rest) = false).
      { apply IH. cbn [length] in L. lia. }
      revert R. generalize (replace_from ID CLASS 0 rest). intros out R.
      cbn. exact R.
    + cbn [contains]. rewrite (copied_starts_no_id c r P). cbn [orb].
      apply IH. cbn [length] in L. lia.
Qed.

Lemma replace_removes_id (s : str) : contains ID (replace ID CLASS s) = false.
Proof. apply (replace_removes_id_bounded (length s)). lia. Qed.

Lemma no_separator_no_id (s : str) : ~ In EQUALS s -> contains ID s = false.
Proof.
  intros N. destruct (contains ID s) eqn:C; [|reflexivity].
  apply contains_spec in C. destruct C as (a & b & ->).
  exfalso. apply N. apply in_or_app. right. apply in_or_app. left.
  vm_compute. tauto.
Qed.

End SelectorFacts.

(** X15: the selector [analyze_visual_similarity] answers with never
    contains [id=]: the replacement removes every occurrence and makes no
    new one, the part taken from a split has no equals sign, and the third
    branch is only reached without [id=]. *)
Theorem similar_selector_never_tests_id :
  forall (str_of_exception : Py.exn -> Py.str) (selector html : Py.str),
    exists similar : Py.str,
      Heuristics.analyze_visual_similarity str_of_exception selector html
      = Py.Return (Heuristics.similarity similar)
      /\ Heuristics.contains (Py.py "id=") similar = false.
Proof.
  intros soe selector html.
  unfold Heuristics.analyze_visual_similarity, Heuristics.or_500.
  destruct (Heuristics.contains (Py.py "id=") selector) eqn:I;
    cbn [Heuristics.and_then].
  { eexists. split; [reflexivity|]. apply replace_removes_id. }
  destruct (Heuristics.contains (Py.py "class=") selector) eqn:C;
    cbn [Heuristics.and_then].
  2:{ eexists. split; [reflexivity | exact I]. }
  assert (Hin : In Heuristics.EQUALS selector).
  { apply contains_spec in C. destruct C as (a & b & ->).
    apply in_or_app. right. apply in_or_app. left.
    vm_compute. tauto. }
  destruct (split_has_second _ _ Hin) as (before & part & rest & S).
  pose proof (split_parts_free Heuristics.EQUALS selector) as F.
  rewrite S in F |- *. cbn [Heuristics.index1 Heuristics.and_then].
  eexists. split; [reflexivity|].
  inversion F as [|? ? _ F']. inversion F' as [|? ? Hp _]. subst.
  assert (T : Heuristics.contains (Py.py "id=") (part ++ Py.py "/") = false).
  { apply no_separator_no_id. intros H. apply in_app_or in H.
    destruct H as [H|H]; [now apply Hp|].
    vm_compute in H. destruct H as [H|[]]. discriminate H. }
  revert T. generalize (part ++ Py.py "/")%list. intros out T.
  cbn. exact T.
Qed.
